(** * Raft simulation of [SD/Scripts/distributed_systems.py]

    A shallow embedding of the [RaftNode] state machine and of the
    [RaftCluster] coordinator, followed by the properties of the
    leader-election and log-replication core that were checked against it.

    Conventions of the embedding.
    - Python integers are unbounded: terms and indices are [Z]; an index may
      be [-1] ("no entry").
    - [time.time()] is a reading of an external clock.  Every method that
      reads the clock takes the reading as an argument [now]; readings and
      the election timeout are integers (milliseconds).  The [timestamp]
      fields of [LogEntry] and [Message], which no method reads, are left out.
    - A method mutates [self] and calls [self.send_message] some number of
      times.  It is embedded as a function from the node before the call to a
      [Run]: the node after the call, the messages passed to
      [self.send_message] in order, and the returned value.
    - The per-node locks are not modelled: every method is one atomic step. *)

From stdpp Require Import gmap strings list.
From Stdlib Require Import ZArith Lia.

Local Open Scope string_scope.
Local Open Scope Z_scope.

Definition Time := Z.

(** ** Python values and containers *)

Module Py.

(** Exceptions the modelled methods can raise. *)
Inductive Exn := KeyError (key : string) | IndexError.

(** How a call ends: it returns a value or raises. *)
Inductive Outcome (A : Type) := Return (a : A) | Raise (e : Exn).
Arguments Return {A} a.
Arguments Raise {A} e.

(** [len(l)] *)
Definition len {A} (l : list A) : Z := Z.of_nat (length l).

(** [l[i]]: negative indices count from the end; out of range raises
    [IndexError] ([None] here). *)
Definition index {A} (l : list A) (i : Z) : option A :=
  if (0 <=? i) && (i <? len l) then l !! Z.to_nat i
  else if (- len l <=? i) && (i <? 0) then l !! Z.to_nat (len l + i)
  else None.

(** [l[-1]] *)
Definition last_item {A} (l : list A) : option A := index l (-1).

(** [l[:j]]: slices clamp instead of raising. *)
Definition slice_to {A} (l : list A) (j : Z) : list A :=
  if 0 <=? j then take (Z.to_nat j) l
  else take (Z.to_nat (Z.max 0 (len l + j))) l.

(** [l[i:]] *)
Definition slice_from {A} (l : list A) (i : Z) : list A :=
  if 0 <=? i then drop (Z.to_nat i) l
  else drop (Z.to_nat (Z.max 0 (len l + i))) l.

(** Truth value of a string: the empty string is false. *)
Definition truthy_str (s : string) : bool :=
  match s with EmptyString => false | String _ _ => true end.

(** Truth value of an [Optional[str]]: [None] and [""] are false. *)
Definition truthy_opt_str (o : option string) : bool :=
  match o with None => false | Some s => truthy_str s end.

(** A [dict] with string keys whose iteration order matters: the entries in
    insertion order, keys pairwise distinct. *)
Definition dict (V : Type) := list (string * V).

(** [d.get(k)] *)
Fixpoint dict_get {V} (k : string) (d : dict V) : option V :=
  match d with
  | [] => None
  | (k', v) :: d' => if decide (k' = k) then Some v else dict_get k d'
  end.

(** [d[k] = v]: an existing key keeps its position. *)
Fixpoint dict_set {V} (k : string) (v : V) (d : dict V) : dict V :=
  match d with
  | [] => [(k, v)]
  | (k', v') :: d' =>
      if decide (k' = k) then (k, v) :: d' else (k', v') :: dict_set k v d'
  end.

(** [d.values()] *)
Definition dict_values {V} (d : dict V) : list V := snd <$> d.

End Py.

Import Py.

(** ** Data model *)

Inductive NodeState := FOLLOWER | CANDIDATE | LEADER | FAILED.

#[global] Instance NodeState_eq_dec : EqDecision NodeState.
Proof. solve_decision. Defined.

Module LogEntry.
Record t := mk { term : Z; index : Z; command : string }.
End LogEntry.

(** The [data] dictionary of a message.  The program builds exactly three
    shapes of it; reading a key that the shape lacks raises [KeyError], and
    [data.get] of such a key is [None]. *)
Inductive Payload :=
| VoteRequestData (last_log_index last_log_term : Z)
| VoteResponseData (vote_granted : bool)
| AppendEntriesData (prev_log_index prev_log_term : Z)
                    (entries : list LogEntry.t) (leader_commit : Z).

Module Message.
Record t := mk {
  type : string;
  from_node : string;
  to_node : string;
  term : Z;
  data : Payload
}.

(** [message.data.get("vote_granted")], taken as a truth value. *)
Definition get_vote_granted (m : t) : bool :=
  match data m with VoteResponseData b => b | _ => false end.
End Message.

(** ** RaftNode *)

Module RaftNode.

Record t := mk {
  node_id : string;
  cluster_nodes : list string;
  state : NodeState;
  current_term : Z;
  voted_for : option string;
  log : list LogEntry.t;
  commit_index : Z;
  last_applied : Z;
  next_index : gmap string Z;
  match_index : gmap string Z;
  election_timeout : Time;
  last_heartbeat : Time;
  votes_received : gset string;
  message_queue : list Message.t;
  is_failed : bool;
  network_partition : bool
}.

(** Attribute assignments. *)
Definition set_state (n : t) (s : NodeState) : t :=
  mk (node_id n) (cluster_nodes n) s (current_term n) (voted_for n) (log n)
     (commit_index n) (last_applied n) (next_index n) (match_index n)
     (election_timeout n) (last_heartbeat n) (votes_received n)
     (message_queue n) (is_failed n) (network_partition n).

Definition set_current_term (n : t) (x : Z) : t :=
  mk (node_id n) (cluster_nodes n) (state n) x (voted_for n) (log n)
     (commit_index n) (last_applied n) (next_index n) (match_index n)
     (election_timeout n) (last_heartbeat n) (votes_received n)
     (message_queue n) (is_failed n) (network_partition n).

Definition set_voted_for (n : t) (v : option string) : t :=
  mk (node_id n) (cluster_nodes n) (state n) (current_term n) v (log n)
     (commit_index n) (last_applied n) (next_index n) (match_index n)
     (election_timeout n) (last_heartbeat n) (votes_received n)
     (message_queue n) (is_failed n) (network_partition n).

Definition set_log (n : t) (l : list LogEntry.t) : t :=
  mk (node_id n) (cluster_nodes n) (state n) (current_term n) (voted_for n) l
     (commit_index n) (last_applied n) (next_index n) (match_index n)
     (election_timeout n) (last_heartbeat n) (votes_received n)
     (message_queue n) (is_failed n) (network_partition n).

Definition set_commit_index (n : t) (x : Z) : t :=
  mk (node_id n) (cluster_nodes n) (state n) (current_term n) (voted_for n)
     (log n) x (last_applied n) (next_index n) (match_index n)
     (election_timeout n) (last_heartbeat n) (votes_received n)
     (message_queue n) (is_failed n) (network_partition n).

Definition set_next_index (n : t) (x : gmap string Z) : t :=
  mk (node_id n) (cluster_nodes n) (state n) (current_term n) (voted_for n)
     (log n) (commit_index n) (last_applied n) x (match_index n)
     (election_timeout n) (last_heartbeat n) (votes_received n)
     (message_queue n) (is_failed n) (network_partition n).

Definition set_match_index (n : t) (x : gmap string Z) : t :=
  mk (node_id n) (cluster_nodes n) (state n) (current_term n) (voted_for n)
     (log n) (commit_index n) (last_applied n) (next_index n) x
     (election_timeout n) (last_heartbeat n) (votes_received n)
     (message_queue n) (is_failed n) (network_partition n).

Definition set_last_heartbeat (n : t) (x : Time) : t :=
  mk (node_id n) (cluster_nodes n) (state n) (current_term n) (voted_for n)
     (log n) (commit_index n) (last_applied n) (next_index n) (match_index n)
     (election_timeout n) x (votes_received n)
     (message_queue n) (is_failed n) (network_partition n).

Definition set_votes_received (n : t) (x : gset string) : t :=
  mk (node_id n) (cluster_nodes n) (state n) (current_term n) (voted_for n)
     (log n) (commit_index n) (last_applied n) (next_index n) (match_index n)
     (election_timeout n) (last_heartbeat n) x
     (message_queue n) (is_failed n) (network_partition n).

Definition set_is_failed (n : t) (x : bool) : t :=
  mk (node_id n) (cluster_nodes n) (state n) (current_term n) (voted_for n)
     (log n) (commit_index n) (last_applied n) (next_index n) (match_index n)
     (election_timeout n) (last_heartbeat n) (votes_received n)
     (message_queue n) x (network_partition n).

Definition set_network_partition (n : t) (x : bool) : t :=
  mk (node_id n) (cluster_nodes n) (state n) (current_term n) (voted_for n)
     (log n) (commit_index n) (last_applied n) (next_index n) (match_index n)
     (election_timeout n) (last_heartbeat n) (votes_received n)
     (message_queue n) (is_failed n) x.

(** The result of running a method on a node. *)
Record Run (A : Type) := mkRun {
  self : t;
  sent : list Message.t;
  ret : A
}.
Arguments mkRun {A} self sent ret.
Arguments self {A} r.
Arguments sent {A} r.
Arguments ret {A} r.

(** [__init__]: [timeout] is the draw of [random.uniform(1.5, 3.0)]. *)
Definition init (id : string) (cluster : list string)
           (timeout now : Time) : t :=
  mk id cluster FOLLOWER 0 None [] 0 0 ∅ ∅ timeout now ∅ [] false false.

(** The other members, in the order of [cluster_nodes]:
    [for node in self.cluster_nodes: if node != self.node_id]. *)
Definition peers (n : t) : list string :=
  filter (λ p, p ≠ node_id n) (cluster_nodes n).

(** [len(self.log) - 1 if self.log else -1] *)
Definition last_log_index_of (l : list LogEntry.t) : Z :=
  match l with [] => -1 | _ :: _ => len l - 1 end.

(** [self.log[-1].term if self.log else 0] *)
Definition last_log_term_of (l : list LogEntry.t) : Z :=
  match l with
  | [] => 0
  | _ :: _ => from_option LogEntry.term 0 (last_item l)
  end.

Definition start_election (n : t) : Run () :=
  if is_failed n then mkRun n [] ()
  else
    let n1 := set_state n CANDIDATE in
    let n2 := set_current_term n1 (current_term n1 + 1) in
    let n3 := set_voted_for n2 (Some (node_id n2)) in
    let n4 := set_votes_received n3 {[ node_id n3 ]} in
    mkRun n4
      ((λ p, Message.mk "vote_request" (node_id n4) p (current_term n4)
               (VoteRequestData (last_log_index_of (log n4))
                                (last_log_term_of (log n4))))
         <$> peers n4)
      ().

(** First part of [handle_vote_request]: "Update term if necessary". *)
Definition adopt_higher_term (n : t) (m : Message.t) : t :=
  if current_term n <? Message.term m then
    let n1 := set_current_term n (Message.term m) in
    let n2 := set_voted_for n1 None in
    set_state n2 FOLLOWER
  else n.

(** [can_vote] as computed on the node after the term update. *)
Definition can_vote (n : t) (m : Message.t) : bool :=
  (current_term n <=? Message.term m) &&
  match voted_for n with
  | None => true
  | Some v => bool_decide (v = Message.from_node m)
  end.

Definition handle_vote_request (n : t) (m : Message.t) : Run bool :=
  if is_failed n then mkRun n [] false
  else
    let n1 := adopt_higher_term n m in
    if can_vote n1 m then
      let n2 := set_voted_for n1 (Some (Message.from_node m)) in
      mkRun n2
        [Message.mk "vote_response" (node_id n2) (Message.from_node m)
           (current_term n2) (VoteResponseData true)]
        true
    else mkRun n1 [] false.

Definition send_heartbeat (n : t) : list Message.t :=
  if negb (bool_decide (state n = LEADER)) || is_failed n then []
  else
    (λ p, Message.mk "append_entries" (node_id n) p (current_term n)
            (AppendEntriesData (last_log_index_of (log n))
                               (last_log_term_of (log n)) []
                               (commit_index n)))
      <$> peers n.

(** The loop of [become_leader] over the peers. *)
Definition init_leader_state (n : t) : t :=
  foldl (λ acc p,
           set_match_index
             (set_next_index acc (<[p := len (log acc)]> (next_index acc)))
             (<[p := -1]> (match_index acc)))
        n (peers n).

Definition become_leader (n : t) : Run () :=
  let n1 := set_state n LEADER in
  let n2 := init_leader_state n1 in
  mkRun n2 (send_heartbeat n2) ().

Definition handle_vote_response (n : t) (m : Message.t) : Run () :=
  if negb (bool_decide (state n = CANDIDATE))
     || negb (Message.term m =? current_term n)
     || is_failed n
  then mkRun n [] ()
  else if Message.get_vote_granted m then
    let n1 :=
      set_votes_received n ({[ Message.from_node m ]} ∪ votes_received n) in
    if len (cluster_nodes n1) `div` 2 <? Z.of_nat (size (votes_received n1))
    then become_leader n1
    else mkRun n1 [] ()
  else mkRun n [] ().

(** The message [replicate_log] builds for one peer; [None] when
    [self.log[next_idx - 1]] is out of range. *)
Definition append_msg (n : t) (p : string) : option Message.t :=
  let next_idx := default 0 (next_index n !! p) in
  let entries :=
    if next_idx <? len (log n) then slice_from (log n) next_idx else [] in
  let prev_log_term :=
    if 0 <? next_idx then LogEntry.term <$> index (log n) (next_idx - 1)
    else Some 0 in
  (λ plt, Message.mk "append_entries" (node_id n) p (current_term n)
            (AppendEntriesData (next_idx - 1) plt entries (commit_index n)))
    <$> prev_log_term.

(** The loop of [replicate_log]: messages already sent stay sent when a
    later iteration raises. *)
Fixpoint replicate_to (n : t) (ps : list string)
  : list Message.t * Outcome () :=
  match ps with
  | [] => ([], Return ())
  | p :: ps' =>
      match append_msg n p with
      | Some msg =>
          let '(ms, o) := replicate_to n ps' in (msg :: ms, o)
      | None => ([], Raise IndexError)
      end
  end.

Definition replicate_log (n : t) : list Message.t * Outcome () :=
  if negb (bool_decide (state n = LEADER)) then ([], Return ())
  else replicate_to n (peers n).

Definition append_entry (n : t) (command : string) : Run (Outcome bool) :=
  if negb (bool_decide (state n = LEADER)) || is_failed n
  then mkRun n [] (Return false)
  else
    let entry := LogEntry.mk (current_term n) (len (log n)) command in
    let n1 := set_log n (log n ++ [entry]) in
    let '(ms, o) := replicate_log n1 in
    mkRun n1 ms
      match o with Return _ => Return true | Raise e => Raise e end.

(** The log-consistency test of [handle_append_entries]; [true] means the
    message is rejected. *)
Definition log_mismatch (l : list LogEntry.t)
           (prev_log_index prev_log_term : Z) : bool :=
  (0 <=? prev_log_index) &&
  ((len l <=? prev_log_index) ||
   match index l prev_log_index with
   | Some e => negb (LogEntry.term e =? prev_log_term)
   | None => true
   end).

(** First part of [handle_append_entries]: "Update term and become follower
    if necessary". *)
Definition observe_leader (n : t) (now : Time) (m : Message.t) : t :=
  if current_term n <=? Message.term m then
    let n1 := set_current_term n (Message.term m) in
    let n2 := set_state n1 FOLLOWER in
    let n3 := set_voted_for n2 None in
    set_last_heartbeat n3 now
  else n.

Definition handle_append_entries (n : t) (now : Time) (m : Message.t)
  : Run (Outcome bool) :=
  if is_failed n then mkRun n [] (Return false)
  else
    let n1 := observe_leader n now m in
    if Message.term m <? current_term n1 then mkRun n1 [] (Return false)
    else
      match Message.data m with
      | AppendEntriesData prev_log_index prev_log_term entries leader_commit =>
          if log_mismatch (log n1) prev_log_index prev_log_term
          then mkRun n1 [] (Return false)
          else
            let n2 :=
              match entries with
              | [] => n1
              | _ :: _ =>
                  set_log n1
                    (slice_to (log n1) (prev_log_index + 1) ++ entries)
              end in
            let n3 :=
              if commit_index n2 <? leader_commit
              then set_commit_index n2
                     (Z.min leader_commit (len (log n2) - 1))
              else n2 in
            mkRun n3 [] (Return true)
      | _ => mkRun n1 [] (Raise (KeyError "prev_log_index"))
      end.

(** [_deliver_message]: the body is [pass]. *)
Definition _deliver_message (n : t) (m : Message.t) : t := n.

(** [send_message] as the class defines it: unless the sender is
    partitioned, a timer is started that later calls [_deliver_message].
    The result lists the messages handed to the timer. *)
Definition send_message (n : t) (m : Message.t) : list Message.t :=
  if negb (network_partition n) then [m] else [].

Definition fail_node (n : t) : t :=
  set_state (set_is_failed n true) FAILED.

Definition recover_node (n : t) (now : Time) : t :=
  set_last_heartbeat (set_state (set_is_failed n false) FOLLOWER) now.

Definition partition_node (n : t) (partitioned : bool) : t :=
  set_network_partition n partitioned.

End RaftNode.

(** ** RaftCluster *)

(** Where a node's [send_message] leads.  [RaftNode.send_message] starts a
    timer that ends in [_deliver_message], which does nothing ([NodeTimer]);
    [demo_raft_consensus] replaces the attribute on every node by
    [RaftCluster.send_message], which appends to the coordinator's queue
    ([ClusterQueue]). *)
Inductive Wiring := NodeTimer | ClusterQueue.

Module RaftCluster.

Record t := mk {
  nodes : dict RaftNode.t;
  running : bool;
  message_queue : list Message.t
}.

Definition set_nodes (c : t) (d : dict RaftNode.t) : t :=
  mk d (running c) (message_queue c).

Definition set_running (c : t) (b : bool) : t :=
  mk (nodes c) b (message_queue c).

Definition set_message_queue (c : t) (q : list Message.t) : t :=
  mk (nodes c) (running c) q.

(** [__init__]: the dict comprehension over [node_ids]; [timeout k] and
    [clock k] are the random draw and the clock reading of the [k]-th node
    constructed. *)
Fixpoint init_nodes (all ids : list string) (timeout clock : nat → Time)
         (k : nat) (d : dict RaftNode.t) : dict RaftNode.t :=
  match ids with
  | [] => d
  | id :: ids' =>
      init_nodes all ids' timeout clock (S k)
        (dict_set id (RaftNode.init id all (timeout k) (clock k)) d)
  end.

Definition init (node_ids : list string) (timeout clock : nat → Time) : t :=
  mk (init_nodes node_ids node_ids timeout clock 0%nat []) false [].

(** [send_message]: "Add message to processing queue". *)
Definition send_message (c : t) (m : Message.t) : t :=
  set_message_queue c (message_queue c ++ [m]).

(** What the [self.send_message] calls of a method run on [sender] do to
    the coordinator.  With [NodeTimer] every message that
    [RaftNode.send_message] does not drop ends in [_deliver_message], which
    changes nothing. *)
Definition emit (w : Wiring) (c : t) (sender : RaftNode.t)
           (ms : list Message.t) : t :=
  match w with
  | ClusterQueue => foldl send_message c ms
  | NodeTimer =>
      foldl (λ c' m, let _ := RaftNode._deliver_message sender m in c')
            c (ms ≫= RaftNode.send_message sender)
  end.

(** The effect of a method call on the node object stored under [key]: the
    object is updated in place and what it sent is routed. *)
Definition commit {A} (w : Wiring) (c : t) (key : string)
           (r : RaftNode.Run A) : t :=
  emit w (set_nodes c (dict_set key (RaftNode.self r) (nodes c)))
       (RaftNode.self r) (RaftNode.sent r).

Definition start (c : t) : t := set_running c true.

Definition stop (c : t) : t := set_running c false.

(** One turn of the loop of [_run_node] for the node stored under [id],
    taken as one step; the sleeps are not modelled. *)
Definition run_node (w : Wiring) (c : t) (id : string) (now : Time) : t :=
  if negb (running c) then c
  else
    match dict_get id (nodes c) with
    | None => c
    | Some node =>
        if RaftNode.is_failed node then c
        else
          let c1 :=
            if (bool_decide (RaftNode.state node = FOLLOWER)
                || bool_decide (RaftNode.state node = CANDIDATE))
               && (RaftNode.election_timeout node
                     <? now - RaftNode.last_heartbeat node)
            then commit w c id (RaftNode.start_election node)
            else c in
          match dict_get id (nodes c1) with
          | None => c1
          | Some node1 =>
              if bool_decide (RaftNode.state node1 = LEADER)
              then emit w c1 node1 (RaftNode.send_heartbeat node1)
              else c1
          end
    end.

(** The body of the [for] loop of [_process_messages] for one message. *)
Definition process_message (w : Wiring) (c : t) (now : Time)
           (m : Message.t) : t * Outcome () :=
  match dict_get (Message.to_node m) (nodes c) with
  | None => (c, Return ())
  | Some target =>
      if RaftNode.is_failed target then (c, Return ())
      else if bool_decide (Message.type m = "vote_request") then
        (commit w c (Message.to_node m)
           (RaftNode.handle_vote_request target m), Return ())
      else if bool_decide (Message.type m = "vote_response") then
        (commit w c (Message.to_node m)
           (RaftNode.handle_vote_response target m), Return ())
      else if bool_decide (Message.type m = "append_entries") then
        let r := RaftNode.handle_append_entries target now m in
        (commit w c (Message.to_node m) r,
         match RaftNode.ret r with
         | Return _ => Return ()
         | Raise e => Raise e
         end)
      else (c, Return ())
  end.

(** The [for] loop: an exception ends it (and the processor thread), and the
    rest of the batch, already taken off the queue, is lost.  [clock k] is
    the reading during the [k]-th message. *)
Fixpoint process_batch (w : Wiring) (c : t) (clock : nat → Time) (k : nat)
         (batch : list Message.t) : t * Outcome () :=
  match batch with
  | [] => (c, Return ())
  | m :: batch' =>
      match process_message w c (clock k) m with
      | (c', Return _) => process_batch w c' clock (S k) batch'
      | (c', Raise e) => (c', Raise e)
      end
  end.

(** One turn of the [while] loop of [_process_messages]. *)
Definition _process_messages (w : Wiring) (c : t) (clock : nat → Time)
  : t * Outcome () :=
  if negb (running c) then (c, Return ())
  else process_batch w (set_message_queue c []) clock 0%nat (message_queue c).

Definition get_leader (c : t) : option string :=
  RaftNode.node_id <$>
    head (filter (λ node, RaftNode.state node = LEADER
                          ∧ RaftNode.is_failed node = false)
                 (dict_values (nodes c))).

Definition append_command (w : Wiring) (c : t) (command : string)
  : t * Outcome bool :=
  let leader_id := get_leader c in
  if truthy_opt_str leader_id then
    let key := default "" leader_id in
    match dict_get key (nodes c) with
    | Some leader =>
        let r := RaftNode.append_entry leader command in
        (commit w c key r, RaftNode.ret r)
    | None => (c, Raise (KeyError key))
    end
  else (c, Return false).

(** [if node_id in self.nodes: self.nodes[node_id].method()] *)
Definition on_node (c : t) (id : string) (f : RaftNode.t → RaftNode.t) : t :=
  match dict_get id (nodes c) with
  | Some node => set_nodes c (dict_set id (f node) (nodes c))
  | None => c
  end.

Definition fail_node (c : t) (id : string) : t :=
  on_node c id RaftNode.fail_node.

Definition recover_node (c : t) (id : string) (now : Time) : t :=
  on_node c id (λ node, RaftNode.recover_node node now).

Definition partition_nodes (c : t) (node_ids : list string)
           (partitioned : bool) : t :=
  foldl (λ c' id,
           on_node c' id (λ node, RaftNode.partition_node node partitioned))
        c node_ids.

End RaftCluster.

(** ** Executions of a cluster *)

(** What can happen to a running cluster: a turn of a node's loop, a turn of
    the message processor, and the calls of the driver. *)
Inductive Event :=
| Tick (id : string) (now : Time)
| Process (clock : nat → Time)
| Fail (id : string)
| Recover (id : string) (now : Time)
| Partition (ids : list string) (partitioned : bool)
| Append (command : string).

Definition step (w : Wiring) (c : RaftCluster.t) (e : Event) : RaftCluster.t :=
  match e with
  | Tick id now => RaftCluster.run_node w c id now
  | Process clock => fst (RaftCluster._process_messages w c clock)
  | Fail id => RaftCluster.fail_node c id
  | Recover id now => RaftCluster.recover_node c id now
  | Partition ids b => RaftCluster.partition_nodes c ids b
  | Append command => fst (RaftCluster.append_command w c command)
  end.

Definition run (w : Wiring) (c : RaftCluster.t) (es : list Event)
  : RaftCluster.t :=
  foldl (step w) c es.

(** The nodes that are [LEADER] in [c'] and were not in [c], with the term in
    which they won. *)
Definition new_leaders (c c' : RaftCluster.t) : list (string * Z) :=
  omap (λ '(id, n'),
          match dict_get id (RaftCluster.nodes c) with
          | Some n =>
              if negb (bool_decide (RaftNode.state n = LEADER))
                 && bool_decide (RaftNode.state n' = LEADER)
              then Some (id, RaftNode.current_term n')
              else None
          | None => None
          end)
       (RaftCluster.nodes c').

(** The record of the elections won during an execution, in order. *)
Fixpoint elections (w : Wiring) (c : RaftCluster.t) (es : list Event)
  : list (string * Z) :=
  match es with
  | [] => []
  | e :: es' => new_leaders c (step w c e) ++ elections w (step w c e) es'
  end.

(** A node named by [id] in cluster [c]. *)
Definition node_of (c : RaftCluster.t) (id : string) : option RaftNode.t :=
  dict_get id (RaftCluster.nodes c).

(** "Less up to date": lower last-log term, or the same term with a lower
    last-log index. *)
Definition less_up_to_date (cand_index cand_term : Z)
           (l : list LogEntry.t) : Prop :=
  cand_term < RaftNode.last_log_term_of l
  ∨ (cand_term = RaftNode.last_log_term_of l
     ∧ cand_index < RaftNode.last_log_index_of l).

(** No AppendEntries announces a commit index other than 0. *)
Definition announces_no_commit (m : Message.t) : Prop :=
  match Message.data m with
  | AppendEntriesData _ _ _ leader_commit => leader_commit = 0
  | _ => True
  end.

(** Every node's commit index is 0, and so is every announced one. *)
Definition commit_free (c : RaftCluster.t) : Prop :=
  Forall (λ n, RaftNode.commit_index n = 0)
         (dict_values (RaftCluster.nodes c))
  ∧ Forall announces_no_commit (RaftCluster.message_queue c).

(** What a method run must satisfy to keep a cluster [commit_free]. *)
Definition keeps_commit_free {A} (n : RaftNode.t) (r : RaftNode.Run A) : Prop :=
  RaftNode.commit_index n = 0 →
  RaftNode.commit_index (RaftNode.self r) = 0
  ∧ Forall announces_no_commit (RaftNode.sent r).

(** ** Scenarios *)

(** A Leader of term 1 that voted for itself. *)
Definition leader_of_term_1 : RaftNode.t :=
  RaftNode.self
    (RaftNode.become_leader
       (RaftNode.set_votes_received
          (RaftNode.set_voted_for
             (RaftNode.set_current_term
                (RaftNode.set_state
                   (RaftNode.init "n1" ["n1"; "n2"; "n3"] 1500 0) CANDIDATE) 1)
             (Some "n1"))
          {[ "n1"; "n2" ]})).

(** A Follower of term 2 whose log holds one entry of term 2. *)
Definition voter_with_log : RaftNode.t :=
  RaftNode.set_log
    (RaftNode.set_current_term
       (RaftNode.init "n2" ["n1"; "n2"; "n3"] 1500 0) 2)
    [LogEntry.mk 2 0 "x"].

(** A vote request of term 3 from a candidate whose log is empty. *)
Definition stale_vote_request : Message.t :=
  Message.mk "vote_request" "n3" "n2" 3 (VoteRequestData (-1) 0).

(** A node as [__init__] leaves it. *)
Definition fresh_node : RaftNode.t :=
  RaftNode.init "n2" ["n1"; "n2"; "n3"] 1500 0.

(** A heartbeat of term 1 announcing the leader's commit index 1. *)
Definition heartbeat_commit_1 : Message.t :=
  Message.mk "append_entries" "n1" "n2" 1 (AppendEntriesData (-1) 0 [] 1).

(** A Follower of term 1 with three entries, the first two committed. *)
Definition follower_commit_2 : RaftNode.t :=
  RaftNode.set_commit_index
    (RaftNode.set_log
       (RaftNode.set_current_term
          (RaftNode.init "n2" ["n1"; "n2"; "n3"] 1500 0) 1)
       [LogEntry.mk 1 0 "a"; LogEntry.mk 1 1 "b"; LogEntry.mk 1 2 "c"])
    2.

(** An AppendEntries of term 2 that replaces the whole log by one entry and
    announces the leader's commit index 3. *)
Definition replace_from_start : Message.t :=
  Message.mk "append_entries" "n1" "n2" 2
    (AppendEntriesData (-1) 0 [LogEntry.mk 2 0 "z"] 3).

(** Three nodes; [n2] draws the longest election timeout. *)
Definition timeouts3 (k : nat) : Time :=
  match k with 1%nat => 3000 | _ => 1500 end.

Definition cluster3 : RaftCluster.t :=
  RaftCluster.start (RaftCluster.init ["n1"; "n2"; "n3"] timeouts3 (λ _, 0)).

(** A clock that reads [t] during a whole batch. *)
Definition at_time (t : Time) : nat → Time := λ _, t.

(** The states an execution goes through. *)
Fixpoint states (w : Wiring) (c : RaftCluster.t) (es : list Event)
  : list RaftCluster.t :=
  c :: match es with
       | [] => []
       | e :: es' => states w (step w c e) es'
       end.

(** [n3] is down while [n1] is elected with the vote of [n2] and sends its
    first heartbeat; [n1] crashes; [n3] comes back, times out and asks for
    votes in term 1; [n2] answers. *)
Definition two_elections_trace : list Event :=
  [ Fail "n3"; Tick "n1" 1501;
    Process (at_time 1510); Process (at_time 1520); Process (at_time 1530);
    Fail "n1"; Recover "n3" 1700; Tick "n3" 3201;
    Process (at_time 3210); Process (at_time 3220) ].

(** The same without the crash of [n1]. *)
Definition two_leaders_trace : list Event :=
  [ Fail "n3"; Tick "n1" 1501;
    Process (at_time 1510); Process (at_time 1520); Process (at_time 1530);
    Recover "n3" 1700; Tick "n3" 3201;
    Process (at_time 3210); Process (at_time 3220) ].

(** [n1] is elected while [n3] is down, two commands are appended and reach
    [n2]; [n3] comes back and [n1] sends a heartbeat. *)
Definition replication_trace : list Event :=
  [ Fail "n3"; Tick "n1" 1501;
    Process (at_time 1510); Process (at_time 1520); Process (at_time 1530);
    Append "x"; Append "y"; Process (at_time 1600);
    Recover "n3" 1700; Tick "n1" 2000 ].

Definition before_heartbeat : RaftCluster.t :=
  run ClusterQueue cluster3 replication_trace.

Definition after_heartbeat : RaftCluster.t :=
  step ClusterQueue before_heartbeat (Process (at_time 2010)).

Definition heartbeat_to (p : string) : Message.t :=
  Message.mk "append_entries" "n1" p 1 (AppendEntriesData 1 1 [] 0).

(** [n1] asks for votes, then crashes; [n1] and [n2] are marked partitioned
    while the requests are still queued. *)
Definition split_cluster : RaftCluster.t :=
  run ClusterQueue cluster3
      [ Tick "n1" 1501; Fail "n1"; Partition ["n1"; "n2"] true ].

Definition queued_vote_request : Message.t :=
  Message.mk "vote_request" "n1" "n2" 1 (VoteRequestData (-1) 0).

(** A cluster one of whose ids is the empty string, after that node has won
    the election of term 1. *)
Definition cluster_with_empty_id : RaftCluster.t :=
  run ClusterQueue
      (RaftCluster.start
         (RaftCluster.init [""; "n2"; "n3"] timeouts3 (λ _, 0)))
      [ Tick "" 1501; Process (at_time 1510); Process (at_time 1520) ].

(** ** Further notions *)

(** Every entry sits at the position its [index] field names. *)
Definition well_indexed_from (start : Z) (l : list LogEntry.t) : Prop :=
  ∀ (i : nat) (e : LogEntry.t),
    l !! i = Some e → LogEntry.index e = start + Z.of_nat i.

Definition well_indexed (l : list LogEntry.t) : Prop := well_indexed_from 0 l.

(** [next_index.get(p, 0)], as [replicate_log] reads it. *)
Definition next_index_of (n : RaftNode.t) (p : string) : Z :=
  default 0 (RaftNode.next_index n !! p).


(** The dictionary [get_status] returns. *)
Module NodeStatus.
Record t := mk {
  node_id : string;
  state : string;
  term : Z;
  log_length : Z;
  commit_index : Z;
  is_failed : bool;
  network_partition : bool
}.
End NodeStatus.




(** A property [P] of every stored node, relative to the key it is stored
    under, together with a property [Q] of every queued message. *)
Definition cluster_invariant (P : string → RaftNode.t → Prop)
           (Q : Message.t → Prop) (c : RaftCluster.t) : Prop :=
  Forall (λ kn, P kn.1 kn.2) (RaftCluster.nodes c)
  ∧ Forall Q (RaftCluster.message_queue c).

(** What the program's own nodes always satisfy: a node is stored under its
    id; [is_failed] and the [FAILED] state go together; log entries sit at
    their [index]; no [next_index] is negative, and none that a Leader holds
    for a peer lies beyond its log. *)
Definition sound_node (key : string) (n : RaftNode.t) : Prop :=
  RaftNode.node_id n = key
  ∧ (RaftNode.is_failed n = true ↔ RaftNode.state n = FAILED)
  ∧ well_indexed (RaftNode.log n)
  ∧ (∀ p, 0 ≤ next_index_of n p)
  ∧ (RaftNode.state n = LEADER →
     ∀ p, p ∈ RaftNode.peers n → next_index_of n p ≤ len (RaftNode.log n)).

(** What the program's own messages always satisfy: the [data] has the shape
    that goes with the [type], and an AppendEntries names a previous index of
    at least -1 and carries entries that sit right after it. *)
Definition sound_message (m : Message.t) : Prop :=
  match Message.data m with
  | AppendEntriesData pli _ es _ =>
      -1 ≤ pli ∧ well_indexed_from (pli + 1) es
  | _ => Message.type m ≠ "append_entries"
  end.

(** The node with its partition mark removed. *)
Definition unmark (n : RaftNode.t) : RaftNode.t :=
  RaftNode.set_network_partition n false.

(** The cluster with every partition mark removed. *)
Definition unmark_all (c : RaftCluster.t) : RaftCluster.t :=
  RaftCluster.set_nodes c ((λ kn, (kn.1, unmark kn.2)) <$> RaftCluster.nodes c).

(** The events of an execution other than the calls of [partition_nodes]. *)
Definition not_a_partition (e : Event) : bool :=
  match e with Partition _ _ => false | _ => true end.

(** The same node at a later time: same id, same member list, same election
    timeout, and a term that is not lower. *)
Definition same_node_later (n n' : RaftNode.t) : Prop :=
  RaftNode.node_id n' = RaftNode.node_id n
  ∧ RaftNode.cluster_nodes n' = RaftNode.cluster_nodes n
  ∧ RaftNode.election_timeout n' = RaftNode.election_timeout n
  ∧ RaftNode.current_term n ≤ RaftNode.current_term n'.

(** Nothing is queued and no node is Leader. *)
Definition leaderless (c : RaftCluster.t) : Prop :=
  RaftCluster.message_queue c = []
  ∧ Forall (λ kn, RaftNode.state kn.2 ≠ LEADER) (RaftCluster.nodes c).

(** The result of a method with the partition mark of the node removed. *)
Definition unmark_run {A} (r : RaftNode.Run A) : RaftNode.Run A :=
  RaftNode.mkRun (unmark (RaftNode.self r)) (RaftNode.sent r) (RaftNode.ret r).

(** The AppendEntries by which a leader [src] of term [T] that has never
    moved the addressee's [next_index] from 0 sends its whole log [L]. *)
Definition whole_log_to (src : string) (T lc : Z) (L : list LogEntry.t)
           (p : string) : Message.t :=
  Message.mk "append_entries" src p T (AppendEntriesData (-1) 0 L lc).

(** Where a node ends once it has taken that message. *)
Definition caught_up (T : Z) (L : list LogEntry.t) (n : RaftNode.t) : Prop :=
  RaftNode.log n = L ∧ RaftNode.current_term n = T
  ∧ RaftNode.state n = FOLLOWER ∧ RaftNode.is_failed n = false.

(** No live node is ahead of term [T]. *)
Definition none_ahead (T : Z) (c : RaftCluster.t) : Prop :=
  ∀ key n, node_of c key = Some n → RaftNode.is_failed n = false →
           RaftNode.current_term n ≤ T.

(** Whether [p] names a stored node that is not failed. *)
Definition is_live (c : RaftCluster.t) (p : string) : bool :=
  match node_of c p with
  | Some n => negb (RaftNode.is_failed n)
  | None => false
  end.

(** The request of the candidate [id] for term [T1], and the answer it gets
    from [p]. *)
Definition vote_request_to (id : string) (T1 lli llt : Z) (p : string)
  : Message.t :=
  Message.mk "vote_request" id p T1 (VoteRequestData lli llt).

Definition vote_from (id : string) (T1 : Z) (p : string) : Message.t :=
  Message.mk "vote_response" p id T1 (VoteResponseData true).

(** A node that has given [id] its vote in term [T1]. *)
Definition voted (id : string) (T1 : Z) (n : RaftNode.t) : Prop :=
  RaftNode.current_term n = T1 ∧ RaftNode.voted_for n = Some id
  ∧ RaftNode.state n = FOLLOWER ∧ RaftNode.is_failed n = false.

(** Every live node but the candidate is behind [T1] or has voted. *)
Definition may_vote (id : string) (T1 : Z) (c : RaftCluster.t) : Prop :=
  ∀ key n, key ≠ id → node_of c key = Some n →
           RaftNode.node_id n = key
           ∧ (RaftNode.is_failed n = false →
              RaftNode.current_term n < T1 ∨ voted id T1 n).

(** The candidate [cand] with the votes [V] counted. *)
Definition counting (cand : RaftNode.t) (V : gset string) : RaftNode.t :=
  RaftNode.set_votes_received cand V.

(** The heartbeat that announces the victory of the candidate to [p]. *)
Definition first_heartbeat_to (id : string) (cand : RaftNode.t) (p : string)
  : Message.t :=
  Message.mk "append_entries" id p (RaftNode.current_term cand)
    (AppendEntriesData (RaftNode.last_log_index_of (RaftNode.log cand))
                       (RaftNode.last_log_term_of (RaftNode.log cand)) []
                       (RaftNode.commit_index cand)).

(** ** The votes granted in an execution *)

(** A vote granted: the voter, the candidate voted for, and the term. *)
Definition Grant : Type := string * string * Z.

(** What a call of [handle_vote_request] grants.  The method returns [True]
    exactly on the branch that sets [voted_for] and sends the response; the
    grant is recorded as the response reads: the voter's id, the requester
    and the voter's term. *)
Definition grant_of (target : RaftNode.t) (m : Message.t) : list Grant :=
  let r := RaftNode.handle_vote_request target m in
  if RaftNode.ret r
  then [(RaftNode.node_id (RaftNode.self r), Message.from_node m,
         RaftNode.current_term (RaftNode.self r))]
  else [].

(** The grants made while the coordinator handles one message, a batch, an
    event and an execution, following [RaftCluster.process_message],
    [RaftCluster.process_batch], [step] and [run]. *)
Definition message_grants (c : RaftCluster.t) (m : Message.t) : list Grant :=
  match dict_get (Message.to_node m) (RaftCluster.nodes c) with
  | None => []
  | Some target =>
      if RaftNode.is_failed target then []
      else if bool_decide (Message.type m = "vote_request")
           then grant_of target m
           else []
  end.

Fixpoint batch_grants (w : Wiring) (c : RaftCluster.t) (clock : nat → Time)
         (k : nat) (batch : list Message.t) : list Grant :=
  match batch with
  | [] => []
  | m :: batch' =>
      message_grants c m
        ++ match RaftCluster.process_message w c (clock k) m with
           | (c', Return _) => batch_grants w c' clock (S k) batch'
           | (_, Raise _) => []
           end
  end.

Definition step_grants (w : Wiring) (c : RaftCluster.t) (e : Event)
  : list Grant :=
  match e with
  | Process clock =>
      if negb (RaftCluster.running c) then []
      else batch_grants w (RaftCluster.set_message_queue c []) clock 0%nat
             (RaftCluster.message_queue c)
  | _ => []
  end.

Fixpoint grants (w : Wiring) (c : RaftCluster.t) (es : list Event)
  : list Grant :=
  match es with
  | [] => []
  | e :: es' => step_grants w c e ++ grants w (step w c e) es'
  end.

(** What the votes a node counts stand for, given the grants [G] made so
    far in a cluster built from [node_ids]: the node is stored under its id
    and knows the members; a Leader holds more votes than half of the
    member list is long; and every vote that a Candidate or Leader holds is
    a member's, either its own or one granted to it in its current term. *)
Definition votes_are_grants (node_ids : list string) (G : list Grant)
           (k : string) (n : RaftNode.t) : Prop :=
  RaftNode.node_id n = k ∧ k ∈ node_ids
  ∧ RaftNode.cluster_nodes n = node_ids
  ∧ (RaftNode.state n = LEADER →
     len node_ids < 2 * Z.of_nat (size (RaftNode.votes_received n)))
  ∧ (RaftNode.state n = CANDIDATE ∨ RaftNode.state n = LEADER →
     ∀ v, v ∈ RaftNode.votes_received n →
          v ∈ node_ids
          ∧ (v = k ∨ (v, k, RaftNode.current_term n) ∈ G)).

(** A queued vote response reports a grant that was made by a member. *)
Definition response_is_grant (node_ids : list string) (G : list Grant)
           (m : Message.t) : Prop :=
  Message.type m = "vote_response" →
  Message.from_node m ∈ node_ids
  ∧ (Message.from_node m, Message.to_node m, Message.term m) ∈ G.

(** * Properties *)

(** ** Frame lemmas for the attribute assignments and the leader loop *)

Section LeaderLoop.
Import RaftNode.

Lemma init_leader_state_frame (n : t) :
  let n' := init_leader_state n in
  node_id n' = node_id n ∧ cluster_nodes n' = cluster_nodes n
  ∧ state n' = state n ∧ current_term n' = current_term n
  ∧ voted_for n' = voted_for n ∧ log n' = log n
  ∧ commit_index n' = commit_index n
  ∧ last_heartbeat n' = last_heartbeat n
  ∧ votes_received n' = votes_received n
  ∧ is_failed n' = is_failed n
  ∧ network_partition n' = network_partition n.
Proof.
  unfold init_leader_state. generalize (peers n) as ps.
  intros ps. revert n. induction ps as [|p ps IH]; intros n; simpl.
  - repeat split.
  - specialize (IH (set_match_index
                      (set_next_index n (<[p:=len (log n)]> (next_index n)))
                      (<[p:=-1]> (match_index n)))).
    simpl in IH. exact IH.
Qed.

Lemma become_leader_state (n : t) : state (self (become_leader n)) = LEADER.
Proof.
  unfold become_leader; simpl.
  destruct (init_leader_state_frame (set_state n LEADER))
    as (_ & _ & Hs & _). exact Hs.
Qed.

Lemma become_leader_votes (n : t) :
  votes_received (self (become_leader n)) = votes_received n.
Proof.
  unfold become_leader; simpl.
  destruct (init_leader_state_frame (set_state n LEADER))
    as (_ & _ & _ & _ & _ & _ & _ & _ & Hv & _). exact Hv.
Qed.

Lemma become_leader_cluster_nodes (n : t) :
  cluster_nodes (self (become_leader n)) = cluster_nodes n.
Proof.
  unfold become_leader; simpl.
  destruct (init_leader_state_frame (set_state n LEADER))
    as (_ & Hc & _). exact Hc.
Qed.

End LeaderLoop.

(** ** AppendEntries on the receiving node *)

Section AppendEntries.
Import RaftNode.

(** What the first part of [handle_append_entries] does when the message's
    term is not behind. *)
Lemma observe_leader_current (n : t) (now : Time) (m : Message.t) :
  current_term n ≤ Message.term m →
  let n1 := observe_leader n now m in
  state n1 = FOLLOWER ∧ current_term n1 = Message.term m
  ∧ voted_for n1 = None ∧ last_heartbeat n1 = now
  ∧ log n1 = log n ∧ commit_index n1 = commit_index n
  ∧ is_failed n1 = is_failed n.
Proof.
  intros Hle. unfold observe_leader.
  destruct (Z.leb_spec (current_term n) (Message.term m)); [|lia].
  simpl. repeat split.
Qed.

(** The handler never calls [send_message]. *)
Lemma handle_append_entries_sent (n : t) (now : Time) (m : Message.t) :
  sent (handle_append_entries n now m) = [].
Proof.
  unfold handle_append_entries.
  destruct (is_failed n); [reflexivity|].
  destruct (_ <? _); [reflexivity|].
  destruct (Message.data m); try reflexivity.
  destruct (log_mismatch _ _ _); reflexivity.
Qed.

(** What the handler leaves alone on every path. *)
Lemma handle_append_entries_frame (n : t) (now : Time) (m : Message.t) :
  let n' := self (handle_append_entries n now m) in
  node_id n' = node_id n ∧ next_index n' = next_index n
  ∧ match_index n' = match_index n
  ∧ votes_received n' = votes_received n
  ∧ is_failed n' = is_failed n
  ∧ network_partition n' = network_partition n.
Proof.
  unfold handle_append_entries, observe_leader.
  destruct (is_failed n) eqn:Hf; [simpl; rewrite Hf; repeat split|].
  destruct (current_term n <=? Message.term m); simpl;
    (destruct (_ <? _); [simpl; rewrite ?Hf; repeat split|]);
    (destruct (Message.data m) as [| |pli plt es lc];
     [simpl; rewrite ?Hf; repeat split ..|]);
    (destruct (log_mismatch _ _ _); [simpl; rewrite ?Hf; repeat split|]);
    destruct es; simpl; destruct (_ <? lc); simpl; rewrite ?Hf;
    repeat split.
Qed.

End AppendEntries.

(** C9: an AppendEntries whose term is not behind but whose log-consistency
    check fails is answered [False] with the log and commit index untouched,
    yet the receiver has adopted the term, become Follower, cleared its vote
    and reset its heartbeat timestamp; so whenever one of these four differed
    before, the node is not what it was. *)
Theorem C9_rejected_append_entries_is_not_a_no_op
        (n : RaftNode.t) (now : Time) (m : Message.t)
        (pli plt lc : Z) (es : list LogEntry.t) :
  RaftNode.is_failed n = false →
  RaftNode.current_term n ≤ Message.term m →
  Message.data m = AppendEntriesData pli plt es lc →
  RaftNode.log_mismatch (RaftNode.log n) pli plt = true →
  let r := RaftNode.handle_append_entries n now m in
  RaftNode.ret r = Return false
  ∧ RaftNode.log (RaftNode.self r) = RaftNode.log n
  ∧ RaftNode.commit_index (RaftNode.self r) = RaftNode.commit_index n
  ∧ RaftNode.current_term (RaftNode.self r) = Message.term m
  ∧ RaftNode.state (RaftNode.self r) = FOLLOWER
  ∧ RaftNode.voted_for (RaftNode.self r) = None
  ∧ RaftNode.last_heartbeat (RaftNode.self r) = now
  ∧ (RaftNode.current_term n ≠ Message.term m
     ∨ RaftNode.state n ≠ FOLLOWER
     ∨ RaftNode.voted_for n ≠ None
     ∨ RaftNode.last_heartbeat n ≠ now →
     RaftNode.self r ≠ n).
Proof.
  intros Hf Hle Hd Hmis.
  destruct (observe_leader_current n now m Hle)
    as (Hs & Ht & Hv & Hh & Hl & Hc & _).
  assert (Hr : RaftNode.handle_append_entries n now m
               = RaftNode.mkRun (RaftNode.observe_leader n now m) []
                                (Return false)).
  { unfold RaftNode.handle_append_entries. rewrite Hf, Ht.
    rewrite Z.ltb_irrefl, Hd, Hl, Hmis. reflexivity. }
  simpl. rewrite Hr. simpl.
  repeat split; try assumption.
  intros Hdiff Heq. rewrite Heq in Hs, Ht, Hv, Hh.
  destruct Hdiff as [H|[H|[H|H]]]; congruence.
Qed.

(** A Candidate of term 1 with an empty log receives a heartbeat of term 2
    that names a previous entry it does not have. *)
Lemma C9_rejected_append_entries_witness :
  let n := RaftNode.set_voted_for
             (RaftNode.set_current_term
                (RaftNode.set_state
                   (RaftNode.init "n2" ["n1"; "n2"; "n3"] 1500 0) CANDIDATE) 1)
             (Some "n2") in
  let m := Message.mk "append_entries" "n1" "n2" 2
                      (AppendEntriesData 0 1 [] 0) in
  let r := RaftNode.handle_append_entries n 70 m in
  RaftNode.ret r = Return false
  ∧ RaftNode.log (RaftNode.self r) = RaftNode.log n
  ∧ RaftNode.commit_index (RaftNode.self r) = RaftNode.commit_index n
  ∧ RaftNode.current_term (RaftNode.self r) = 2
  ∧ RaftNode.state (RaftNode.self r) = FOLLOWER
  ∧ RaftNode.voted_for (RaftNode.self r) = None
  ∧ RaftNode.last_heartbeat (RaftNode.self r) = 70
  ∧ RaftNode.self r ≠ n.
Proof.
  intros n m r.
  destruct (C9_rejected_append_entries_is_not_a_no_op n 70 m 0 1 0 [])
    as (H1 & H2 & H3 & H4 & H5 & H6 & H7 & H8);
    [reflexivity | simpl; lia | reflexivity | reflexivity |].
  repeat split; try assumption.
  apply H8. left. simpl. lia.
Defined.

(** ** Votes *)

Section Votes.
Import RaftNode.

Lemma adopt_higher_term_higher (n : t) (m : Message.t) :
  current_term n < Message.term m →
  let n1 := adopt_higher_term n m in
  state n1 = FOLLOWER ∧ current_term n1 = Message.term m
  ∧ voted_for n1 = None ∧ last_heartbeat n1 = last_heartbeat n.
Proof.
  intros Hlt. unfold adopt_higher_term.
  destruct (Z.ltb_spec (current_term n) (Message.term m)); [|lia].
  simpl. repeat split.
Qed.

Lemma adopt_higher_term_not_higher (n : t) (m : Message.t) :
  Message.term m ≤ current_term n → adopt_higher_term n m = n.
Proof.
  intros Hle. unfold adopt_higher_term.
  destruct (Z.ltb_spec (current_term n) (Message.term m)); [lia|done].
Qed.

(** The term update touches neither the role of a node that stays, nor the
    clock reading. *)
Lemma adopt_higher_term_frame (n : t) (m : Message.t) :
  let n1 := adopt_higher_term n m in
  last_heartbeat n1 = last_heartbeat n ∧ log n1 = log n
  ∧ commit_index n1 = commit_index n ∧ is_failed n1 = is_failed n
  ∧ (state n1 = state n ∨ state n1 = FOLLOWER).
Proof.
  unfold adopt_higher_term. destruct (_ <? _); simpl; auto 10.
Qed.

(** [handle_vote_request] changes the role only through the term update,
    and never reads the clock. *)
Lemma handle_vote_request_frame (n : t) (m : Message.t) :
  let n' := self (handle_vote_request n m) in
  last_heartbeat n' = last_heartbeat n ∧ log n' = log n
  ∧ commit_index n' = commit_index n
  ∧ (state n' = state n ∨ state n' = FOLLOWER).
Proof.
  unfold handle_vote_request.
  destruct (is_failed n); [simpl; auto|].
  destruct (adopt_higher_term_frame n m) as (Hh & Hl & Hc & _ & Hs).
  destruct (can_vote _ m); simpl; auto.
Qed.

(** The [data] of a vote request plays no part in the decision. *)
Lemma handle_vote_request_ignores_data (n : t) (m : Message.t) (d : Payload) :
  handle_vote_request n
    (Message.mk (Message.type m) (Message.from_node m) (Message.to_node m)
                (Message.term m) d)
  = handle_vote_request n m.
Proof. reflexivity. Qed.

(** [len(votes) > len(cluster) // 2] says "strictly more than half". *)
Lemma majority_floor (members votes : Z) :
  (members `div` 2 <? votes) = true ↔ members < 2 * votes.
Proof.
  rewrite Z.ltb_lt.
  pose proof (Z.div_mod members 2 ltac:(lia)) as Hdm.
  pose proof (Z.mod_pos_bound members 2 ltac:(lia)) as Hb.
  lia.
Qed.

(** The only path of [handle_vote_response] that changes the role. *)
Lemma handle_vote_response_cases (n : t) (m : Message.t) :
  let votes := {[ Message.from_node m ]} ∪ votes_received n in
  (state n = CANDIDATE ∧ is_failed n = false
   ∧ Message.term m = current_term n
   ∧ Message.get_vote_granted m = true
   ∧ ((len (cluster_nodes n) < 2 * Z.of_nat (size votes)
       ∧ handle_vote_response n m
         = become_leader (set_votes_received n votes))
      ∨ (¬ len (cluster_nodes n) < 2 * Z.of_nat (size votes)
         ∧ handle_vote_response n m
           = mkRun (set_votes_received n votes) [] ())))
  ∨ (¬ (state n = CANDIDATE ∧ is_failed n = false
        ∧ Message.term m = current_term n
        ∧ Message.get_vote_granted m = true)
     ∧ handle_vote_response n m = mkRun n [] ()).
Proof.
  intros votes. unfold handle_vote_response.
  destruct (decide (state n = CANDIDATE)) as [Hs|Hs].
  2:{ right. rewrite bool_decide_eq_false_2 by done. simpl.
      split; [tauto|done]. }
  rewrite bool_decide_eq_true_2 by done. simpl.
  destruct (Z.eqb_spec (Message.term m) (current_term n)) as [Ht|Ht].
  2:{ right. simpl. split; [tauto|done]. }
  simpl. destruct (is_failed n) eqn:Hf.
  { right. split; [intros (_ & ? & _); done|done]. }
  destruct (Message.get_vote_granted m) eqn:Hg.
  2:{ right. split; [intros (_ & _ & _ & ?); done|done]. }
  left. repeat split; try done. simpl. fold votes.
  destruct (_ <? _) eqn:Hmaj.
  - left. split; [by apply majority_floor|done].
  - right. split; [|done]. intros Hlt. apply majority_floor in Hlt.
    unfold len in *. congruence.
Qed.

End Votes.

(** No method other than [handle_vote_response] turns a node that is not
    Leader into a Leader. *)
Lemma other_methods_do_not_elect (n : RaftNode.t) :
  RaftNode.state n ≠ LEADER →
  RaftNode.state (RaftNode.self (RaftNode.start_election n)) ≠ LEADER
  ∧ (∀ m, RaftNode.state (RaftNode.self (RaftNode.handle_vote_request n m))
          ≠ LEADER)
  ∧ (∀ now m,
       RaftNode.state (RaftNode.self (RaftNode.handle_append_entries n now m))
       ≠ LEADER)
  ∧ (∀ command,
       RaftNode.state (RaftNode.self (RaftNode.append_entry n command))
       ≠ LEADER)
  ∧ RaftNode.state (RaftNode.fail_node n) ≠ LEADER
  ∧ (∀ now, RaftNode.state (RaftNode.recover_node n now) ≠ LEADER)
  ∧ (∀ b, RaftNode.state (RaftNode.partition_node n b) ≠ LEADER).
Proof.
  intros Hn. repeat split.
  - unfold RaftNode.start_election. destruct (RaftNode.is_failed n); done.
  - intros m. destruct (handle_vote_request_frame n m) as (_ & _ & _ & [H|H]);
      simpl in H; congruence.
  - intros now m. unfold RaftNode.handle_append_entries, RaftNode.observe_leader.
    destruct (RaftNode.is_failed n); [done|].
    destruct (_ <=? _); simpl;
      (destruct (_ <? _); [done|]);
      (destruct (Message.data m) as [| |pli plt es lc]; [done..|]);
      (destruct (RaftNode.log_mismatch _ _ _); [done|]);
      destruct es; simpl; destruct (_ <? lc); done.
  - intros command. unfold RaftNode.append_entry.
    rewrite bool_decide_eq_false_2 by done. done.
  - done.
  - done.
  - done.
Qed.

(** C7: a node that is not yet Leader comes out of [handle_vote_response] as
    Leader exactly when it is a (non-failed) Candidate, the response carries
    the node's current term and grants the vote, and the votes then held
    (its own included) number strictly more than half of [cluster_nodes];
    and no other method makes a Leader. *)
Theorem C7_leader_exactly_on_strict_majority (n : RaftNode.t) (m : Message.t) :
  RaftNode.state n ≠ LEADER →
  (RaftNode.state (RaftNode.self (RaftNode.handle_vote_response n m)) = LEADER
   ↔ RaftNode.state n = CANDIDATE
     ∧ RaftNode.is_failed n = false
     ∧ Message.term m = RaftNode.current_term n
     ∧ Message.get_vote_granted m = true
     ∧ len (RaftNode.cluster_nodes n)
       < 2 * Z.of_nat (size ({[ Message.from_node m ]}
                               ∪ RaftNode.votes_received n)))
  ∧ RaftNode.state (RaftNode.self (RaftNode.start_election n)) ≠ LEADER
  ∧ (∀ m', RaftNode.state (RaftNode.self (RaftNode.handle_vote_request n m'))
           ≠ LEADER)
  ∧ (∀ now m',
       RaftNode.state (RaftNode.self (RaftNode.handle_append_entries n now m'))
       ≠ LEADER)
  ∧ (∀ command,
       RaftNode.state (RaftNode.self (RaftNode.append_entry n command))
       ≠ LEADER)
  ∧ RaftNode.state (RaftNode.fail_node n) ≠ LEADER
  ∧ (∀ now, RaftNode.state (RaftNode.recover_node n now) ≠ LEADER)
  ∧ (∀ b, RaftNode.state (RaftNode.partition_node n b) ≠ LEADER).
Proof.
  intros Hn. split; [|by apply other_methods_do_not_elect].
  destruct (handle_vote_response_cases n m)
    as [(Hs & Hf & Ht & Hg & [[Hmaj Hr]|[Hmin Hr]])|[Hnot Hr]];
    rewrite Hr.
  - rewrite become_leader_state. split; [intros _; done|done].
  - simpl. split; [congruence|]. intros (_ & _ & _ & _ & ?). done.
  - simpl. split; [congruence|]. intros (? & ? & ? & ? & _). tauto.
Qed.

(** A Candidate of a five-node cluster holding two votes receives a third. *)
Lemma C7_leader_exactly_on_strict_majority_witness :
  let n := RaftNode.set_votes_received
             (RaftNode.set_voted_for
                (RaftNode.set_current_term
                   (RaftNode.set_state
                      (RaftNode.init "n1" ["n1"; "n2"; "n3"; "n4"; "n5"] 1500 0)
                      CANDIDATE) 1)
                (Some "n1"))
             {[ "n1"; "n2" ]} in
  let m := Message.mk "vote_response" "n3" "n1" 1 (VoteResponseData true) in
  RaftNode.state n ≠ LEADER
  ∧ RaftNode.state (RaftNode.self (RaftNode.handle_vote_response n m)) = LEADER.
Proof.
  intros n m.
  assert (Hn : RaftNode.state n ≠ LEADER) by (simpl; congruence).
  split; [exact Hn|].
  apply (C7_leader_exactly_on_strict_majority n m Hn).
  repeat split.
Defined.

(** The distinct ids of a list are at most as many as its items. *)
Lemma size_list_to_set_le (l : list string) :
  (size (list_to_set l : gset string) ≤ length l)%nat.
Proof.
  induction l as [|x l IH].
  - rewrite list_to_set_nil, size_empty. done.
  - rewrite list_to_set_cons, size_union_alt, size_singleton. simpl length.
    assert (size (list_to_set l ∖ {[x]} : gset string)
            ≤ size (list_to_set l : gset string))%nat
      by (apply subseteq_size; set_solver).
    lia.
Qed.

(** [votes_received] is a set that [start_election] resets to the
    candidate's own id; a granted response from a node already in the set
    leaves the set as it is and cannot by itself carry the candidate over the
    threshold; handling the same response twice is the same as handling it
    once; and a node made Leader holds votes of strictly more than half of
    [cluster_nodes], hence of more than half of the cluster's distinct ids. *)
Lemma votes_received_is_a_set (n : RaftNode.t) (m : Message.t) :
  let r := RaftNode.handle_vote_response n m in
  (RaftNode.is_failed n = false →
   RaftNode.votes_received (RaftNode.self (RaftNode.start_election n))
   = {[ RaftNode.node_id n ]})
  ∧ (Message.from_node m ∈ RaftNode.votes_received n →
     RaftNode.votes_received (RaftNode.self r) = RaftNode.votes_received n)
  ∧ (Message.from_node m ∈ RaftNode.votes_received n →
     RaftNode.state n ≠ LEADER →
     ¬ len (RaftNode.cluster_nodes n)
       < 2 * Z.of_nat (size (RaftNode.votes_received n)) →
     RaftNode.state (RaftNode.self r) ≠ LEADER)
  ∧ RaftNode.self (RaftNode.handle_vote_response (RaftNode.self r) m)
    = RaftNode.self r
  ∧ (RaftNode.state n ≠ LEADER →
     RaftNode.state (RaftNode.self r) = LEADER →
     RaftNode.votes_received (RaftNode.self r)
     = {[ Message.from_node m ]} ∪ RaftNode.votes_received n
     ∧ Z.of_nat (size (list_to_set (RaftNode.cluster_nodes n) : gset string))
       ≤ len (RaftNode.cluster_nodes n)
     ∧ len (RaftNode.cluster_nodes n)
       < 2 * Z.of_nat (size (RaftNode.votes_received (RaftNode.self r)))).
Proof.
  intros r. subst r.
  assert (Hdup : Message.from_node m ∈ RaftNode.votes_received n →
                 {[ Message.from_node m ]} ∪ RaftNode.votes_received n
                 = RaftNode.votes_received n) by set_solver.
  split; [|split; [|split; [|split]]].
  - intros Hf. unfold RaftNode.start_election. rewrite Hf. reflexivity.
  - intros Hin.
    destruct (handle_vote_response_cases n m)
      as [(_ & _ & _ & _ & [[_ Hr]|[_ Hr]])|[_ Hr]]; rewrite Hr.
    + rewrite become_leader_votes. simpl. auto.
    + simpl. auto.
    + reflexivity.
  - intros Hin Hn Hmin.
    destruct (handle_vote_response_cases n m)
      as [(_ & _ & _ & _ & [[Hmaj _]|[_ Hr]])|[_ Hr]].
    + rewrite (Hdup Hin) in Hmaj. done.
    + rewrite Hr. simpl. congruence.
    + rewrite Hr. done.
  - destruct (handle_vote_response_cases n m)
      as [(Hs & Hf & Ht & Hg & [[_ Hr]|[Hmin Hr]])|[_ Hr]]; rewrite Hr.
    + destruct (handle_vote_response_cases
                  (RaftNode.self
                     (RaftNode.become_leader
                        (RaftNode.set_votes_received n
                           ({[Message.from_node m]}
                              ∪ RaftNode.votes_received n)))) m)
        as [(Hs' & _)|[_ Hr']].
      * rewrite become_leader_state in Hs'. done.
      * rewrite Hr'. reflexivity.
    + simpl.
      destruct (handle_vote_response_cases
                  (RaftNode.set_votes_received n
                     ({[Message.from_node m]} ∪ RaftNode.votes_received n)) m)
        as [(_ & _ & _ & _ & [[Hmaj' _]|[_ Hr']])|[Hnot Hr']].
      * simpl in Hmaj'.
        replace ({[Message.from_node m]}
                   ∪ ({[Message.from_node m]} ∪ RaftNode.votes_received n))
          with ({[Message.from_node m]} ∪ RaftNode.votes_received n : gset string)
          in Hmaj' by set_solver.
        done.
      * rewrite Hr'. simpl.
        replace ({[Message.from_node m]}
                   ∪ ({[Message.from_node m]} ∪ RaftNode.votes_received n))
          with ({[Message.from_node m]} ∪ RaftNode.votes_received n : gset string)
          by set_solver.
        reflexivity.
      * simpl in Hnot. tauto.
    + simpl. rewrite Hr. reflexivity.
  - intros Hn Hl.
    destruct (handle_vote_response_cases n m)
      as [(_ & _ & _ & _ & [[Hmaj Hr]|[_ Hr]])|[_ Hr]]; rewrite Hr in *.
    + rewrite become_leader_votes. simpl. split; [done|]. split; [|done].
      unfold len. apply inj_le, size_list_to_set_le.
    + simpl in Hl. congruence.
    + simpl in Hl. congruence.
Qed.

(** ** Stepping down *)

(** C6, as stated, fails for vote requests: a request of the same term leaves
    a Leader in place with its vote uncleared, and a request of a higher
    term, although granted, does not touch the heartbeat timestamp. *)
Lemma C6_vote_request_counterexample :
  let same := Message.mk "vote_request" "n3" "n1" 1 (VoteRequestData (-1) 0) in
  let higher := Message.mk "vote_request" "n3" "n1" 2 (VoteRequestData (-1) 0) in
  let r1 := RaftNode.handle_vote_request leader_of_term_1 same in
  let r2 := RaftNode.handle_vote_request leader_of_term_1 higher in
  RaftNode.is_failed leader_of_term_1 = false
  ∧ RaftNode.current_term leader_of_term_1 ≤ Message.term same
  ∧ RaftNode.state (RaftNode.self r1) = LEADER
  ∧ RaftNode.voted_for (RaftNode.self r1) = Some "n1"
  ∧ RaftNode.ret r2 = true
  ∧ RaftNode.last_heartbeat (RaftNode.self r2)
    = RaftNode.last_heartbeat leader_of_term_1.
Proof. vm_compute. repeat split; congruence. Qed.

(** C6, amended: a non-failed node in any role that handles an AppendEntries
    of a term at least its own, or a VoteRequest of a term strictly above its
    own, ends as Follower in the message's term, its vote having been cleared
    (for the VoteRequest: cleared by the term update, then given to the
    requester); a VoteRequest of the node's own term changes neither role nor
    term; the heartbeat timestamp is reset by such an AppendEntries and is
    left alone by every VoteRequest. *)
Theorem C6_step_down_on_newer_term
        (n : RaftNode.t) (now : Time) (m : Message.t) :
  RaftNode.is_failed n = false →
  (RaftNode.current_term n ≤ Message.term m →
   let n' := RaftNode.self (RaftNode.handle_append_entries n now m) in
   RaftNode.state n' = FOLLOWER
   ∧ RaftNode.current_term n' = Message.term m
   ∧ RaftNode.voted_for n' = None
   ∧ RaftNode.last_heartbeat n' = now)
  ∧ (RaftNode.current_term n < Message.term m →
     let n1 := RaftNode.adopt_higher_term n m in
     let r := RaftNode.handle_vote_request n m in
     RaftNode.voted_for n1 = None
     ∧ RaftNode.self r
       = RaftNode.set_voted_for n1 (Some (Message.from_node m))
     ∧ RaftNode.ret r = true
     ∧ RaftNode.state (RaftNode.self r) = FOLLOWER
     ∧ RaftNode.current_term (RaftNode.self r) = Message.term m)
  ∧ (RaftNode.current_term n = Message.term m →
     let r := RaftNode.handle_vote_request n m in
     RaftNode.state (RaftNode.self r) = RaftNode.state n
     ∧ RaftNode.current_term (RaftNode.self r) = RaftNode.current_term n)
  ∧ RaftNode.last_heartbeat (RaftNode.self (RaftNode.handle_vote_request n m))
    = RaftNode.last_heartbeat n.
Proof.
  intros Hf. split; [|split; [|split]].
  - intros Hle.
    destruct (observe_leader_current n now m Hle)
      as (Hs & Ht & Hv & Hh & Hl & Hc & _).
    unfold RaftNode.handle_append_entries. rewrite Hf, Ht, Z.ltb_irrefl.
    destruct (Message.data m) as [| |pli plt es lc]; simpl; [done..|].
    destruct (RaftNode.log_mismatch _ _ _); simpl; [done|].
    destruct es; simpl; destruct (_ <? lc); simpl; done.
  - intros Hlt.
    destruct (adopt_higher_term_higher n m Hlt) as (Hs & Ht & Hv & _).
    simpl. unfold RaftNode.handle_vote_request, RaftNode.can_vote.
    rewrite Hf, Ht, Hv, Z.leb_refl. simpl. done.
  - intros Heq. simpl. unfold RaftNode.handle_vote_request.
    rewrite Hf, adopt_higher_term_not_higher by lia.
    destruct (RaftNode.can_vote n m); done.
  - apply handle_vote_request_frame.
Qed.

(** A Candidate of term 1 is reached first by a heartbeat of term 1, then a
    Follower of term 0 by a vote request of term 1. *)
Lemma C6_step_down_on_newer_term_witness :
  let cand := RaftNode.set_voted_for
                (RaftNode.set_current_term
                   (RaftNode.set_state
                      (RaftNode.init "n2" ["n1"; "n2"; "n3"] 1500 0)
                      CANDIDATE) 1)
                (Some "n2") in
  let hb := Message.mk "append_entries" "n1" "n2" 1
                       (AppendEntriesData (-1) 0 [] 0) in
  let fresh := RaftNode.init "n3" ["n1"; "n2"; "n3"] 1500 0 in
  let vr := Message.mk "vote_request" "n1" "n3" 1 (VoteRequestData (-1) 0) in
  RaftNode.state (RaftNode.self (RaftNode.handle_append_entries cand 90 hb))
  = FOLLOWER
  ∧ RaftNode.voted_for
      (RaftNode.self (RaftNode.handle_append_entries cand 90 hb)) = None
  ∧ RaftNode.state (RaftNode.self (RaftNode.handle_vote_request fresh vr))
    = FOLLOWER
  ∧ RaftNode.current_term (RaftNode.self (RaftNode.handle_vote_request fresh vr))
    = 1.
Proof.
  intros cand hb fresh vr.
  destruct (C6_step_down_on_newer_term cand 90 hb eq_refl) as (Hae & _).
  destruct (C6_step_down_on_newer_term fresh 0 vr eq_refl) as (_ & Hvr & _).
  destruct Hae as (H1 & _ & H2 & _); [simpl; lia|].
  destruct Hvr as (_ & _ & _ & H3 & H4); [simpl; lia|].
  repeat split; assumption.
Defined.

(** ** Votes and log recency *)

(** C3: the code grants the vote although the candidate's log is behind.  The
    voter's last entry has term 2; the candidate reports an empty log (last
    index -1, last term 0); the request is granted and a response with
    [vote_granted = True] is sent. *)
Theorem C3_vote_granted_to_stale_candidate :
  let r := RaftNode.handle_vote_request voter_with_log stale_vote_request in
  less_up_to_date (-1) 0 (RaftNode.log voter_with_log)
  ∧ Message.data stale_vote_request = VoteRequestData (-1) 0
  ∧ RaftNode.ret r = true
  ∧ RaftNode.voted_for (RaftNode.self r) = Some "n3"
  ∧ RaftNode.sent r
    = [Message.mk "vote_response" "n2" "n3" 3 (VoteResponseData true)].
Proof.
  simpl. split; [left; vm_compute; reflexivity|]. repeat split.
Qed.

(** ** The commit index *)

Section CommitIndex.
Import RaftNode.

(** Every method but [handle_append_entries] leaves [commit_index] alone. *)
Lemma commit_index_kept_by_other_methods (n : t) :
  commit_index (self (start_election n)) = commit_index n
  ∧ (∀ m, commit_index (self (handle_vote_request n m)) = commit_index n)
  ∧ (∀ m, commit_index (self (handle_vote_response n m)) = commit_index n)
  ∧ (∀ command, commit_index (self (append_entry n command)) = commit_index n)
  ∧ commit_index (fail_node n) = commit_index n
  ∧ (∀ now, commit_index (recover_node n now) = commit_index n)
  ∧ (∀ b, commit_index (partition_node n b) = commit_index n).
Proof.
  repeat split.
  - unfold start_election. destruct (is_failed n); done.
  - intros m. apply handle_vote_request_frame.
  - intros m.
    destruct (handle_vote_response_cases n m)
      as [(_ & _ & _ & _ & [[_ Hr]|[_ Hr]])|[_ Hr]]; rewrite Hr; [|done..].
    unfold become_leader; simpl.
    destruct (init_leader_state_frame
                (set_state
                   (set_votes_received n
                      ({[Message.from_node m]} ∪ votes_received n)) LEADER))
      as (_ & _ & _ & _ & _ & _ & Hc & _).
    exact Hc.
  - intros command. unfold append_entry.
    destruct (_ || _); [done|]. destruct (replicate_log _). done.
Qed.

(** X27: [handle_append_entries] does not lower [commit_index] as long as the
    index it held lies within the log it is left with. *)
Lemma handle_append_entries_commit_index (n : t) (now : Time) (m : Message.t) :
  let n' := self (handle_append_entries n now m) in
  commit_index n ≤ len (log n') - 1 → commit_index n ≤ commit_index n'.
Proof.
  unfold handle_append_entries, observe_leader.
  destruct (is_failed n); [simpl; lia|].
  destruct (current_term n <=? Message.term m); simpl;
    (destruct (_ <? _); [simpl; lia|]);
    (destruct (Message.data m) as [| |pli plt es lc]; [simpl; lia..|]);
    (destruct (log_mismatch _ _ _); [simpl; lia|]);
    destruct es; simpl; destruct (Z.ltb_spec (commit_index n) lc); simpl; lia.
Qed.

End CommitIndex.

(** On messages that announce a commit index other than 0, which no node of
    a cluster ever sends, [handle_append_entries] can lower [commit_index]: a
    freshly made node (commit index 0, empty log) that accepts a heartbeat
    announcing the leader's commit index 1 ends with commit index
    [min(1, -1) = -1]; and a Follower with commit index 2 whose log is
    replaced from the start by a single entry ends with commit index
    [min(3, 0) = 0]. *)
Lemma append_entries_lowers_unannounced_commit_index :
  let r1 := RaftNode.handle_append_entries fresh_node 10 heartbeat_commit_1 in
  let r2 :=
    RaftNode.handle_append_entries follower_commit_2 10 replace_from_start in
  RaftNode.ret r1 = Return true
  ∧ RaftNode.commit_index fresh_node = 0
  ∧ RaftNode.commit_index (RaftNode.self r1) = -1
  ∧ RaftNode.ret r2 = Return true
  ∧ RaftNode.commit_index follower_commit_2 = 2
  ∧ RaftNode.log (RaftNode.self r2) = [LogEntry.mk 2 0 "z"]
  ∧ RaftNode.commit_index (RaftNode.self r2) = 0.
Proof. vm_compute. repeat split. Qed.

(** ** The coordinator *)

Section Dict.
Context {V : Type}.

Lemma dict_get_set_ne (k k' : string) (v : V) (d : dict V) :
  k ≠ k' → dict_get k' (dict_set k v d) = dict_get k' d.
Proof.
  intros Hne. induction d as [|[k0 v0] d IH]; simpl.
  - destruct (decide (k = k')); done.
  - destruct (decide (k0 = k)) as [->|Hk]; simpl.
    + destruct (decide (k = k')); done.
    + destruct (decide (k0 = k')); done.
Qed.

Lemma dict_get_set_eq (k : string) (v : V) (d : dict V) :
  dict_get k (dict_set k v d) = Some v.
Proof.
  induction d as [|[k0 v0] d IH]; simpl.
  - destruct (decide (k = k)); done.
  - destruct (decide (k0 = k)) as [->|Hk]; simpl.
    + destruct (decide (k = k)); done.
    + destruct (decide (k0 = k)); done.
Qed.

End Dict.

Section Coordinator.
Import RaftCluster.

Lemma emit_nodes (w : Wiring) (c : t) (sender : RaftNode.t)
      (ms : list Message.t) :
  nodes (emit w c sender ms) = nodes c.
Proof.
  destruct w; simpl.
  - generalize (ms ≫= RaftNode.send_message sender) as l. intros l.
    revert c. induction l as [|m l IH]; intros c; simpl; [done|apply IH].
  - revert c. induction ms as [|m ms IH]; intros c; simpl; [done|].
    rewrite IH. done.
Qed.

Lemma emit_running (w : Wiring) (c : t) (sender : RaftNode.t)
      (ms : list Message.t) :
  running (emit w c sender ms) = running c.
Proof.
  destruct w; simpl.
  - generalize (ms ≫= RaftNode.send_message sender) as l. intros l.
    revert c. induction l as [|m l IH]; intros c; simpl; [done|apply IH].
  - revert c. induction ms as [|m ms IH]; intros c; simpl; [done|].
    rewrite IH. done.
Qed.

Lemma emit_nothing (w : Wiring) (c : t) (sender : RaftNode.t) :
  emit w c sender [] = c.
Proof. destruct w; done. Qed.

Lemma emit_queue (c : t) (sender : RaftNode.t) (ms : list Message.t) :
  message_queue (emit ClusterQueue c sender ms)
  = (message_queue c ++ ms)%list.
Proof.
  simpl. revert c. induction ms as [|m ms IH]; intros c; simpl.
  - by rewrite app_nil_r.
  - rewrite IH. simpl. by rewrite <- app_assoc.
Qed.

(** With the class's own [send_message] nothing a node sends ever reaches the
    coordinator. *)
Lemma emit_timer (c : t) (sender : RaftNode.t) (ms : list Message.t) :
  emit NodeTimer c sender ms = c.
Proof.
  simpl. generalize (ms ≫= RaftNode.send_message sender) as l.
  induction l as [|m l IH]; simpl; done.
Qed.

Lemma commit_nodes {A} (w : Wiring) (c : t) (key : string)
      (r : RaftNode.Run A) :
  nodes (commit w c key r) = dict_set key (RaftNode.self r) (nodes c).
Proof. unfold commit. by rewrite emit_nodes. Qed.

(** [append_command] without a leader: nothing happens. *)
Lemma append_command_no_leader (w : Wiring) (c : t) (command : string) :
  get_leader c = None → append_command w c command = (c, Return false).
Proof. intros H. unfold append_command. rewrite H. done. Qed.

(** [append_command] with a leader whose id is not the empty string: the
    command goes to the node stored under that id. *)
Lemma append_command_routed (w : Wiring) (c : t) (command id : string)
      (leader : RaftNode.t) :
  get_leader c = Some id → id ≠ "" →
  dict_get id (nodes c) = Some leader →
  append_command w c command
  = (commit w c id (RaftNode.append_entry leader command),
     RaftNode.ret (RaftNode.append_entry leader command)).
Proof.
  intros Hl Hid Hn. unfold append_command. rewrite Hl. simpl.
  destruct id; [done|]. simpl in *. rewrite Hn. done.
Qed.

End Coordinator.

(** ** Delivery *)

(** C5, as stated, fails: a vote request whose sender is by now failed and
    partitioned, and whose receiver is partitioned, is delivered all the
    same; the receiver adopts the term, gives its vote and answers. *)
Lemma C5_delivery_across_partition_counterexample :
  let c' := fst (RaftCluster.process_message ClusterQueue split_cluster 1510
                   queued_vote_request) in
  head (RaftCluster.message_queue split_cluster) = Some queued_vote_request
  ∧ RaftNode.is_failed <$> node_of split_cluster "n1" = Some true
  ∧ RaftNode.network_partition <$> node_of split_cluster "n1" = Some true
  ∧ RaftNode.network_partition <$> node_of split_cluster "n2" = Some true
  ∧ RaftNode.current_term <$> node_of split_cluster "n2" = Some 0
  ∧ RaftNode.voted_for <$> node_of split_cluster "n2" = Some None
  ∧ RaftNode.current_term <$> node_of c' "n2" = Some 1
  ∧ RaftNode.voted_for <$> node_of c' "n2" = Some (Some "n1")
  ∧ last (RaftCluster.message_queue c')
    = Some (Message.mk "vote_response" "n2" "n1" 1 (VoteResponseData true)).
Proof. vm_compute. repeat split. Qed.

(** C5, amended: a message whose addressee is unknown to the coordinator or
    is marked failed at delivery time is dropped: the cluster is left exactly
    as it was; and [RaftNode.send_message] hands nothing to delivery when the
    sending node is marked partitioned. *)
Theorem C5_drop_for_failed_receiver_and_partitioned_sender
        (w : Wiring) (c : RaftCluster.t) (now : Time) (m : Message.t)
        (sender : RaftNode.t) :
  ((∀ target, node_of c (Message.to_node m) = Some target →
              RaftNode.is_failed target = true) →
   RaftCluster.process_message w c now m = (c, Return ()))
  ∧ (RaftNode.network_partition sender = true →
     RaftNode.send_message sender m = []).
Proof.
  split.
  - intros Hdown. unfold RaftCluster.process_message.
    unfold node_of in Hdown.
    destruct (dict_get _ _) as [target|]; [|done].
    rewrite (Hdown target eq_refl). done.
  - intros Hp. unfold RaftNode.send_message. rewrite Hp. done.
Qed.

(** The request addressed to the crashed [n3] is dropped, and a node marked
    partitioned hands nothing to its own [send_message]. *)
Lemma C5_drop_for_failed_receiver_and_partitioned_sender_witness :
  let c := RaftCluster.fail_node split_cluster "n3" in
  let m := Message.mk "vote_request" "n1" "n3" 1 (VoteRequestData (-1) 0) in
  let sender := RaftNode.partition_node fresh_node true in
  RaftCluster.process_message ClusterQueue c 1510 m = (c, Return ())
  ∧ RaftNode.send_message sender m = [].
Proof.
  intros c m sender.
  destruct (C5_drop_for_failed_receiver_and_partitioned_sender
              ClusterQueue c 1510 m sender) as (Hdrop & Hsend).
  split.
  - apply Hdrop. intros target Ht. vm_compute in Ht.
    injection Ht as <-. reflexivity.
  - apply Hsend. reflexivity.
Defined.

(** ** Replication feedback *)

(** Delivering an AppendEntries sends nothing and touches no node but the
    addressee. *)
Lemma process_append_entries_frame
      (w : Wiring) (c : RaftCluster.t) (now : Time) (m : Message.t) :
  Message.type m = "append_entries" →
  let c' := fst (RaftCluster.process_message w c now m) in
  RaftCluster.message_queue c' = RaftCluster.message_queue c
  ∧ ∀ id, id ≠ Message.to_node m → node_of c' id = node_of c id.
Proof.
  intros Hty. unfold RaftCluster.process_message, node_of.
  destruct (dict_get (Message.to_node m) _) as [target|]; [|done].
  destruct (RaftNode.is_failed target); [done|].
  rewrite Hty. simpl. unfold RaftCluster.commit.
  rewrite handle_append_entries_sent, emit_nothing. simpl.
  split; [done|]. intros id Hid. by apply dict_get_set_ne.
Qed.

(** C2, as stated, fails.  Both entries of term 1 are in the logs of [n1] and
    [n2], two nodes of three; [n2] accepts the leader's heartbeat and [n3]
    rejects it; afterwards the leader is exactly as before: [match_index] of
    [n2] is still -1, [next_index] of [n3] still 0, [commit_index] still 0,
    and no message is left that could change this. *)
Lemma C2_no_replication_feedback_counterexample :
  RaftCluster.message_queue before_heartbeat
  = [heartbeat_to "n2"; heartbeat_to "n3"]
  ∧ (λ n, RaftNode.ret (RaftNode.handle_append_entries n 2010
                          (heartbeat_to "n2")))
      <$> node_of before_heartbeat "n2" = Some (Return true)
  ∧ (λ n, RaftNode.ret (RaftNode.handle_append_entries n 2010
                          (heartbeat_to "n3")))
      <$> node_of before_heartbeat "n3" = Some (Return false)
  ∧ node_of after_heartbeat "n1" = node_of before_heartbeat "n1"
  ∧ RaftNode.state <$> node_of after_heartbeat "n1" = Some LEADER
  ∧ RaftNode.current_term <$> node_of after_heartbeat "n1" = Some 1
  ∧ RaftNode.log <$> node_of after_heartbeat "n1"
    = Some [LogEntry.mk 1 0 "x"; LogEntry.mk 1 1 "y"]
  ∧ RaftNode.log <$> node_of after_heartbeat "n2"
    = Some [LogEntry.mk 1 0 "x"; LogEntry.mk 1 1 "y"]
  ∧ (λ n, RaftNode.match_index n !! "n2") <$> node_of after_heartbeat "n1"
    = Some (Some (-1))
  ∧ (λ n, RaftNode.next_index n !! "n3") <$> node_of after_heartbeat "n1"
    = Some (Some 0)
  ∧ RaftNode.commit_index <$> node_of after_heartbeat "n1" = Some 0
  ∧ RaftCluster.message_queue after_heartbeat = [].
Proof. vm_compute. repeat split. Qed.

(** C2, amended: [handle_append_entries] tells acceptance from rejection only
    by the value it returns, which the coordinator drops: delivering an
    AppendEntries sends no response and changes no node other than the
    addressee, and on the addressee it leaves [next_index] and [match_index]
    alone; so the leader's [match_index], [next_index] and [commit_index] are
    the same after a peer accepted or rejected as before. *)
Theorem C2_append_entries_has_no_feedback
        (w : Wiring) (c : RaftCluster.t) (now : Time) (m : Message.t)
        (target : RaftNode.t) :
  Message.type m = "append_entries" →
  let c' := fst (RaftCluster.process_message w c now m) in
  let r := RaftNode.handle_append_entries target now m in
  RaftCluster.message_queue c' = RaftCluster.message_queue c
  ∧ (∀ id, id ≠ Message.to_node m → node_of c' id = node_of c id)
  ∧ RaftNode.sent r = []
  ∧ RaftNode.next_index (RaftNode.self r) = RaftNode.next_index target
  ∧ RaftNode.match_index (RaftNode.self r) = RaftNode.match_index target.
Proof.
  intros Hty.
  destruct (process_append_entries_frame w c now m Hty) as (Hq & Hn).
  destruct (handle_append_entries_frame target now m) as (_ & Hni & Hmi & _).
  simpl. repeat split; try assumption.
  apply handle_append_entries_sent.
Qed.

(** The heartbeat that [n2] accepts. *)
Lemma C2_append_entries_has_no_feedback_witness :
  let m := heartbeat_to "n2" in
  let c' := fst (RaftCluster.process_message ClusterQueue before_heartbeat
                   2010 m) in
  RaftCluster.message_queue c' = RaftCluster.message_queue before_heartbeat
  ∧ node_of c' "n1" = node_of before_heartbeat "n1".
Proof.
  intros m c'.
  destruct (C2_append_entries_has_no_feedback
              ClusterQueue before_heartbeat 2010 m fresh_node eq_refl)
    as (Hq & Hn & _).
  split; [exact Hq|]. apply Hn. simpl. congruence.
Defined.

(** ** Elections in a cluster *)

(** X26, the root of the matter: whatever a node voted in its current term, an
    AppendEntries of that same term makes it vote again, for whoever asks
    next in that term. *)
Lemma second_vote_in_the_same_term
      (n : RaftNode.t) (now : Time) (ae vr : Message.t) :
  RaftNode.is_failed n = false →
  Message.term ae = RaftNode.current_term n →
  Message.term vr = RaftNode.current_term n →
  let n' := RaftNode.self (RaftNode.handle_append_entries n now ae) in
  let r := RaftNode.handle_vote_request n' vr in
  RaftNode.current_term n' = RaftNode.current_term n
  ∧ RaftNode.ret r = true
  ∧ RaftNode.voted_for (RaftNode.self r) = Some (Message.from_node vr)
  ∧ RaftNode.current_term (RaftNode.self r) = RaftNode.current_term n.
Proof.
  intros Hf Hae Hvr.
  assert (Hle : RaftNode.current_term n ≤ Message.term ae) by lia.
  destruct (handle_append_entries_frame n now ae)
    as (_ & _ & _ & _ & Hf' & _).
  set (n' := RaftNode.self (RaftNode.handle_append_entries n now ae)) in *.
  assert (Hn' : RaftNode.current_term n' = Message.term ae
                ∧ RaftNode.voted_for n' = None).
  { subst n'. unfold RaftNode.handle_append_entries.
    destruct (observe_leader_current n now ae Hle)
      as (_ & Ht & Hv & _).
    rewrite Hf, Ht, Z.ltb_irrefl.
    destruct (Message.data ae) as [| |pli plt es lc]; simpl; [done..|].
    destruct (RaftNode.log_mismatch _ _ _); simpl; [done|].
    destruct es; simpl; destruct (_ <? lc); simpl; done. }
  destruct Hn' as [Ht Hv]. simpl.
  unfold RaftNode.handle_vote_request. rewrite Hf' , Hf.
  rewrite adopt_higher_term_not_higher by lia.
  unfold RaftNode.can_vote. rewrite Hv.
  replace (RaftNode.current_term n' <=? Message.term vr) with true
    by (symmetry; apply Z.leb_le; lia).
  simpl. repeat split; lia.
Qed.

(** C1: two nodes win the election of the same term.  No node is ever marked
    partitioned and no term above 1 is ever seen, yet the record of elections
    won shows [n1] in term 1 and then [n3] in term 1: the heartbeat of [n1]
    made [n2] forget that it had voted in term 1, so [n2] voted again. *)
Theorem C1_two_elections_won_in_term_1 :
  elections ClusterQueue cluster3 two_elections_trace
  = [("n1", 1); ("n3", 1)]
  ∧ Forall (λ c, Forall (λ n, RaftNode.network_partition n = false
                              ∧ RaftNode.current_term n ≤ 1)
                        (dict_values (RaftCluster.nodes c)))
           (states ClusterQueue cluster3 two_elections_trace).
Proof.
  split; [vm_compute; reflexivity|].
  compute_done.
Qed.

(** Without the crash of [n1] the two are Leader at the same time, in the
    same term, both alive. *)
Lemma two_live_leaders_in_term_1 :
  let c := run ClusterQueue cluster3 two_leaders_trace in
  (λ n, (RaftNode.state n, RaftNode.current_term n, RaftNode.is_failed n))
    <$> node_of c "n1" = Some (LEADER, 1, false)
  ∧ (λ n, (RaftNode.state n, RaftNode.current_term n, RaftNode.is_failed n))
      <$> node_of c "n3" = Some (LEADER, 1, false).
Proof. vm_compute. split; reflexivity. Qed.

(** ** Appending a command *)

(** C8: a live Leader exists, but its id is the empty string, which
    [if leader_id:] takes for "no leader": [append_command] returns [False]
    and changes nothing, although the Leader itself would have accepted the
    command. *)
Theorem C8_leader_with_empty_id_gets_no_command :
  RaftCluster.get_leader cluster_with_empty_id = Some ""
  ∧ (λ n, (RaftNode.state n, RaftNode.is_failed n))
      <$> node_of cluster_with_empty_id "" = Some (LEADER, false)
  ∧ (λ n, RaftNode.ret (RaftNode.append_entry n "x"))
      <$> node_of cluster_with_empty_id "" = Some (Return true)
  ∧ RaftCluster.append_command ClusterQueue cluster_with_empty_id "x"
    = (cluster_with_empty_id, Return false).
Proof. vm_compute. repeat split. Qed.

(** ** The commit index along executions *)

Section CommitFreeNode.
Import RaftNode.

Lemma send_heartbeat_commit_free (n : t) :
  commit_index n = 0 → Forall announces_no_commit (send_heartbeat n).
Proof.
  intros Hc. unfold send_heartbeat. destruct (_ || _); [constructor|].
  apply Forall_fmap, Forall_forall. intros p _. exact Hc.
Qed.

Lemma replicate_to_commit_free (n : t) (ps : list string) :
  commit_index n = 0 → Forall announces_no_commit (replicate_to n ps).1.
Proof.
  intros Hc. induction ps as [|p ps IH]; simpl; [constructor|].
  unfold append_msg. destruct (if 0 <? _ then _ else _) as [plt|]; simpl.
  - destruct (replicate_to n ps) as [ms o]. simpl in *.
    constructor; [exact Hc|exact IH].
  - constructor.
Qed.

Lemma start_election_commit_free (n : t) :
  keeps_commit_free n (start_election n).
Proof.
  intros Hc. unfold start_election. destruct (is_failed n); simpl.
  - split; [done|constructor].
  - split; [done|]. apply Forall_fmap, Forall_forall. intros p _. exact I.
Qed.

Lemma handle_vote_request_commit_free (n : t) (m : Message.t) :
  keeps_commit_free n (handle_vote_request n m).
Proof.
  intros Hc. split.
  - destruct (handle_vote_request_frame n m) as (_ & _ & H & _).
    simpl in H. congruence.
  - unfold handle_vote_request. destruct (is_failed n); [constructor|].
    destruct (can_vote _ _); simpl; repeat constructor.
Qed.

Lemma handle_vote_response_commit_free (n : t) (m : Message.t) :
  keeps_commit_free n (handle_vote_response n m).
Proof.
  intros Hc.
  destruct (commit_index_kept_by_other_methods n) as (_ & _ & Hk & _).
  split; [rewrite Hk; exact Hc|].
  destruct (handle_vote_response_cases n m)
    as [(_ & _ & _ & _ & [[_ Hr]|[_ Hr]])|[_ Hr]]; rewrite Hr;
    [|constructor..].
  unfold become_leader. simpl. apply send_heartbeat_commit_free.
  destruct (init_leader_state_frame
              (set_state
                 (set_votes_received n
                    ({[Message.from_node m]} ∪ votes_received n)) LEADER))
    as (_ & _ & _ & _ & _ & _ & H & _).
  simpl in H. congruence.
Qed.

Lemma handle_append_entries_commit_free (n : t) (now : Time) (m : Message.t) :
  announces_no_commit m →
  keeps_commit_free n (handle_append_entries n now m).
Proof.
  intros Hm Hc. split; [|rewrite handle_append_entries_sent; constructor].
  unfold announces_no_commit in Hm.
  unfold handle_append_entries, observe_leader.
  destruct (is_failed n); [done|].
  destruct (current_term n <=? Message.term m); simpl;
    (destruct (_ <? _); [done|]);
    (destruct (Message.data m) as [| |pli plt es lc]; [done..|]);
    (destruct (log_mismatch _ _ _); [done|]);
    subst lc; destruct es; simpl; rewrite Hc; done.
Qed.

Lemma append_entry_commit_free (n : t) (command : string) :
  keeps_commit_free n (append_entry n command).
Proof.
  intros Hc.
  destruct (commit_index_kept_by_other_methods n) as (_ & _ & _ & Hk & _).
  split; [rewrite Hk; exact Hc|].
  unfold append_entry. destruct (_ || _); [constructor|].
  unfold replicate_log. destruct (negb _); [constructor|].
  pose proof (replicate_to_commit_free
                (set_log n (log n ++ [LogEntry.mk (current_term n)
                                        (len (log n)) command]))
                (peers (set_log n (log n ++ [LogEntry.mk (current_term n)
                                               (len (log n)) command])))
                Hc) as H.
  destruct (replicate_to _ _) as [ms o]. exact H.
Qed.

End CommitFreeNode.

Section CommitFreeCluster.
Import RaftCluster.

Lemma Forall_dict_set {V} (P : V → Prop) (k : string) (v : V) (d : dict V) :
  Forall P (dict_values d) → P v → Forall P (dict_values (dict_set k v d)).
Proof.
  intros Hd Hv. induction d as [|[k0 v0] d IH]; simpl.
  - repeat constructor. exact Hv.
  - apply Forall_cons in Hd as [H0 Hd].
    destruct (decide (k0 = k)); simpl; constructor; auto.
Qed.

Lemma Forall_dict_get {V} (P : V → Prop) (k : string) (v : V) (d : dict V) :
  Forall P (dict_values d) → dict_get k d = Some v → P v.
Proof.
  intros Hd. induction d as [|[k0 v0] d IH]; simpl; [done|].
  apply Forall_cons in Hd as [H0 Hd].
  destruct (decide (k0 = k)); [intros [= <-]; exact H0|]. apply IH, Hd.
Qed.

Lemma emit_commit_free (w : Wiring) (c : t) (sender : RaftNode.t)
      (ms : list Message.t) :
  commit_free c → Forall announces_no_commit ms →
  commit_free (emit w c sender ms).
Proof.
  intros [Hn Hq] Hms. split; [by rewrite emit_nodes|].
  destruct w; [by rewrite emit_timer|].
  rewrite emit_queue. by apply Forall_app.
Qed.

Lemma commit_commit_free {A} (w : Wiring) (c : t) (key : string)
      (n : RaftNode.t) (r : RaftNode.Run A) :
  commit_free c → dict_get key (nodes c) = Some n →
  keeps_commit_free n r → commit_free (commit w c key r).
Proof.
  intros Hc Hk Hr. destruct (Hc) as [Hn Hq].
  destruct (Hr (Forall_dict_get _ _ _ _ Hn Hk)) as [Hself Hsent].
  unfold commit. apply emit_commit_free; [|exact Hsent].
  split; [|exact Hq]. simpl. by apply Forall_dict_set.
Qed.

Lemma on_node_commit_free (c : t) (id : string)
      (f : RaftNode.t → RaftNode.t) :
  (∀ n, RaftNode.commit_index (f n) = RaftNode.commit_index n) →
  commit_free c → commit_free (on_node c id f).
Proof.
  intros Hf [Hn Hq]. unfold on_node.
  destruct (dict_get id (nodes c)) as [n|] eqn:Hk; [|done].
  split; [|exact Hq]. simpl. apply Forall_dict_set; [exact Hn|].
  rewrite Hf. exact (Forall_dict_get _ _ _ _ Hn Hk).
Qed.

Lemma process_message_commit_free (w : Wiring) (c : t) (now : Time)
      (m : Message.t) :
  commit_free c → announces_no_commit m →
  commit_free (process_message w c now m).1.
Proof.
  intros Hc Hm. unfold process_message.
  destruct (dict_get (Message.to_node m) (nodes c)) as [target|] eqn:Hk;
    [|done].
  destruct (RaftNode.is_failed target); [done|].
  repeat case_bool_decide; simpl; try done.
  - eapply commit_commit_free; eauto using handle_vote_request_commit_free.
  - eapply commit_commit_free; eauto using handle_vote_response_commit_free.
  - eapply commit_commit_free; eauto using handle_append_entries_commit_free.
Qed.

Lemma process_batch_commit_free (w : Wiring) (clock : nat → Time)
      (batch : list Message.t) :
  ∀ (k : nat) (c : t),
    commit_free c → Forall announces_no_commit batch →
    commit_free (process_batch w c clock k batch).1.
Proof.
  induction batch as [|m batch IH]; intros k c Hc Hb; simpl; [done|].
  apply Forall_cons in Hb as [Hm Hb].
  pose proof (process_message_commit_free w c (clock k) m Hc Hm) as Hc'.
  destruct (process_message w c (clock k) m) as [c' [[]|e]]; simpl in *.
  - by apply IH.
  - done.
Qed.

Lemma run_node_commit_free (w : Wiring) (c : t) (id : string) (now : Time) :
  commit_free c → commit_free (run_node w c id now).
Proof.
  intros Hc. unfold run_node.
  destruct (negb (running c)); [done|].
  destruct (dict_get id (nodes c)) as [node|] eqn:Hk; [|done].
  destruct (RaftNode.is_failed node); [done|].
  match goal with
  | |- context [dict_get id (nodes ?x)] => set (c1 := x)
  end.
  assert (Hc1 : commit_free c1).
  { subst c1. destruct (_ && _); [|done].
    eapply commit_commit_free; eauto using start_election_commit_free. }
  clearbody c1.
  destruct (dict_get id (nodes c1)) as [node1|] eqn:Hk1; [|done].
  case_bool_decide; [|done].
  apply emit_commit_free; [done|].
  apply send_heartbeat_commit_free.
  exact (Forall_dict_get _ _ _ _ (proj1 Hc1) Hk1).
Qed.

Lemma append_command_commit_free (w : Wiring) (c : t) (command : string) :
  commit_free c → commit_free (append_command w c command).1.
Proof.
  intros Hc. unfold append_command.
  destruct (truthy_opt_str _); [|done].
  destruct (dict_get _ (nodes c)) as [leader|] eqn:Hk; [|done].
  simpl. eapply commit_commit_free; eauto using append_entry_commit_free.
Qed.

Lemma init_nodes_commit_free (all ids : list string)
      (timeout clock : nat → Time) :
  ∀ (k : nat) (d : dict RaftNode.t),
    Forall (λ n, RaftNode.commit_index n = 0) (dict_values d) →
    Forall (λ n, RaftNode.commit_index n = 0)
           (dict_values (init_nodes all ids timeout clock k d)).
Proof.
  induction ids as [|id ids IH]; intros k d Hd; simpl; [done|].
  apply IH. by apply Forall_dict_set.
Qed.

End CommitFreeCluster.

(** One step of an execution keeps the cluster [commit_free]. *)
Lemma step_commit_free (w : Wiring) (c : RaftCluster.t) (e : Event) :
  commit_free c → commit_free (step w c e).
Proof.
  intros Hc. destruct e as [id now|clock|id|id now|ids b|command]; simpl.
  - by apply run_node_commit_free.
  - unfold RaftCluster._process_messages.
    destruct (negb _); [done|].
    apply process_batch_commit_free; [|apply Hc].
    split; [apply Hc|constructor].
  - by apply on_node_commit_free.
  - by apply on_node_commit_free.
  - unfold RaftCluster.partition_nodes.
    revert c Hc. induction ids as [|id ids IH]; intros c Hc; simpl; [done|].
    apply IH. by apply on_node_commit_free.
  - by apply append_command_commit_free.
Qed.

(** X24: in every execution that starts from a freshly built cluster, whatever
    the wiring, every node's commit index is 0 at every moment: nothing in the
    program ever advances it, so the lowering branch of
    [handle_append_entries] is taken only on messages that no node of the
    cluster sends. *)
Lemma commit_index_stays_zero
      (w : Wiring) (node_ids : list string) (timeout clock : nat → Time)
      (es : list Event) :
  commit_free
    (run w (RaftCluster.start (RaftCluster.init node_ids timeout clock)) es).
Proof.
  assert (H0 : commit_free
                 (RaftCluster.start (RaftCluster.init node_ids timeout clock))).
  { split; [|constructor]. simpl.
    apply init_nodes_commit_free. constructor. }
  unfold run.
  generalize dependent (RaftCluster.start
                          (RaftCluster.init node_ids timeout clock)).
  induction es as [|e es IH]; intros c Hc; simpl; [done|].
  apply IH. by apply step_commit_free.
Qed.

(** * Further properties of [RaftNode] *)

(** ** A failed node *)

(** X1: a node marked failed ignores elections, votes, vote responses,
    AppendEntries and client commands: it is left exactly as it was, sends
    nothing, and answers [False] where there is an answer. *)
Theorem failed_node_is_inert (n : RaftNode.t) (now : Time) (m : Message.t)
        (command : string) :
  RaftNode.is_failed n = true →
  RaftNode.start_election n = RaftNode.mkRun n [] ()
  ∧ RaftNode.handle_vote_request n m = RaftNode.mkRun n [] false
  ∧ RaftNode.handle_vote_response n m = RaftNode.mkRun n [] ()
  ∧ RaftNode.handle_append_entries n now m
    = RaftNode.mkRun n [] (Return false)
  ∧ RaftNode.append_entry n command = RaftNode.mkRun n [] (Return false)
  ∧ RaftNode.send_heartbeat n = [].
Proof.
  intros Hf. repeat split.
  - unfold RaftNode.start_election. by rewrite Hf.
  - unfold RaftNode.handle_vote_request. by rewrite Hf.
  - unfold RaftNode.handle_vote_response. rewrite Hf.
    by rewrite !orb_true_r.
  - unfold RaftNode.handle_append_entries. by rewrite Hf.
  - unfold RaftNode.append_entry. rewrite Hf. by rewrite orb_true_r.
  - unfold RaftNode.send_heartbeat. rewrite Hf. by rewrite orb_true_r.
Qed.

(** A Leader that has crashed receives a heartbeat of a later term. *)
Lemma failed_node_is_inert_witness :
  let n := RaftNode.fail_node leader_of_term_1 in
  let m := Message.mk "append_entries" "n2" "n1" 5
                      (AppendEntriesData (-1) 0 [] 0) in
  RaftNode.handle_append_entries n 40 m = RaftNode.mkRun n [] (Return false)
  ∧ RaftNode.append_entry n "x" = RaftNode.mkRun n [] (Return false).
Proof.
  intros n m.
  destruct (failed_node_is_inert n 40 m "x" eq_refl)
    as (_ & _ & _ & Hae & Hap & _).
  split; assumption.
Defined.

(** ** Terms *)

(** X2: no method of a node ever lowers its [current_term]. *)
Theorem current_term_never_decreases
        (n : RaftNode.t) (now : Time) (m : Message.t) (command : string)
        (b : bool) :
  RaftNode.current_term n
  ≤ RaftNode.current_term (RaftNode.self (RaftNode.start_election n))
  ∧ RaftNode.current_term n
    ≤ RaftNode.current_term (RaftNode.self (RaftNode.handle_vote_request n m))
  ∧ RaftNode.current_term n
    ≤ RaftNode.current_term (RaftNode.self (RaftNode.handle_vote_response n m))
  ∧ RaftNode.current_term n
    ≤ RaftNode.current_term
        (RaftNode.self (RaftNode.handle_append_entries n now m))
  ∧ RaftNode.current_term n
    ≤ RaftNode.current_term (RaftNode.self (RaftNode.append_entry n command))
  ∧ RaftNode.current_term n ≤ RaftNode.current_term (RaftNode.fail_node n)
  ∧ RaftNode.current_term n
    ≤ RaftNode.current_term (RaftNode.recover_node n now)
  ∧ RaftNode.current_term n
    ≤ RaftNode.current_term (RaftNode.partition_node n b).
Proof.
  split; [|split; [|split; [|split; [|split]]]].
  - unfold RaftNode.start_election.
    destruct (RaftNode.is_failed n); simpl; lia.
  - unfold RaftNode.handle_vote_request, RaftNode.adopt_higher_term.
    destruct (RaftNode.is_failed n); simpl; [lia|].
    destruct (Z.ltb_spec (RaftNode.current_term n) (Message.term m));
      destruct (RaftNode.can_vote _ _); simpl; lia.
  - destruct (handle_vote_response_cases n m)
      as [(_ & _ & _ & _ & [[_ Hr]|[_ Hr]])|[_ Hr]]; rewrite Hr;
      [|simpl; lia..].
    unfold RaftNode.become_leader; simpl.
    destruct (init_leader_state_frame
                (RaftNode.set_state
                   (RaftNode.set_votes_received n
                      ({[Message.from_node m]} ∪ RaftNode.votes_received n))
                   LEADER))
      as (_ & _ & _ & Ht & _).
    rewrite Ht. simpl. lia.
  - unfold RaftNode.handle_append_entries, RaftNode.observe_leader.
    destruct (RaftNode.is_failed n); [simpl; lia|].
    destruct (Z.leb_spec (RaftNode.current_term n) (Message.term m)); simpl;
      (destruct (_ <? _); [simpl; lia|]);
      (destruct (Message.data m) as [| |pli plt es lc]; [simpl; lia..|]);
      (destruct (RaftNode.log_mismatch _ _ _); [simpl; lia|]);
      destruct es; simpl; destruct (_ <? lc); simpl; lia.
  - unfold RaftNode.append_entry.
    destruct (_ || _); [simpl; lia|].
    destruct (RaftNode.replicate_log _). simpl. lia.
  - simpl. lia.
Qed.

(** ** Stale terms *)

(** X3: a VoteRequest or an AppendEntries whose term is below the receiver's
    is answered [False]; the receiver is left exactly as it was and sends
    nothing. *)
Theorem stale_term_is_rejected (n : RaftNode.t) (now : Time) (m : Message.t) :
  Message.term m < RaftNode.current_term n →
  RaftNode.handle_vote_request n m = RaftNode.mkRun n [] false
  ∧ RaftNode.handle_append_entries n now m
    = RaftNode.mkRun n [] (Return false).
Proof.
  intros Hlt. split.
  - unfold RaftNode.handle_vote_request.
    destruct (RaftNode.is_failed n); [done|].
    rewrite adopt_higher_term_not_higher by lia.
    unfold RaftNode.can_vote.
    destruct (Z.leb_spec (RaftNode.current_term n) (Message.term m)); [lia|].
    done.
  - unfold RaftNode.handle_append_entries, RaftNode.observe_leader.
    destruct (RaftNode.is_failed n); [done|].
    destruct (Z.leb_spec (RaftNode.current_term n) (Message.term m)); [lia|].
    destruct (Z.ltb_spec (Message.term m) (RaftNode.current_term n)); [|lia].
    done.
Qed.

(** The Follower of term 2 is asked for its vote in term 1. *)
Lemma stale_term_is_rejected_witness :
  let m := Message.mk "vote_request" "n3" "n2" 1 (VoteRequestData 5 1) in
  RaftNode.handle_vote_request voter_with_log m
  = RaftNode.mkRun voter_with_log [] false
  ∧ RaftNode.handle_append_entries voter_with_log 7 m
    = RaftNode.mkRun voter_with_log [] (Return false).
Proof.
  intros m. apply (stale_term_is_rejected voter_with_log 7 m).
  simpl. lia.
Defined.

(** ** One vote per term *)

(** X4: a node that holds a vote for one candidate refuses every request of
    another candidate whose term is not above its own, and is left as it
    was; the candidate it voted for is granted again, in the same term,
    without any change to the node. *)
Theorem vote_is_kept_within_a_term (n : RaftNode.t) (m : Message.t)
        (v : string) :
  RaftNode.voted_for n = Some v →
  Message.term m ≤ RaftNode.current_term n →
  (v ≠ Message.from_node m →
   RaftNode.handle_vote_request n m = RaftNode.mkRun n [] false)
  ∧ (v = Message.from_node m →
     RaftNode.is_failed n = false →
     Message.term m = RaftNode.current_term n →
     RaftNode.handle_vote_request n m
     = RaftNode.mkRun n
         [Message.mk "vote_response" (RaftNode.node_id n) v
            (RaftNode.current_term n) (VoteResponseData true)]
         true).
Proof.
  intros Hv Hle. split.
  - intros Hne. unfold RaftNode.handle_vote_request.
    destruct (RaftNode.is_failed n); [done|].
    rewrite adopt_higher_term_not_higher by lia.
    unfold RaftNode.can_vote. rewrite Hv.
    rewrite bool_decide_eq_false_2 by done.
    by rewrite andb_false_r.
  - intros -> Hf Ht. unfold RaftNode.handle_vote_request. rewrite Hf.
    rewrite adopt_higher_term_not_higher by lia.
    unfold RaftNode.can_vote. rewrite Hv.
    rewrite bool_decide_eq_true_2 by done.
    replace (RaftNode.current_term n <=? Message.term m) with true
      by (symmetry; apply Z.leb_le; lia).
    simpl. destruct n; simpl in *. subst. reflexivity.
Qed.

(** The Leader of term 1, which voted for itself, is asked by [n3] in
    term 1. *)
Lemma vote_is_kept_within_a_term_witness :
  let m := Message.mk "vote_request" "n3" "n1" 1 (VoteRequestData (-1) 0) in
  RaftNode.handle_vote_request leader_of_term_1 m
  = RaftNode.mkRun leader_of_term_1 [] false.
Proof.
  intros m.
  destruct (vote_is_kept_within_a_term leader_of_term_1 m "n1") as [H _].
  - vm_compute. reflexivity.
  - vm_compute. congruence.
  - apply H. vm_compute. congruence.
Defined.

(** ** The log after an accepted AppendEntries *)

Section Slices.
Context {A : Type}.

Lemma len_nonneg (l : list A) : 0 ≤ len l.
Proof. unfold len. lia. Qed.

Lemma len_app (l k : list A) : len (l ++ k) = len l + len k.
Proof. unfold len. rewrite length_app. lia. Qed.

Lemma slice_to_nonneg (l : list A) (j : Z) :
  0 ≤ j → slice_to l j = take (Z.to_nat j) l.
Proof.
  intros Hj. unfold slice_to.
  destruct (Z.leb_spec 0 j); [done|lia].
Qed.

Lemma len_take (l : list A) (j : Z) :
  0 ≤ j ≤ len l → len (take (Z.to_nat j) l) = j.
Proof. unfold len. intros Hj. rewrite length_take. lia. Qed.

Lemma index_in_range (l : list A) (i : Z) :
  0 ≤ i < len l → index l i = l !! Z.to_nat i.
Proof.
  intros Hi. unfold index.
  destruct (Z.leb_spec 0 i); [|lia].
  destruct (Z.ltb_spec i (len l)); [done|lia].
Qed.

End Slices.

Section AcceptedAppendEntries.
Import RaftNode.

(** The check passes exactly when there is no previous entry to compare, or
    the entry at [prev_log_index] exists and has the announced term. *)
Lemma log_mismatch_false (l : list LogEntry.t) (pli plt : Z) :
  log_mismatch l pli plt = false ↔
  pli < 0 ∨ (pli < len l
             ∧ LogEntry.term <$> index l pli = Some plt).
Proof.
  unfold log_mismatch.
  destruct (Z.leb_spec 0 pli) as [Hp|Hp]; simpl; [|split; [left; lia|done]].
  destruct (Z.leb_spec (len l) pli) as [Hl|Hl]; simpl.
  { split; [done|]. intros [?|[? _]]; lia. }
  destruct (index l pli) as [e|]; simpl.
  - destruct (Z.eqb_spec (LogEntry.term e) plt) as [He|He]; simpl.
    + split; [right; split; [lia|congruence]|done].
    + split; [done|]. intros [?|[_ [= ?]]]; [lia|done].
  - split; [done|]. intros [?|[_ ?]]; [lia|done].
Qed.

(** What [handle_append_entries] does once the term and the log check are
    passed. *)
Lemma handle_append_entries_accepted
      (n : t) (now : Time) (m : Message.t) (pli plt lc : Z)
      (es : list LogEntry.t) :
  is_failed n = false →
  current_term n ≤ Message.term m →
  Message.data m = AppendEntriesData pli plt es lc →
  log_mismatch (log n) pli plt = false →
  let n1 := observe_leader n now m in
  let l' := match es with
            | [] => log n
            | _ :: _ => (slice_to (log n) (pli + 1) ++ es)%list
            end in
  let c' := if commit_index n <? lc then Z.min lc (len l' - 1)
            else commit_index n in
  handle_append_entries n now m
  = mkRun (set_commit_index (set_log n1 l') c') [] (Return true).
Proof.
  intros Hf Hle Hd Hok.
  unfold handle_append_entries, observe_leader. rewrite Hf.
  destruct (Z.leb_spec (current_term n) (Message.term m)); [|lia].
  destruct n; simpl in *. rewrite Z.ltb_irrefl, Hd, Hok.
  destruct es as [|e es]; simpl; destruct (_ <? lc); reflexivity.
Qed.

End AcceptedAppendEntries.

(** X6: an AppendEntries that passes the term test and the log check (with
    [prev_log_index] at least -1) is answered [True].  [prev_log_index] then
    lies within the log; a message without entries leaves the log alone; one
    with entries keeps the first [prev_log_index + 1] entries, drops what
    followed and appends the new ones, so every position up to
    [prev_log_index] reads as before. *)
Theorem accepted_entries_replace_the_suffix
        (n : RaftNode.t) (now : Time) (m : Message.t) (pli plt lc : Z)
        (es : list LogEntry.t) :
  RaftNode.is_failed n = false →
  RaftNode.current_term n ≤ Message.term m →
  Message.data m = AppendEntriesData pli plt es lc →
  -1 ≤ pli →
  RaftNode.log_mismatch (RaftNode.log n) pli plt = false →
  let r := RaftNode.handle_append_entries n now m in
  RaftNode.ret r = Return true
  ∧ pli < len (RaftNode.log n)
  ∧ RaftNode.log (RaftNode.self r)
    = match es with
      | [] => RaftNode.log n
      | _ :: _ => (take (Z.to_nat (pli + 1)) (RaftNode.log n) ++ es)%list
      end
  ∧ (es ≠ [] → len (RaftNode.log (RaftNode.self r)) = pli + 1 + len es)
  ∧ (∀ i, 0 ≤ i ≤ pli →
          index (RaftNode.log (RaftNode.self r)) i = index (RaftNode.log n) i).
Proof.
  intros Hf Hle Hd Hpli Hok. simpl.
  rewrite (handle_append_entries_accepted n now m pli plt lc es Hf Hle Hd Hok).
  simpl.
  assert (Hin : pli < len (RaftNode.log n)).
  { apply log_mismatch_false in Hok as [?|[? _]]; [|done].
    pose proof (len_nonneg (RaftNode.log n)). lia. }
  split; [done|]. split; [done|].
  rewrite slice_to_nonneg by lia.
  destruct es as [|e es]; simpl.
  - repeat split; done.
  - split; [done|]. split.
    + intros _. rewrite len_app, len_take by lia. done.
    + intros i Hi.
      assert (Hlt : (Z.to_nat i < length (take (Z.to_nat (pli + 1))
                                          (RaftNode.log n)))%nat).
      { rewrite length_take. unfold len in Hin. lia. }
      rewrite !index_in_range.
      * rewrite lookup_app_l by done. apply lookup_take_lt. lia.
      * lia.
      * rewrite len_app, len_take by lia.
        pose proof (len_nonneg (e :: es)). lia.
Qed.

(** The Follower with three entries of term 1 receives two entries of term 2
    to follow its first entry. *)
Lemma accepted_entries_replace_the_suffix_witness :
  let m := Message.mk "append_entries" "n1" "n2" 2
             (AppendEntriesData 0 1
                [LogEntry.mk 2 1 "p"; LogEntry.mk 2 2 "q"] 0) in
  let r := RaftNode.handle_append_entries follower_commit_2 30 m in
  RaftNode.ret r = Return true
  ∧ RaftNode.log (RaftNode.self r)
    = [LogEntry.mk 1 0 "a"; LogEntry.mk 2 1 "p"; LogEntry.mk 2 2 "q"].
Proof.
  intros m r.
  destruct (accepted_entries_replace_the_suffix follower_commit_2 30 m 0 1 0
              [LogEntry.mk 2 1 "p"; LogEntry.mk 2 2 "q"])
    as (Hret & _ & Hlog & _);
    [reflexivity | simpl; lia | reflexivity | lia | reflexivity |].
  split; [exact Hret | exact Hlog].
Defined.

(** X7: a [prev_log_index] below -1 is never rejected by the log check,
    whatever the receiver's log and the announced previous term; with entries
    to append, the slice [log[:prev_log_index + 1]] then counts from the end:
    the last [-(prev_log_index + 1)] entries of the log are dropped (all of
    them if there are fewer) before the new ones are appended. *)
Theorem prev_log_index_below_minus_one
        (n : RaftNode.t) (now : Time) (m : Message.t) (pli plt lc : Z)
        (e : LogEntry.t) (es : list LogEntry.t) :
  RaftNode.is_failed n = false →
  RaftNode.current_term n ≤ Message.term m →
  Message.data m = AppendEntriesData pli plt (e :: es) lc →
  pli < -1 →
  let r := RaftNode.handle_append_entries n now m in
  RaftNode.ret r = Return true
  ∧ RaftNode.log (RaftNode.self r)
    = (take (Z.to_nat (len (RaftNode.log n) + (pli + 1))) (RaftNode.log n)
         ++ e :: es)%list.
Proof.
  intros Hf Hle Hd Hpli.
  assert (Hok : RaftNode.log_mismatch (RaftNode.log n) pli plt = false)
    by (apply log_mismatch_false; left; lia).
  simpl.
  rewrite (handle_append_entries_accepted n now m pli plt lc (e :: es)
             Hf Hle Hd Hok).
  simpl. split; [done|]. unfold slice_to.
  destruct (Z.leb_spec 0 (pli + 1)); [lia|].
  f_equal. f_equal. lia.
Qed.

(** The Follower with three entries is sent [prev_log_index = -3]: its last
    two entries go. *)
Lemma prev_log_index_below_minus_one_witness :
  let m := Message.mk "append_entries" "n1" "n2" 2
             (AppendEntriesData (-3) 9 [LogEntry.mk 2 7 "z"] 0) in
  let r := RaftNode.handle_append_entries follower_commit_2 30 m in
  RaftNode.ret r = Return true
  ∧ RaftNode.log (RaftNode.self r)
    = [LogEntry.mk 1 0 "a"; LogEntry.mk 2 7 "z"].
Proof.
  intros m r.
  destruct (prev_log_index_below_minus_one follower_commit_2 30 m (-3) 9 0
              (LogEntry.mk 2 7 "z") [])
    as (Hret & Hlog);
    [reflexivity | simpl; lia | reflexivity | lia |].
  split; [exact Hret | exact Hlog].
Defined.

(** ** Redelivery of an AppendEntries *)

Lemma index_take_app {A} (l es : list A) (k i : Z) :
  0 ≤ i < k → k ≤ len l →
  index (take (Z.to_nat k) l ++ es) i = index l i.
Proof.
  intros Hi Hk.
  assert (Hlt : (Z.to_nat i < length (take (Z.to_nat k) l))%nat).
  { rewrite length_take. unfold len in Hk. lia. }
  rewrite !index_in_range.
  - rewrite lookup_app_l by done. apply lookup_take_lt. lia.
  - lia.
  - rewrite len_app, len_take by lia. pose proof (len_nonneg es). lia.
Qed.

Lemma observe_leader_again (n : RaftNode.t) (now : Time) (m : Message.t) :
  RaftNode.observe_leader (RaftNode.observe_leader n now m) now m
  = RaftNode.observe_leader n now m.
Proof.
  unfold RaftNode.observe_leader.
  destruct (Z.leb_spec (RaftNode.current_term n) (Message.term m)) as [H|H];
    simpl.
  - rewrite Z.leb_refl. reflexivity.
  - destruct (Z.leb_spec (RaftNode.current_term n) (Message.term m)); [lia|].
    reflexivity.
Qed.

(** After the term update the handler has nothing more to learn from the
    same message's term. *)
Lemma handle_append_entries_after_observe
      (n : RaftNode.t) (now : Time) (m : Message.t) :
  RaftNode.is_failed n = false →
  RaftNode.handle_append_entries (RaftNode.observe_leader n now m) now m
  = RaftNode.handle_append_entries n now m.
Proof.
  intros Hf. unfold RaftNode.handle_append_entries.
  rewrite observe_leader_again, Hf.
  replace (RaftNode.is_failed (RaftNode.observe_leader n now m)) with false.
  - reflexivity.
  - unfold RaftNode.observe_leader. destruct (_ <=? _); simpl; congruence.
Qed.

(** X5: handling the same AppendEntries a second time (at the same clock
    reading) changes nothing more and gives the same answer, provided its
    [prev_log_index], if it has one, is at least -1. *)
Theorem append_entries_redelivery_is_idempotent
        (n : RaftNode.t) (now : Time) (m : Message.t) :
  (∀ pli plt es lc,
     Message.data m = AppendEntriesData pli plt es lc → -1 ≤ pli) →
  let r := RaftNode.handle_append_entries n now m in
  RaftNode.handle_append_entries (RaftNode.self r) now m = r.
Proof.
  intros Hpli. simpl.
  destruct (RaftNode.is_failed n) eqn:Hf.
  { unfold RaftNode.handle_append_entries. rewrite Hf. simpl.
    by rewrite Hf. }
  pose proof (handle_append_entries_after_observe n now m Hf) as Hagain.
  assert (Hrej : RaftNode.self (RaftNode.handle_append_entries n now m)
                 = RaftNode.observe_leader n now m →
                 RaftNode.handle_append_entries
                   (RaftNode.self (RaftNode.handle_append_entries n now m))
                   now m
                 = RaftNode.handle_append_entries n now m)
    by (intros ->; exact Hagain).
  destruct (Z.leb_spec (RaftNode.current_term n) (Message.term m)) as [Hle|Hgt].
  2:{ apply Hrej. unfold RaftNode.handle_append_entries. rewrite Hf.
      destruct (Z.ltb_spec (Message.term m)
                  (RaftNode.current_term (RaftNode.observe_leader n now m)))
        as [|Hge]; [done|].
      exfalso. unfold RaftNode.observe_leader in Hge.
      destruct (Z.leb_spec (RaftNode.current_term n) (Message.term m));
        simpl in Hge; lia. }
  destruct (Message.data m) as [lli llt|g|pli plt es lc] eqn:Hd.
  1,2: apply Hrej; unfold RaftNode.handle_append_entries; rewrite Hf, Hd;
       destruct (_ <? _); done.
  specialize (Hpli pli plt es lc eq_refl).
  destruct (observe_leader_current n now m Hle)
    as (Hs1 & Ht1 & Hv1 & Hh1 & Hl1 & Hc1 & Hf1).
  destruct (RaftNode.log_mismatch (RaftNode.log n) pli plt) eqn:Hmis.
  { apply Hrej. unfold RaftNode.handle_append_entries.
    rewrite Hf, Hd, Hl1, Hmis. destruct (_ <? _); done. }
  assert (Hin : pli < len (RaftNode.log n)).
  { apply log_mismatch_false in Hmis as [?|[? _]]; [|done].
    pose proof (len_nonneg (RaftNode.log n)). lia. }
  rewrite (handle_append_entries_accepted n now m pli plt lc es Hf Hle Hd Hmis).
  simpl.
  set (n1 := RaftNode.observe_leader n now m) in *.
  set (l' := match es with
             | [] => RaftNode.log n
             | _ :: _ => (slice_to (RaftNode.log n) (pli + 1) ++ es)%list
             end).
  set (c' := if RaftNode.commit_index n <? lc then Z.min lc (len l' - 1)
             else RaftNode.commit_index n).
  assert (Hmis' : RaftNode.log_mismatch l' pli plt = false).
  { apply log_mismatch_false. apply log_mismatch_false in Hmis.
    destruct Hmis as [?|[_ Hterm]]; [by left|].
    destruct (Z.ltb_spec pli 0); [by left|]. right.
    subst l'. destruct es as [|e es']; [done|].
    rewrite slice_to_nonneg by lia.
    rewrite index_take_app by lia. split; [|done].
    rewrite len_app, len_take by lia.
    pose proof (len_nonneg (e :: es')). lia. }
  rewrite (handle_append_entries_accepted
             (RaftNode.set_commit_index (RaftNode.set_log n1 l') c')
             now m pli plt lc es);
    [|simpl; congruence|simpl; lia|exact Hd|exact Hmis'].
  simpl.
  assert (Hobs : RaftNode.observe_leader
                   (RaftNode.set_commit_index (RaftNode.set_log n1 l') c')
                   now m
                 = RaftNode.set_commit_index (RaftNode.set_log n1 l') c').
  { subst n1. unfold RaftNode.observe_leader. simpl.
    destruct (Z.leb_spec (RaftNode.current_term n) (Message.term m)); [|lia].
    simpl. rewrite Z.leb_refl. reflexivity. }
  rewrite Hobs.
  assert (Hl'' : match es with
                 | [] => l'
                 | _ :: _ => (slice_to l' (pli + 1) ++ es)%list
                 end = l').
  { subst l'. destruct es as [|e es']; [done|].
    rewrite !slice_to_nonneg by lia. f_equal.
    apply take_app_length'. rewrite length_take. unfold len in Hin. lia. }
  rewrite Hl''.
  assert (Hc'' : (if c' <? lc then Z.min lc (len l' - 1) else c') = c').
  { subst c'. destruct (Z.ltb_spec (RaftNode.commit_index n) lc).
    - destruct (Z.ltb_spec (Z.min lc (len l' - 1)) lc); lia.
    - destruct (Z.ltb_spec (RaftNode.commit_index n) lc); lia. }
  rewrite Hc''. reflexivity.
Qed.

(** The accepted replacement of the witness above, delivered twice. *)
Lemma append_entries_redelivery_is_idempotent_witness :
  let m := Message.mk "append_entries" "n1" "n2" 2
             (AppendEntriesData 0 1
                [LogEntry.mk 2 1 "p"; LogEntry.mk 2 2 "q"] 2) in
  let r := RaftNode.handle_append_entries follower_commit_2 30 m in
  RaftNode.handle_append_entries (RaftNode.self r) 30 m = r.
Proof.
  intros m.
  apply (append_entries_redelivery_is_idempotent follower_commit_2 30 m).
  intros pli plt es lc [= <- _ _ _]. lia.
Defined.

(** ** The leader's bookkeeping *)

Section LeaderBookkeeping.
Import RaftNode.

Lemma init_leader_loop_lookup (ps : list string) (p : string) :
  ∀ acc : t,
    let acc' :=
      foldl (λ a q,
               set_match_index
                 (set_next_index a (<[q := len (log a)]> (next_index a)))
                 (<[q := -1]> (match_index a)))
            acc ps in
    log acc' = log acc
    ∧ (p ∈ ps → next_index acc' !! p = Some (len (log acc))
                ∧ match_index acc' !! p = Some (-1))
    ∧ (p ∉ ps → next_index acc' !! p = next_index acc !! p
                ∧ match_index acc' !! p = match_index acc !! p).
Proof.
  induction ps as [|q ps IH]; intros acc; simpl.
  - split; [done|]. split; [intros H; by apply elem_of_nil in H|done].
  - specialize (IH (set_match_index
                      (set_next_index acc (<[q:=len (log acc)]> (next_index acc)))
                      (<[q:=-1]> (match_index acc)))).
    simpl in IH. destruct IH as (Hl & Hin & Hout).
    split; [exact Hl|]. split.
    + intros Hp. destruct (decide (p ∈ ps)) as [Hps|Hps]; [by apply Hin|].
      apply elem_of_cons in Hp as [->|Hp]; [|done].
      destruct (Hout Hps) as [Hn Hm]. rewrite Hn, Hm.
      by rewrite !lookup_insert_eq.
    + intros Hp. apply not_elem_of_cons in Hp as [Hne Hps].
      destruct (Hout Hps) as [Hn Hm]. rewrite Hn, Hm.
      by rewrite !lookup_insert_ne.
Qed.

Lemma elem_of_peers (n : t) (p : string) :
  p ∈ peers n ↔ p ∈ cluster_nodes n ∧ p ≠ node_id n.
Proof. unfold peers. rewrite list_elem_of_filter. tauto. Qed.

End LeaderBookkeeping.

(** X8: [become_leader] makes the node Leader, sets [next_index] to the
    length of its log and [match_index] to -1 for every other member of
    [cluster_nodes], leaves the entries of every other key (its own id, ids
    outside the cluster) as they were, and, unless the node is failed, sends
    one empty AppendEntries to each other member, in the order of
    [cluster_nodes]. *)
Theorem become_leader_initialises_every_peer (n : RaftNode.t) (p : string) :
  let r := RaftNode.become_leader n in
  RaftNode.state (RaftNode.self r) = LEADER
  ∧ RaftNode.log (RaftNode.self r) = RaftNode.log n
  ∧ RaftNode.current_term (RaftNode.self r) = RaftNode.current_term n
  ∧ (p ∈ RaftNode.cluster_nodes n → p ≠ RaftNode.node_id n →
     RaftNode.next_index (RaftNode.self r) !! p = Some (len (RaftNode.log n))
     ∧ RaftNode.match_index (RaftNode.self r) !! p = Some (-1))
  ∧ (p ∉ RaftNode.cluster_nodes n ∨ p = RaftNode.node_id n →
     RaftNode.next_index (RaftNode.self r) !! p = RaftNode.next_index n !! p
     ∧ RaftNode.match_index (RaftNode.self r) !! p
       = RaftNode.match_index n !! p)
  ∧ (RaftNode.is_failed n = false →
     Message.to_node <$> RaftNode.sent r = RaftNode.peers n
     ∧ Forall (λ msg, Message.type msg = "append_entries"
                      ∧ Message.from_node msg = RaftNode.node_id n
                      ∧ Message.term msg = RaftNode.current_term n
                      ∧ Message.data msg
                        = AppendEntriesData
                            (RaftNode.last_log_index_of (RaftNode.log n))
                            (RaftNode.last_log_term_of (RaftNode.log n))
                            [] (RaftNode.commit_index n))
              (RaftNode.sent r)).
Proof.
  simpl.
  destruct (init_leader_state_frame (RaftNode.set_state n LEADER))
    as (Hid & Hcn & Hs & Ht & _ & Hl & Hc & _ & _ & Hf & _).
  simpl in *.
  pose proof (init_leader_loop_lookup
                (RaftNode.peers (RaftNode.set_state n LEADER)) p
                (RaftNode.set_state n LEADER)) as Hlk.
  simpl in Hlk. fold (RaftNode.init_leader_state (RaftNode.set_state n LEADER))
    in Hlk.
  destruct Hlk as (_ & Hin & Hout).
  change (RaftNode.peers (RaftNode.set_state n LEADER))
    with (RaftNode.peers n) in *.
  repeat split; try done.
  - apply Hin. by apply elem_of_peers.
  - apply Hin. by apply elem_of_peers.
  - apply Hout. rewrite elem_of_peers. tauto.
  - apply Hout. rewrite elem_of_peers. tauto.
  - unfold RaftNode.send_heartbeat. rewrite Hs, Hf, H. simpl.
    rewrite <- list_fmap_compose.
    unfold RaftNode.peers. rewrite Hid, Hcn. simpl.
    apply list_fmap_id.
  - unfold RaftNode.send_heartbeat. rewrite Hs, Hf, H. simpl.
    apply Forall_fmap, Forall_forall. intros q _. simpl.
    rewrite Hid, Ht, Hl, Hc. done.
Qed.

(** The Candidate that is about to win in a three-node cluster. *)
Lemma become_leader_initialises_every_peer_witness :
  RaftNode.next_index leader_of_term_1 !! "n2" = Some 0
  ∧ RaftNode.match_index leader_of_term_1 !! "n2" = Some (-1)
  ∧ RaftNode.next_index leader_of_term_1 !! "n1" = None.
Proof.
  unfold leader_of_term_1.
  match goal with
  | |- context [RaftNode.become_leader ?c] =>
      destruct (become_leader_initialises_every_peer c "n2")
        as (_ & _ & _ & Hin & _);
      destruct (become_leader_initialises_every_peer c "n1")
        as (_ & _ & _ & _ & Hout & _)
  end.
  destruct Hin as [H1 H2]; [simpl; set_solver | simpl; congruence |].
  destruct Hout as [H3 _]; [right; reflexivity|].
  repeat split; assumption.
Defined.

(** ** Replication *)

Section Replication.
Import RaftNode.

(** [replicate_log] builds a message for a peer unless the peer's
    [next_index] lies beyond the end of the log. *)
Lemma append_msg_None (n : t) (p : string) :
  append_msg n p = None ↔ len (log n) < next_index_of n p.
Proof.
  unfold append_msg, next_index_of.
  set (k := default 0 (next_index n !! p)).
  pose proof (len_nonneg (log n)) as Hlen.
  destruct (Z.ltb_spec 0 k) as [Hk|Hk]; simpl.
  - destruct (Z.ltb_spec (k - 1) (len (log n))) as [Hin|Hout].
    + rewrite index_in_range by lia.
      destruct (lookup_lt_is_Some_2 (log n) (Z.to_nat (k - 1))) as [e He].
      { unfold len in Hin. lia. }
      rewrite He. simpl. split; [done|lia].
    + unfold index.
      destruct (Z.leb_spec 0 (k - 1)); [|lia].
      destruct (Z.ltb_spec (k - 1) (len (log n))); [lia|]. simpl.
      destruct (Z.leb_spec (- len (log n)) (k - 1)); simpl.
      * destruct (Z.ltb_spec (k - 1) 0); [lia|]. simpl. split; [lia|done].
      * split; [lia|done].
  - split; [done|lia].
Qed.

Lemma replicate_to_spec (n : t) (ps : list string) :
  ((replicate_to n ps).2 = Raise IndexError
   ↔ Exists (λ p, len (log n) < next_index_of n p) ps)
  ∧ ((replicate_to n ps).2 = Return ()
     ↔ Forall (λ p, next_index_of n p ≤ len (log n)) ps)
  ∧ ((replicate_to n ps).2 = Return () →
     Some <$> (replicate_to n ps).1 = append_msg n <$> ps).
Proof.
  induction ps as [|p ps (IHr & IHo & IHm)]; simpl.
  - split; [split; [done|by intros ?%Exists_nil]|]. split; [|done].
    split; [constructor|done].
  - destruct (append_msg n p) as [msg|] eqn:Hp.
    + assert (Hle : next_index_of n p ≤ len (log n)).
      { destruct (Z.le_gt_cases (next_index_of n p) (len (log n)));
          [done|]. apply append_msg_None in H. congruence. }
      destruct (replicate_to n ps) as [ms o]. simpl in *.
      split; [|split].
      * rewrite IHr, Exists_cons. split; [by right|]. intros [?|?]; [lia|done].
      * rewrite IHo, Forall_cons. tauto.
      * intros Ho. f_equal. exact (IHm Ho).
    + apply append_msg_None in Hp. simpl. split; [|split].
      * split; [intros _; by left|done].
      * split; [done|]. intros [? _]%Forall_cons. lia.
      * done.
Qed.

End Replication.

(** X9: [replicate_log] of a Leader raises [IndexError] exactly when some
    peer's [next_index] lies beyond the end of the log, and otherwise sends
    exactly one AppendEntries per peer, in the order of [cluster_nodes]; a
    node that is not Leader sends nothing and does not raise. *)
Theorem replicate_log_raises_exactly_beyond_the_log (n : RaftNode.t) :
  (RaftNode.state n ≠ LEADER → RaftNode.replicate_log n = ([], Return ()))
  ∧ (RaftNode.state n = LEADER →
     ((RaftNode.replicate_log n).2 = Raise IndexError
      ↔ Exists (λ p, len (RaftNode.log n) < next_index_of n p)
               (RaftNode.peers n))
     ∧ ((RaftNode.replicate_log n).2 = Return ()
        ↔ Forall (λ p, next_index_of n p ≤ len (RaftNode.log n))
                 (RaftNode.peers n))
     ∧ ((RaftNode.replicate_log n).2 = Return () →
        Message.to_node <$> (RaftNode.replicate_log n).1 = RaftNode.peers n)).
Proof.
  unfold RaftNode.replicate_log. split.
  - intros Hs. by rewrite bool_decide_eq_false_2.
  - intros Hs. rewrite bool_decide_eq_true_2 by done. simpl.
    destruct (replicate_to_spec n (RaftNode.peers n)) as (Hr & Ho & Hm).
    split; [exact Hr|]. split; [exact Ho|].
    intros Hret. specialize (Hm Hret).
    revert Hm. generalize (RaftNode.replicate_to n (RaftNode.peers n)).1.
    generalize (RaftNode.peers n) as ps.
    induction ps as [|p ps IH]; intros [|msg ms]; simpl; try done.
    intros [= Hmsg Hrest]. f_equal; [|by apply IH].
    unfold RaftNode.append_msg in Hmsg.
    destruct (if 0 <? _ then _ else _); simpl in Hmsg; [|done].
    injection Hmsg as ->. done.
Qed.

(** The Leader of term 1 after [next_index] of [n2] was pushed to 5, beyond
    its empty log. *)
Lemma replicate_log_raises_exactly_beyond_the_log_witness :
  let n := RaftNode.set_next_index leader_of_term_1
             (<["n2" := 5]> (RaftNode.next_index leader_of_term_1)) in
  (RaftNode.replicate_log n).2 = Raise IndexError.
Proof.
  intros n.
  destruct (replicate_log_raises_exactly_beyond_the_log n) as [_ H].
  destruct H as (Hr & _); [vm_compute; reflexivity|].
  apply Hr. apply Exists_cons. left. vm_compute. reflexivity.
Defined.

(** X10: replication reaches its goal in one message.  If the leader's
    [next_index] for a peer points inside the leader's log and the peer's
    log agrees with the leader's on the entries before that point, then the
    AppendEntries that [replicate_log] builds for the peer is accepted by the
    (non-failed, not more advanced in term) peer and leaves the peer with
    exactly the leader's log, in the leader's term. *)
Theorem one_append_entries_copies_the_leaders_log
        (leader follower : RaftNode.t) (p : string) (now : Time) :
  let k := next_index_of leader p in
  RaftNode.is_failed follower = false →
  RaftNode.current_term follower ≤ RaftNode.current_term leader →
  0 ≤ k < len (RaftNode.log leader) →
  k ≤ len (RaftNode.log follower) →
  take (Z.to_nat k) (RaftNode.log follower)
  = take (Z.to_nat k) (RaftNode.log leader) →
  ∃ msg,
    RaftNode.append_msg leader p = Some msg
    ∧ RaftNode.ret (RaftNode.handle_append_entries follower now msg)
      = Return true
    ∧ RaftNode.log
        (RaftNode.self (RaftNode.handle_append_entries follower now msg))
      = RaftNode.log leader
    ∧ RaftNode.current_term
        (RaftNode.self (RaftNode.handle_append_entries follower now msg))
      = RaftNode.current_term leader.
Proof.
  intros k Hf Hterm [Hk0 Hk] Hkf Hpre.
  assert (Hsome : ∃ plt,
             (if 0 <? k
              then LogEntry.term <$> index (RaftNode.log leader) (k - 1)
              else Some 0) = Some plt
             ∧ RaftNode.log_mismatch (RaftNode.log follower) (k - 1) plt
               = false).
  { destruct (Z.ltb_spec 0 k) as [Hpos|Hzero].
    - rewrite index_in_range by lia.
      destruct (lookup_lt_is_Some_2 (RaftNode.log leader) (Z.to_nat (k - 1)))
        as [e He]; [unfold len in Hk; lia|].
      rewrite He. exists (LogEntry.term e). split; [done|].
      apply log_mismatch_false. right. split; [lia|].
      rewrite index_in_range by lia.
      assert (Hsame : RaftNode.log follower !! Z.to_nat (k - 1) = Some e).
      { rewrite <- (lookup_take_lt _ (Z.to_nat k)) by lia.
        rewrite Hpre. rewrite lookup_take_lt by lia. exact He. }
      by rewrite Hsame.
    - exists 0. split; [done|]. apply log_mismatch_false. left. lia. }
  destruct Hsome as (plt & Hplt & Hok).
  set (es := drop (Z.to_nat k) (RaftNode.log leader)).
  assert (Hes : es ≠ []).
  { intros Hnil. apply (f_equal length) in Hnil. subst es.
    rewrite length_drop in Hnil. simpl in Hnil. unfold len in Hk. lia. }
  set (msg := Message.mk "append_entries" (RaftNode.node_id leader) p
                (RaftNode.current_term leader)
                (AppendEntriesData (k - 1) plt es
                   (RaftNode.commit_index leader))).
  assert (Hmsg : RaftNode.append_msg leader p = Some msg).
  { unfold RaftNode.append_msg. fold (next_index_of leader p). fold k.
    rewrite Hplt. simpl.
    destruct (Z.ltb_spec k (len (RaftNode.log leader))); [|lia].
    unfold slice_from. destruct (Z.leb_spec 0 k); [|lia]. done. }
  exists msg. split; [exact Hmsg|].
  rewrite (handle_append_entries_accepted follower now msg (k - 1) plt
             (RaftNode.commit_index leader) es Hf Hterm eq_refl Hok).
  simpl. split; [done|]. split.
  - destruct es as [|e es'] eqn:Heq; [done|]. rewrite <- Heq. subst es.
    rewrite slice_to_nonneg by lia.
    replace (k - 1 + 1) with k by lia.
    rewrite Hpre. apply take_drop.
  - unfold RaftNode.observe_leader. simpl.
    destruct (Z.leb_spec (RaftNode.current_term follower)
                         (RaftNode.current_term leader)); [done|lia].
Qed.

(** A fresh Follower receives the log of a leader that holds the three
    entries of term 1 and was elected with an empty log. *)
Lemma one_append_entries_copies_the_leaders_log_witness :
  let leader := RaftNode.set_log leader_of_term_1
                  (RaftNode.log follower_commit_2) in
  ∃ msg,
    RaftNode.append_msg leader "n2" = Some msg
    ∧ RaftNode.log
        (RaftNode.self (RaftNode.handle_append_entries fresh_node 50 msg))
      = RaftNode.log leader.
Proof.
  intros leader.
  destruct (one_append_entries_copies_the_leaders_log leader fresh_node "n2" 50)
    as (msg & Hmsg & _ & Hlog & _).
  - reflexivity.
  - vm_compute. congruence.
  - vm_compute. split; congruence.
  - vm_compute. congruence.
  - reflexivity.
  - exists msg. split; assumption.
Defined.

(** ** Client commands *)

Lemma well_indexed_snoc (l : list LogEntry.t) (e : LogEntry.t) :
  well_indexed l → LogEntry.index e = len l → well_indexed (l ++ [e]).
Proof.
  intros Hl He i e' Hi. unfold well_indexed, well_indexed_from in *.
  destruct (decide (i < length l)%nat) as [Hlt|Hge].
  - rewrite lookup_app_l in Hi by done. by apply Hl.
  - rewrite lookup_app_r in Hi by lia.
    destruct (i - length l)%nat as [|j] eqn:Hj; simpl in Hi; [|done].
    injection Hi as <-. rewrite He. unfold len. lia.
Qed.

(** X11: [append_entry] on anything but a live Leader returns [False] and
    changes nothing.  On a live Leader it appends exactly one entry, stamped
    with the Leader's term and with the position it takes, so a log whose
    entries sit at their [index] stays so; it changes no other field; and it
    returns [True] unless some peer's [next_index] lies beyond the new end of
    the log, in which case it raises [IndexError] with the entry already
    appended. *)
Theorem append_entry_extends_the_leaders_log
        (n : RaftNode.t) (command : string) :
  let r := RaftNode.append_entry n command in
  (RaftNode.state n ≠ LEADER ∨ RaftNode.is_failed n = true →
   r = RaftNode.mkRun n [] (Return false))
  ∧ (RaftNode.state n = LEADER → RaftNode.is_failed n = false →
     RaftNode.self r
     = RaftNode.set_log n
         (RaftNode.log n
            ++ [LogEntry.mk (RaftNode.current_term n) (len (RaftNode.log n))
                  command])
     ∧ (well_indexed (RaftNode.log n) →
        well_indexed (RaftNode.log (RaftNode.self r)))
     ∧ (RaftNode.ret r = Return true
        ↔ Forall (λ p, next_index_of n p ≤ len (RaftNode.log n) + 1)
                 (RaftNode.peers n))
     ∧ (RaftNode.ret r = Raise IndexError
        ↔ Exists (λ p, len (RaftNode.log n) + 1 < next_index_of n p)
                 (RaftNode.peers n))).
Proof.
  simpl. unfold RaftNode.append_entry. split.
  - intros [Hs|Hf].
    + by rewrite bool_decide_eq_false_2.
    + rewrite Hf. by rewrite orb_true_r.
  - intros Hs Hf. rewrite bool_decide_eq_true_2, Hf by done. simpl.
    set (n1 := RaftNode.set_log n _).
    assert (Hlen : len (RaftNode.log n1) = len (RaftNode.log n) + 1).
    { subst n1. simpl. rewrite len_app. done. }
    pose proof (replicate_to_spec n1 (RaftNode.peers n1)) as (Hr & Ho & _).
    rewrite Hlen in Hr, Ho.
    change (RaftNode.peers n1) with (RaftNode.peers n) in *.
    unfold RaftNode.replicate_log.
    rewrite bool_decide_eq_true_2 by done. simpl.
    change (RaftNode.peers n1) with (RaftNode.peers n).
    destruct (RaftNode.replicate_to n1 (RaftNode.peers n)) as [ms o].
    simpl in *. split; [done|]. split; [|split].
    + intros Hw. apply well_indexed_snoc; done.
    + etransitivity; [|exact Ho]. destruct o as [[]|e]; split; congruence.
    + etransitivity; [|exact Hr]. destruct o as [[]|e]; split; congruence.
Qed.

(** The Leader of term 1 appends its first command. *)
Lemma append_entry_extends_the_leaders_log_witness :
  let r := RaftNode.append_entry leader_of_term_1 "x" in
  RaftNode.log (RaftNode.self r) = [LogEntry.mk 1 0 "x"]
  ∧ RaftNode.ret r = Return true.
Proof.
  intros r.
  destruct (append_entry_extends_the_leaders_log leader_of_term_1 "x")
    as [_ H].
  destruct H as (Hself & _ & Hret & _); [reflexivity | reflexivity |].
  split.
  - subst r. rewrite Hself. reflexivity.
  - apply Hret. repeat constructor; vm_compute; congruence.
Defined.

(** * Invariants of executions *)

Section DictEntries.
Context {V : Type}.

Lemma Forall_entries_set (P : string → V → Prop) (k : string) (v : V)
      (d : dict V) :
  Forall (λ kv, P kv.1 kv.2) d → P k v →
  Forall (λ kv, P kv.1 kv.2) (dict_set k v d).
Proof.
  intros Hd Hv. induction d as [|[k0 v0] d IH]; simpl.
  - repeat constructor. exact Hv.
  - apply Forall_cons in Hd as [H0 Hd].
    destruct (decide (k0 = k)); simpl; constructor; auto.
Qed.

Lemma Forall_entries_get (P : string → V → Prop) (k : string) (v : V)
      (d : dict V) :
  Forall (λ kv, P kv.1 kv.2) d → dict_get k d = Some v → P k v.
Proof.
  intros Hd. induction d as [|[k0 v0] d IH]; simpl; [done|].
  apply Forall_cons in Hd as [H0 Hd].
  destruct (decide (k0 = k)) as [<-|]; [intros [= <-]; exact H0|].
  apply IH, Hd.
Qed.

(** Overwriting an existing key keeps the keys and their order. *)
Lemma dict_set_keys (k : string) (v v0 : V) (d : dict V) :
  dict_get k d = Some v0 → (dict_set k v d).*1 = d.*1.
Proof.
  induction d as [|[k0 v1] d IH]; simpl; [done|].
  destruct (decide (k0 = k)) as [->|]; simpl; [done|].
  intros H. f_equal. by apply IH.
Qed.

Lemma dict_get_None (k : string) (d : dict V) :
  dict_get k d = None ↔ k ∉ d.*1.
Proof.
  induction d as [|[k0 v0] d IH]; simpl.
  - split; [intros _ H; by apply elem_of_nil in H|done].
  - destruct (decide (k0 = k)) as [->|Hne].
    + split; [done|]. intros H. exfalso. apply H. by left.
    + rewrite IH, not_elem_of_cons. simpl.
      split; [intros ?; split; [congruence|done]|tauto].
Qed.

End DictEntries.

(** An invariant of nodes and messages that every method keeps is an
    invariant of every execution. *)
Section ClusterInvariant.
Variable P : string → RaftNode.t → Prop.
Variable Q : Message.t → Prop.

Definition method_keeps {A} (k : string) (r : RaftNode.Run A) : Prop :=
  P k (RaftNode.self r) ∧ Forall Q (RaftNode.sent r).

Hypothesis P_start_election :
  ∀ k n, P k n → method_keeps k (RaftNode.start_election n).
Hypothesis P_handle_vote_request :
  ∀ k n m, P k n → Q m → method_keeps k (RaftNode.handle_vote_request n m).
Hypothesis P_handle_vote_response :
  ∀ k n m, P k n → Q m → method_keeps k (RaftNode.handle_vote_response n m).
Hypothesis P_handle_append_entries :
  ∀ k n now m,
    P k n → Q m → method_keeps k (RaftNode.handle_append_entries n now m).
Hypothesis P_send_heartbeat :
  ∀ k n, P k n → Forall Q (RaftNode.send_heartbeat n).
Hypothesis P_append_entry :
  ∀ k n command, P k n → method_keeps k (RaftNode.append_entry n command).
Hypothesis P_fail_node : ∀ k n, P k n → P k (RaftNode.fail_node n).
Hypothesis P_recover_node :
  ∀ k n now, P k n → P k (RaftNode.recover_node n now).
Hypothesis P_partition_node :
  ∀ k n b, P k n → P k (RaftNode.partition_node n b).
Hypothesis P_init :
  ∀ id all timeout now, P id (RaftNode.init id all timeout now).

Local Abbreviation inv := (cluster_invariant P Q).

Lemma emit_inv (w : Wiring) (c : RaftCluster.t) (sender : RaftNode.t)
      (ms : list Message.t) :
  inv c → Forall Q ms → inv (RaftCluster.emit w c sender ms).
Proof.
  intros [Hn Hq] Hms. split; [by rewrite emit_nodes|].
  destruct w; [by rewrite emit_timer|].
  rewrite emit_queue. by apply Forall_app.
Qed.

Lemma commit_inv {A} (w : Wiring) (c : RaftCluster.t) (key : string)
      (r : RaftNode.Run A) :
  inv c → method_keeps key r → inv (RaftCluster.commit w c key r).
Proof.
  intros [Hn Hq] [Hself Hsent]. unfold RaftCluster.commit.
  apply emit_inv; [|exact Hsent].
  split; [|exact Hq]. simpl. by apply Forall_entries_set.
Qed.

Lemma on_node_inv (c : RaftCluster.t) (id : string)
      (f : RaftNode.t → RaftNode.t) :
  (∀ n, P id n → P id (f n)) → inv c → inv (RaftCluster.on_node c id f).
Proof.
  intros Hf [Hn Hq]. unfold RaftCluster.on_node.
  destruct (dict_get id (RaftCluster.nodes c)) as [n|] eqn:Hk; [|done].
  split; [|exact Hq]. simpl. apply Forall_entries_set; [exact Hn|].
  apply Hf. exact (Forall_entries_get _ _ _ _ Hn Hk).
Qed.

Lemma process_message_inv (w : Wiring) (c : RaftCluster.t) (now : Time)
      (m : Message.t) :
  inv c → Q m → inv (RaftCluster.process_message w c now m).1.
Proof.
  intros Hc Hm. unfold RaftCluster.process_message.
  destruct (dict_get (Message.to_node m) (RaftCluster.nodes c))
    as [target|] eqn:Hk; [|done].
  pose proof (Forall_entries_get _ _ _ _ (proj1 Hc) Hk) as Ht.
  destruct (RaftNode.is_failed target); [done|].
  repeat case_bool_decide; simpl; try done; apply commit_inv; auto.
Qed.

Lemma process_batch_inv (w : Wiring) (clock : nat → Time)
      (batch : list Message.t) :
  ∀ (k : nat) (c : RaftCluster.t),
    inv c → Forall Q batch →
    inv (RaftCluster.process_batch w c clock k batch).1.
Proof.
  induction batch as [|m batch IH]; intros k c Hc Hb; simpl; [done|].
  apply Forall_cons in Hb as [Hm Hb].
  pose proof (process_message_inv w c (clock k) m Hc Hm) as Hc'.
  destruct (RaftCluster.process_message w c (clock k) m) as [c' [[]|e]];
    simpl in *; [by apply IH|done].
Qed.

Lemma run_node_inv (w : Wiring) (c : RaftCluster.t) (id : string)
      (now : Time) :
  inv c → inv (RaftCluster.run_node w c id now).
Proof.
  intros Hc. unfold RaftCluster.run_node.
  destruct (negb (RaftCluster.running c)); [done|].
  destruct (dict_get id (RaftCluster.nodes c)) as [node|] eqn:Hk; [|done].
  pose proof (Forall_entries_get _ _ _ _ (proj1 Hc) Hk) as Hnode.
  destruct (RaftNode.is_failed node); [done|].
  match goal with
  | |- context [dict_get id (RaftCluster.nodes ?x)] => set (c1 := x)
  end.
  assert (Hc1 : inv c1).
  { subst c1. destruct (_ && _); [|done]. apply commit_inv; auto. }
  clearbody c1.
  destruct (dict_get id (RaftCluster.nodes c1)) as [node1|] eqn:Hk1; [|done].
  case_bool_decide; [|done].
  apply emit_inv; [done|].
  apply (P_send_heartbeat id).
  exact (Forall_entries_get _ _ _ _ (proj1 Hc1) Hk1).
Qed.

Lemma append_command_inv (w : Wiring) (c : RaftCluster.t)
      (command : string) :
  inv c → inv (RaftCluster.append_command w c command).1.
Proof.
  intros Hc. unfold RaftCluster.append_command.
  destruct (truthy_opt_str _); [|done].
  destruct (dict_get _ (RaftCluster.nodes c)) as [leader|] eqn:Hk; [|done].
  simpl. apply commit_inv; [done|]. apply P_append_entry.
  exact (Forall_entries_get _ _ _ _ (proj1 Hc) Hk).
Qed.

Lemma step_inv (w : Wiring) (c : RaftCluster.t) (e : Event) :
  inv c → inv (step w c e).
Proof.
  intros Hc. destruct e as [id now|clock|id|id now|ids b|command]; simpl.
  - by apply run_node_inv.
  - unfold RaftCluster._process_messages.
    destruct (negb _); [done|].
    apply process_batch_inv; [|apply Hc].
    split; [apply Hc|constructor].
  - apply on_node_inv; auto.
  - apply on_node_inv; auto.
  - unfold RaftCluster.partition_nodes.
    revert c Hc. induction ids as [|id ids IH]; intros c Hc; simpl; [done|].
    apply IH. apply on_node_inv; auto.
  - by apply append_command_inv.
Qed.

Lemma run_inv (w : Wiring) (es : list Event) :
  ∀ c, inv c → inv (run w c es).
Proof.
  unfold run. induction es as [|e es IH]; intros c Hc; simpl; [done|].
  apply IH. by apply step_inv.
Qed.

Lemma init_nodes_inv (all ids : list string) (timeout clock : nat → Time) :
  ∀ (k : nat) (d : dict RaftNode.t),
    Forall (λ kn, P kn.1 kn.2) d →
    Forall (λ kn, P kn.1 kn.2)
           (RaftCluster.init_nodes all ids timeout clock k d).
Proof.
  induction ids as [|id ids IH]; intros k d Hd; simpl; [done|].
  apply IH. by apply Forall_entries_set.
Qed.

(** The invariant holds all along every execution of a freshly built
    cluster. *)
Lemma fresh_run_inv (w : Wiring) (node_ids : list string)
      (timeout clock : nat → Time) (es : list Event) :
  inv (run w (RaftCluster.start (RaftCluster.init node_ids timeout clock)) es).
Proof.
  apply run_inv. split; [|constructor]. simpl.
  apply init_nodes_inv. constructor.
Qed.

End ClusterInvariant.

(** ** Sound nodes and messages *)

Section WellIndexed.

Lemma well_indexed_from_nil (start : Z) : well_indexed_from start [].
Proof. intros i e H. by rewrite lookup_nil in H. Qed.

Lemma well_indexed_take (l : list LogEntry.t) (j : nat) :
  well_indexed l → well_indexed (take j l).
Proof.
  intros Hl i e Hi. apply Hl.
  destruct (decide (i < j)%nat) as [Hlt|Hge].
  - by rewrite lookup_take_lt in Hi.
  - by rewrite lookup_take_ge in Hi by lia.
Qed.

Lemma well_indexed_from_drop (l : list LogEntry.t) (k : Z) :
  well_indexed l → 0 ≤ k → well_indexed_from k (drop (Z.to_nat k) l).
Proof.
  intros Hl Hk i e Hi. rewrite lookup_drop in Hi.
  rewrite (Hl _ _ Hi). lia.
Qed.

Lemma well_indexed_app (l es : list LogEntry.t) :
  well_indexed l → well_indexed_from (len l) es → well_indexed (l ++ es).
Proof.
  intros Hl Hes i e Hi.
  destruct (decide (i < length l)%nat) as [Hlt|Hge].
  - rewrite lookup_app_l in Hi by done. by apply Hl.
  - rewrite lookup_app_r in Hi by lia.
    rewrite (Hes _ _ Hi). unfold len. lia.
Qed.

End WellIndexed.

Section SoundMethods.
Import RaftNode.

Lemma last_log_index_of_ge (l : list LogEntry.t) : -1 ≤ last_log_index_of l.
Proof.
  destruct l; simpl; [lia|]. unfold len. simpl length. lia.
Qed.

Lemma send_heartbeat_sound (n : t) : Forall sound_message (send_heartbeat n).
Proof.
  unfold send_heartbeat. destruct (_ || _); [constructor|].
  apply Forall_fmap, Forall_forall. intros p _.
  unfold sound_message. simpl.
  split; [apply last_log_index_of_ge|apply well_indexed_from_nil].
Qed.

Lemma replicate_to_sound (n : t) (ps : list string) :
  well_indexed (log n) → (∀ p, 0 ≤ next_index_of n p) →
  Forall sound_message (replicate_to n ps).1.
Proof.
  intros Hl Hk. induction ps as [|p ps IH]; simpl; [constructor|].
  destruct (append_msg n p) as [msg|] eqn:Hp; [|constructor].
  destruct (replicate_to n ps) as [ms o]. simpl in *.
  constructor; [|exact IH].
  unfold append_msg in Hp. fold (next_index_of n p) in Hp.
  specialize (Hk p).
  destruct (if 0 <? _ then _ else _) as [plt|]; simpl in Hp; [|done].
  injection Hp as <-. unfold sound_message. simpl. split; [lia|].
  replace (next_index_of n p - 1 + 1) with (next_index_of n p) by lia.
  destruct (_ <? _); [|apply well_indexed_from_nil].
  unfold slice_from. destruct (Z.leb_spec 0 (next_index_of n p)); [|lia].
  by apply well_indexed_from_drop.
Qed.

(** All that [handle_vote_request] can change is the term, the vote and,
    towards Follower, the role. *)
Lemma handle_vote_request_frame_all (n : t) (m : Message.t) :
  let n' := self (handle_vote_request n m) in
  node_id n' = node_id n ∧ cluster_nodes n' = cluster_nodes n
  ∧ is_failed n' = is_failed n ∧ next_index n' = next_index n
  ∧ network_partition n' = network_partition n
  ∧ election_timeout n' = election_timeout n.
Proof.
  unfold handle_vote_request, adopt_higher_term.
  destruct (is_failed n) eqn:Hf; [simpl; rewrite Hf; done|].
  destruct (current_term n <? Message.term m); destruct (can_vote _ _);
    simpl; rewrite Hf; done.
Qed.

Lemma start_election_sound (k : string) (n : t) :
  sound_node k n →
  sound_node k (self (start_election n))
  ∧ Forall sound_message (sent (start_election n)).
Proof.
  intros Hs. unfold start_election.
  destruct (is_failed n) eqn:Hf; simpl; [split; [exact Hs|constructor]|].
  destruct Hs as (Hid & Hfl & Hl & Hnn & Hb). split.
  - unfold sound_node, next_index_of. simpl. rewrite Hf.
    split; [done|]. split; [split; congruence|].
    split; [done|]. split; [exact Hnn|congruence].
  - apply Forall_fmap, Forall_forall. intros p _.
    unfold sound_message. simpl. done.
Qed.

Lemma handle_vote_request_sound (k : string) (n : t) (m : Message.t) :
  sound_node k n →
  sound_node k (self (handle_vote_request n m))
  ∧ Forall sound_message (sent (handle_vote_request n m)).
Proof.
  intros (Hid & Hfl & Hl & Hnn & Hb).
  destruct (handle_vote_request_frame n m) as (_ & Hlog & _ & Hst).
  destruct (handle_vote_request_frame_all n m)
    as (Hid' & Hcn' & Hf' & Hni' & _).
  simpl in *. split.
  - unfold sound_node, next_index_of, peers.
    rewrite Hid', Hcn', Hf', Hni', Hlog.
    split; [done|]. split; [|split; [done|split; [done|]]].
    + destruct Hst as [->|Hst]; [done|]. rewrite Hst.
      split; [|done]. intros Hf.
      unfold handle_vote_request in Hst. rewrite Hf in Hst. simpl in Hst.
      apply Hfl in Hf. congruence.
    + intros Hlead. apply Hb. destruct Hst as [<-|Hst]; [done|congruence].
  - unfold handle_vote_request. destruct (is_failed n); [constructor|].
    destruct (can_vote _ _); simpl; repeat constructor.
    unfold sound_message. simpl. done.
Qed.

End SoundMethods.

Section SoundMethodsMore.
Import RaftNode.

Lemma handle_vote_response_sound (k : string) (n : t) (m : Message.t) :
  sound_node k n →
  sound_node k (self (handle_vote_response n m))
  ∧ Forall sound_message (sent (handle_vote_response n m)).
Proof.
  intros Hs.
  destruct (handle_vote_response_cases n m)
    as [(Hst & Hf & _ & _ & [[_ Hr]|[_ Hr]])|[_ Hr]]; rewrite Hr; simpl;
    [|split; [|constructor]..]; try exact Hs.
  - destruct Hs as (Hid & Hfl & Hl & Hnn & Hb).
    set (n1 := set_votes_received n _).
    destruct (init_leader_state_frame (set_state n1 LEADER))
      as (Hid' & Hcn' & Hs' & _ & _ & Hl' & _ & _ & _ & Hf' & _).
    simpl in *.
    assert (Hlk : ∀ p,
               (p ∈ peers n →
                next_index_of (init_leader_state (set_state n1 LEADER)) p
                = len (log n))
               ∧ (p ∉ peers n →
                  next_index_of (init_leader_state (set_state n1 LEADER)) p
                  = next_index_of n p)).
    { intros p.
      destruct (init_leader_loop_lookup (peers (set_state n1 LEADER)) p
                  (set_state n1 LEADER)) as (_ & Hin & Hout).
      simpl in Hin, Hout.
      fold (init_leader_state (set_state n1 LEADER)) in Hin, Hout.
      change (peers (set_state n1 LEADER)) with (peers n) in *.
      unfold next_index_of. split.
      - intros Hp. destruct (Hin Hp) as [-> _]. done.
      - intros Hp. destruct (Hout Hp) as [-> _]. done. }
    split; [|apply send_heartbeat_sound].
    unfold sound_node. rewrite Hid', Hs', Hl', Hf'.
    split; [done|]. split; [split; congruence|]. split; [done|]. split.
    + intros p. destruct (decide (p ∈ peers n)) as [Hp|Hp].
      * rewrite (proj1 (Hlk p) Hp). apply len_nonneg.
      * rewrite (proj2 (Hlk p) Hp). apply Hnn.
    + intros _ p Hp.
      assert (Hp' : p ∈ peers n).
      { revert Hp. unfold peers. by rewrite Hid', Hcn'. }
      rewrite (proj1 (Hlk p) Hp'). lia.
Qed.

(** The handler leaves the node alone, or leaves it a Follower. *)
Lemma handle_append_entries_role (n : t) (now : Time) (m : Message.t) :
  self (handle_append_entries n now m) = n
  ∨ (is_failed n = false
     ∧ state (self (handle_append_entries n now m)) = FOLLOWER).
Proof.
  unfold handle_append_entries, observe_leader.
  destruct (is_failed n); [by left|].
  destruct (Z.leb_spec (current_term n) (Message.term m)) as [Hle|Hgt]; simpl.
  - right. split; [done|]. rewrite Z.ltb_irrefl.
    destruct (Message.data m) as [| |pli plt es lc]; [done..|].
    destruct (log_mismatch _ _ _); [done|].
    destruct es; simpl; destruct (_ <? lc); done.
  - left. destruct (Z.ltb_spec (Message.term m) (current_term n)); [done|lia].
Qed.

Lemma handle_append_entries_sound (k : string) (n : t) (now : Time)
      (m : Message.t) :
  sound_node k n → sound_message m →
  sound_node k (self (handle_append_entries n now m))
  ∧ Forall sound_message (sent (handle_append_entries n now m)).
Proof.
  intros Hs Hm. split; [|rewrite handle_append_entries_sent; constructor].
  destruct (handle_append_entries_role n now m) as [->|[Hf Hfol]]; [done|].
  destruct Hs as (Hid & Hfl & Hl & Hnn & Hb).
  destruct (handle_append_entries_frame n now m)
    as (Hid' & Hni' & _ & _ & Hf' & _).
  simpl in *. unfold sound_node, next_index_of.
  rewrite Hid', Hni', Hf', Hfol, Hf.
  split; [done|]. split; [split; congruence|].
  split; [|split; [exact Hnn|congruence]].
  (* the log *)
  unfold handle_append_entries. rewrite Hf.
  destruct (_ <? _); simpl.
  { unfold observe_leader. destruct (_ <=? _); done. }
  assert (Hl1 : log (observe_leader n now m) = log n)
    by (unfold observe_leader; destruct (_ <=? _); done).
  unfold sound_message in Hm.
  destruct (Message.data m) as [| |pli plt es lc]; simpl; [by rewrite Hl1..|].
  destruct Hm as [Hpli Hes].
  destruct (log_mismatch _ _ _) eqn:Hok; simpl; [by rewrite Hl1|].
  rewrite Hl1 in Hok.
  assert (Hin : pli < len (log n)).
  { apply log_mismatch_false in Hok as [?|[? _]]; [|done].
    pose proof (len_nonneg (log n)). lia. }
  assert (Hnew : well_indexed
                   match es with
                   | [] => log n
                   | _ :: _ => (slice_to (log n) (pli + 1) ++ es)%list
                   end).
  { destruct es as [|e es']; [done|].
    rewrite slice_to_nonneg by lia.
    apply well_indexed_app; [by apply well_indexed_take|].
    rewrite len_take by lia. exact Hes. }
  destruct es; simpl in *; destruct (_ <? lc); simpl; rewrite ?Hl1; done.
Qed.

Lemma append_entry_sound (k : string) (n : t) (command : string) :
  sound_node k n →
  sound_node k (self (append_entry n command))
  ∧ Forall sound_message (sent (append_entry n command)).
Proof.
  intros Hs. unfold append_entry.
  destruct (_ || _) eqn:Hguard; simpl; [split; [exact Hs|constructor]|].
  apply orb_false_elim in Hguard as [Hlead Hf].
  apply negb_false_iff, bool_decide_eq_true in Hlead.
  destruct Hs as (Hid & Hfl & Hl & Hnn & Hb).
  set (n1 := set_log n _).
  assert (Hl1 : well_indexed (log n1)).
  { subst n1. simpl. by apply well_indexed_snoc. }
  pose proof (replicate_to_sound n1 (peers n1) Hl1 Hnn) as Hsent.
  unfold replicate_log. rewrite bool_decide_eq_true_2 by done. simpl.
  destruct (replicate_to n1 (peers n1)) as [ms o]. simpl in *.
  split; [|exact Hsent].
  unfold sound_node. split; [done|]. split; [done|]. split; [exact Hl1|].
  split; [exact Hnn|]. intros _ p Hp.
  specialize (Hb Hlead p Hp). subst n1. simpl. rewrite len_app.
  pose proof (len_nonneg [LogEntry.mk (current_term n) (len (log n)) command]).
  unfold next_index_of in *. simpl. lia.
Qed.

Lemma fail_node_sound (k : string) (n : t) :
  sound_node k n → sound_node k (fail_node n).
Proof.
  intros (Hid & Hfl & Hl & Hnn & Hb). unfold sound_node. simpl.
  repeat split; try done.
Qed.

Lemma recover_node_sound (k : string) (n : t) (now : Time) :
  sound_node k n → sound_node k (recover_node n now).
Proof.
  intros (Hid & Hfl & Hl & Hnn & Hb). unfold sound_node. simpl.
  repeat split; try done.
Qed.

Lemma partition_node_sound (k : string) (n : t) (b : bool) :
  sound_node k n → sound_node k (partition_node n b).
Proof. intros Hs. exact Hs. Qed.

Lemma init_sound (id : string) (all : list string) (timeout now : Time) :
  sound_node id (init id all timeout now).
Proof.
  unfold sound_node, next_index_of. simpl.
  repeat split; try done.
Qed.

End SoundMethodsMore.

(** Every node and every queued message of every execution of a freshly
    built cluster is sound. *)
Lemma fresh_run_sound (w : Wiring) (node_ids : list string)
      (timeout clock : nat → Time) (es : list Event) :
  cluster_invariant sound_node sound_message
    (run w (RaftCluster.start (RaftCluster.init node_ids timeout clock)) es).
Proof.
  apply fresh_run_inv.
  - intros k n Hn. by apply start_election_sound.
  - intros k n m Hn _. by apply handle_vote_request_sound.
  - intros k n m Hn _. by apply handle_vote_response_sound.
  - intros k n now m Hn Hm. by apply handle_append_entries_sound.
  - intros k n _. apply send_heartbeat_sound.
  - intros k n command Hn. by apply append_entry_sound.
  - apply fail_node_sound.
  - apply recover_node_sound.
  - apply partition_node_sound.
  - apply init_sound.
Qed.

(** ** No exception in an execution *)

Section NoException.
Import RaftCluster.




(** The id that [get_leader] reports is the id of a stored node. *)
Lemma get_leader_is_a_node (c : t) (id : string) :
  get_leader c = Some id →
  ∃ key n, (key, n) ∈ nodes c ∧ RaftNode.node_id n = id
           ∧ RaftNode.state n = LEADER ∧ RaftNode.is_failed n = false.
Proof.
  unfold get_leader, dict_values.
  induction (nodes c) as [|[key n] d IH]; simpl; [done|].
  rewrite filter_cons. simpl.
  destruct (decide (RaftNode.state n = LEADER
                    ∧ RaftNode.is_failed n = false)) as [[Hs Hf]|Hno].
  - simpl. intros [= <-]. exists key, n. split; [by left|done].
  - intros H. destruct (IH H) as (key' & n' & Hin & Hrest).
    exists key', n'. split; [by right|done].
Qed.


End NoException.


(** ** What every reachable node looks like *)





(** * What executions preserve from step to step *)

(** A relation between the node before and after that every method respects
    relates, key by key, the cluster before and after any execution. *)
Section ClusterTransition.
Variable R : RaftNode.t → RaftNode.t → Prop.
Hypothesis R_refl : ∀ n, R n n.
Hypothesis R_trans : ∀ n1 n2 n3, R n1 n2 → R n2 n3 → R n1 n3.
Hypothesis R_start_election :
  ∀ n, R n (RaftNode.self (RaftNode.start_election n)).
Hypothesis R_handle_vote_request :
  ∀ n m, R n (RaftNode.self (RaftNode.handle_vote_request n m)).
Hypothesis R_handle_vote_response :
  ∀ n m, R n (RaftNode.self (RaftNode.handle_vote_response n m)).
Hypothesis R_handle_append_entries :
  ∀ n now m, R n (RaftNode.self (RaftNode.handle_append_entries n now m)).
Hypothesis R_append_entry :
  ∀ n command, R n (RaftNode.self (RaftNode.append_entry n command)).
Hypothesis R_fail_node : ∀ n, R n (RaftNode.fail_node n).
Hypothesis R_recover_node : ∀ n now, R n (RaftNode.recover_node n now).
Hypothesis R_partition_node : ∀ n b, R n (RaftNode.partition_node n b).

(** Same keys in the same order, and related nodes under each key. *)
Definition evolves (c c' : RaftCluster.t) : Prop :=
  (RaftCluster.nodes c').*1 = (RaftCluster.nodes c).*1
  ∧ ∀ id n, node_of c id = Some n →
            ∃ n', node_of c' id = Some n' ∧ R n n'.

Lemma evolves_refl (c : RaftCluster.t) : evolves c c.
Proof. split; [done|]. intros id n H. eauto. Qed.

Lemma evolves_trans (c1 c2 c3 : RaftCluster.t) :
  evolves c1 c2 → evolves c2 c3 → evolves c1 c3.
Proof.
  intros [Hk12 H12] [Hk23 H23]. split; [congruence|].
  intros id n Hn. destruct (H12 id n Hn) as (n2 & Hn2 & HR2).
  destruct (H23 id n2 Hn2) as (n3 & Hn3 & HR3). eauto.
Qed.

Lemma evolves_set (c : RaftCluster.t) (key : string) (n0 n1 : RaftNode.t) :
  dict_get key (RaftCluster.nodes c) = Some n0 → R n0 n1 →
  evolves c (RaftCluster.set_nodes c (dict_set key n1 (RaftCluster.nodes c))).
Proof.
  intros Hk HR. split; simpl; [by eapply dict_set_keys|].
  intros id n Hn. unfold node_of in *. simpl.
  destruct (decide (key = id)) as [->|Hne].
  - rewrite dict_get_set_eq. exists n1. split; [done|]. congruence.
  - rewrite dict_get_set_ne by done. eauto.
Qed.

Lemma evolves_emit (w : Wiring) (c : RaftCluster.t) (sender : RaftNode.t)
      (ms : list Message.t) :
  evolves c (RaftCluster.emit w c sender ms).
Proof.
  split; [by rewrite emit_nodes|]. intros id n Hn.
  unfold node_of in *. rewrite emit_nodes. eauto.
Qed.

Lemma evolves_commit {A} (w : Wiring) (c : RaftCluster.t) (key : string)
      (n0 : RaftNode.t) (r : RaftNode.Run A) :
  dict_get key (RaftCluster.nodes c) = Some n0 → R n0 (RaftNode.self r) →
  evolves c (RaftCluster.commit w c key r).
Proof.
  intros Hk HR. unfold RaftCluster.commit.
  eapply evolves_trans; [by eapply evolves_set|apply evolves_emit].
Qed.

Lemma evolves_on_node (c : RaftCluster.t) (id : string)
      (f : RaftNode.t → RaftNode.t) :
  (∀ n, R n (f n)) → evolves c (RaftCluster.on_node c id f).
Proof.
  intros Hf. unfold RaftCluster.on_node.
  destruct (dict_get id (RaftCluster.nodes c)) as [n|] eqn:Hk;
    [|apply evolves_refl].
  by eapply evolves_set.
Qed.

Lemma evolves_process_message (w : Wiring) (c : RaftCluster.t) (now : Time)
      (m : Message.t) :
  evolves c (RaftCluster.process_message w c now m).1.
Proof.
  unfold RaftCluster.process_message.
  destruct (dict_get _ _) as [target|] eqn:Hk; [|apply evolves_refl].
  destruct (RaftNode.is_failed target); [apply evolves_refl|].
  repeat case_bool_decide; simpl; try apply evolves_refl;
    by eapply evolves_commit.
Qed.

Lemma evolves_process_batch (w : Wiring) (clock : nat → Time)
      (batch : list Message.t) :
  ∀ (k : nat) (c : RaftCluster.t),
    evolves c (RaftCluster.process_batch w c clock k batch).1.
Proof.
  induction batch as [|m batch IH]; intros k c; simpl; [apply evolves_refl|].
  pose proof (evolves_process_message w c (clock k) m) as H.
  destruct (RaftCluster.process_message w c (clock k) m) as [c' [[]|e]];
    simpl in *; [|done].
  eapply evolves_trans; [exact H|apply IH].
Qed.

Lemma evolves_step (w : Wiring) (c : RaftCluster.t) (e : Event) :
  evolves c (step w c e).
Proof.
  destruct e as [id now|clock|id|id now|ids b|command]; simpl.
  - unfold RaftCluster.run_node.
    destruct (negb _); [apply evolves_refl|].
    destruct (dict_get id (RaftCluster.nodes c)) as [node|] eqn:Hk;
      [|apply evolves_refl].
    destruct (RaftNode.is_failed node); [apply evolves_refl|].
    match goal with
    | |- context [dict_get id (RaftCluster.nodes ?x)] => set (c1 := x)
    end.
    assert (Hc1 : evolves c c1).
    { subst c1. destruct (_ && _); [|apply evolves_refl].
      by eapply evolves_commit. }
    clearbody c1.
    destruct (dict_get id (RaftCluster.nodes c1)) as [node1|]; [|done].
    case_bool_decide; [|done].
    eapply evolves_trans; [exact Hc1|apply evolves_emit].
  - unfold RaftCluster._process_messages.
    destruct (negb _); [apply evolves_refl|].
    eapply evolves_trans; [|apply evolves_process_batch].
    split; [done|]. intros id n Hn. eauto.
  - by apply evolves_on_node.
  - by apply evolves_on_node.
  - unfold RaftCluster.partition_nodes.
    revert c. induction ids as [|id ids IH]; intros c; simpl;
      [apply evolves_refl|].
    eapply evolves_trans; [|apply IH]. by apply evolves_on_node.
  - unfold RaftCluster.append_command.
    destruct (truthy_opt_str _); [|apply evolves_refl].
    destruct (dict_get _ _) as [leader|] eqn:Hk; [|apply evolves_refl].
    simpl. by eapply evolves_commit.
Qed.

Lemma evolves_run (w : Wiring) (es : list Event) :
  ∀ c, evolves c (run w c es).
Proof.
  unfold run. induction es as [|e es IH]; intros c; simpl;
    [apply evolves_refl|].
  eapply evolves_trans; [apply evolves_step|apply IH].
Qed.

End ClusterTransition.

Section SameNodeLater.
Import RaftNode.

Lemma same_node_later_methods (n : t) :
  same_node_later n (self (start_election n))
  ∧ (∀ m, same_node_later n (self (handle_vote_request n m)))
  ∧ (∀ m, same_node_later n (self (handle_vote_response n m)))
  ∧ (∀ now m, same_node_later n (self (handle_append_entries n now m)))
  ∧ (∀ command, same_node_later n (self (append_entry n command)))
  ∧ same_node_later n (fail_node n)
  ∧ (∀ now, same_node_later n (recover_node n now))
  ∧ (∀ b, same_node_later n (partition_node n b)).
Proof.
  unfold same_node_later. split; [|split; [|split; [|split; [|split]]]].
  - unfold start_election. destruct (is_failed n); simpl;
      repeat split; lia.
  - intros m. unfold handle_vote_request, adopt_higher_term.
    destruct (is_failed n); simpl; [repeat split; lia|].
    destruct (Z.ltb_spec (current_term n) (Message.term m));
      destruct (can_vote _ _); simpl; repeat split; lia.
  - intros m.
    destruct (handle_vote_response_cases n m)
      as [(_ & _ & _ & _ & [[_ Hr]|[_ Hr]])|[_ Hr]]; rewrite Hr;
      [|simpl; repeat split; lia..].
    unfold become_leader; simpl.
    destruct (init_leader_state_frame
                (set_state
                   (set_votes_received n
                      ({[Message.from_node m]} ∪ votes_received n)) LEADER))
      as (Hid & Hcn & _ & Ht & _).
    rewrite Hid, Hcn, Ht. simpl. split; [done|]. split; [done|].
    split; [|lia].
    assert (Hto : ∀ a, election_timeout (init_leader_state a)
                       = election_timeout a).
    { intros a. unfold init_leader_state. generalize (peers a) as ps.
      intros ps. revert a.
      induction ps as [|p ps IH]; intros a; simpl; [done|].
      rewrite IH. done. }
    rewrite Hto. done.
  - intros now m. unfold handle_append_entries, observe_leader.
    destruct (is_failed n); [simpl; repeat split; lia|].
    destruct (Z.leb_spec (current_term n) (Message.term m)); simpl;
      (destruct (_ <? _); [simpl; repeat split; lia|]);
      (destruct (Message.data m) as [| |pli plt es lc];
       [simpl; repeat split; lia..|]);
      (destruct (log_mismatch _ _ _); [simpl; repeat split; lia|]);
      destruct es; simpl; destruct (_ <? lc); simpl; repeat split; lia.
  - intros command. unfold append_entry.
    destruct (_ || _); [simpl; repeat split; lia|].
    destruct (replicate_log _). simpl. repeat split; lia.
  - simpl. repeat split; lia.
Qed.

End SameNodeLater.

(** X16: in any execution, from any cluster, the keys of the node dictionary
    and their order never change, and the node under each key keeps its id,
    its member list and its election timeout, while its [current_term] never
    decreases. *)
Theorem terms_only_grow_along_executions
        (w : Wiring) (c : RaftCluster.t) (es : list Event) :
  (RaftCluster.nodes (run w c es)).*1 = (RaftCluster.nodes c).*1
  ∧ ∀ id n, node_of c id = Some n →
            ∃ n', node_of (run w c es) id = Some n' ∧ same_node_later n n'.
Proof.
  apply (evolves_run same_node_later).
  - intros n. unfold same_node_later. repeat split; lia.
  - intros n1 n2 n3 (H1 & H2 & H3 & H4) (H1' & H2' & H3' & H4').
    unfold same_node_later. repeat split; try congruence. lia.
  - intros n. apply same_node_later_methods.
  - intros n m. apply same_node_later_methods.
  - intros n m. apply same_node_later_methods.
  - intros n now m. apply same_node_later_methods.
  - intros n command. apply same_node_later_methods.
  - intros n. apply same_node_later_methods.
  - intros n now. apply same_node_later_methods.
  - intros n b. apply same_node_later_methods.
Qed.

(** [n2] before and after the two elections of term 1. *)
Lemma terms_only_grow_along_executions_witness :
  ∃ n n', node_of cluster3 "n2" = Some n
          ∧ node_of (run ClusterQueue cluster3 two_elections_trace) "n2"
            = Some n'
          ∧ RaftNode.current_term n ≤ RaftNode.current_term n'.
Proof.
  destruct (terms_only_grow_along_executions ClusterQueue cluster3
              two_elections_trace) as [_ H].
  destruct (H "n2" (RaftNode.init "n2" ["n1"; "n2"; "n3"] 3000 0) eq_refl)
    as (n' & Hn' & _ & _ & _ & Hterm).
  eexists _, n'. split; [reflexivity|]. split; [exact Hn'|exact Hterm].
Defined.

(** ** Keys and ids *)

Section Keys.
Context {V : Type}.

Lemma dict_set_keys_new (k : string) (v : V) (d : dict V) :
  dict_get k d = None → (dict_set k v d).*1 = (d.*1 ++ [k])%list.
Proof.
  induction d as [|[k0 v0] d IH]; simpl; [done|].
  destruct (decide (k0 = k)); [done|]. intros H. simpl. f_equal. by apply IH.
Qed.

Lemma dict_set_keys_NoDup (k : string) (v : V) (d : dict V) :
  NoDup d.*1 → NoDup (dict_set k v d).*1.
Proof.
  intros Hd. destruct (dict_get k d) as [v0|] eqn:Hk.
  - by rewrite (dict_set_keys k v v0 d Hk).
  - rewrite (dict_set_keys_new k v d Hk).
    apply NoDup_app. split; [done|]. split; [|apply NoDup_singleton].
    intros x Hx ->%list_elem_of_singleton. by apply dict_get_None in Hk.
Qed.

Lemma dict_get_elem_of (k : string) (v : V) (d : dict V) :
  NoDup d.*1 → (k, v) ∈ d → dict_get k d = Some v.
Proof.
  induction d as [|[k0 v0] d IH]; simpl.
  - intros _ H. by apply elem_of_nil in H.
  - intros [Hnotin Hd]%NoDup_cons Hin.
    apply elem_of_cons in Hin as [[= <- <-]|Hin].
    + by destruct (decide (k = k)).
    + destruct (decide (k0 = k)) as [->|]; [|by apply IH].
      exfalso. apply Hnotin. apply list_elem_of_fmap. by exists (k, v).
Qed.

End Keys.

Lemma init_nodes_keys_NoDup (all ids : list string)
      (timeout clock : nat → Time) :
  ∀ (k : nat) (d : dict RaftNode.t),
    NoDup d.*1 → NoDup (RaftCluster.init_nodes all ids timeout clock k d).*1.
Proof.
  induction ids as [|id ids IH]; intros k d Hd; simpl; [done|].
  apply IH. by apply dict_set_keys_NoDup.
Qed.

(** No execution changes the keys of the node dictionary. *)
Lemma run_keeps_keys (w : Wiring) (c : RaftCluster.t) (es : list Event) :
  (RaftCluster.nodes (run w c es)).*1 = (RaftCluster.nodes c).*1.
Proof. by apply (evolves_run (λ _ _, True)). Qed.

Lemma fresh_run_keys_NoDup (w : Wiring) (node_ids : list string)
      (timeout clock : nat → Time) (es : list Event) :
  NoDup (RaftCluster.nodes
           (run w (RaftCluster.start
                     (RaftCluster.init node_ids timeout clock)) es)).*1.
Proof.
  rewrite run_keeps_keys. simpl. apply init_nodes_keys_NoDup. constructor.
Qed.

(** X13: all along every execution of a freshly built cluster each node is
    stored under its own id, no two nodes share a key, and the id that
    [get_leader] reports, if any, is the key of a node that is Leader and
    not failed. *)
Theorem get_leader_names_a_live_leader
        (w : Wiring) (node_ids : list string) (timeout clock : nat → Time)
        (es : list Event) :
  let c := run w (RaftCluster.start
                    (RaftCluster.init node_ids timeout clock)) es in
  NoDup (RaftCluster.nodes c).*1
  ∧ (∀ id n, node_of c id = Some n → RaftNode.node_id n = id)
  ∧ (∀ id, RaftCluster.get_leader c = Some id →
           ∃ n, node_of c id = Some n ∧ RaftNode.state n = LEADER
                ∧ RaftNode.is_failed n = false).
Proof.
  intros c.
  destruct (fresh_run_sound w node_ids timeout clock es) as [Hn _].
  pose proof (fresh_run_keys_NoDup w node_ids timeout clock es) as Hnd.
  fold c in Hn, Hnd. split; [exact Hnd|]. split.
  - intros id n Hid.
    by destruct (Forall_entries_get _ _ _ _ Hn Hid) as [? _].
  - intros id Hl.
    destruct (get_leader_is_a_node c id Hl) as (key & n & Hin & Hid & Hs & Hf).
    assert (Hkey : key = id).
    { rewrite Forall_forall in Hn. specialize (Hn _ Hin). simpl in Hn.
      destruct Hn as [Hk _]. congruence. }
    subst key. exists n. split; [|done].
    by apply dict_get_elem_of.
Qed.

(** The two Leaders of term 1: [get_leader] reports [n1], which is one. *)
Lemma get_leader_names_a_live_leader_witness :
  let c := run ClusterQueue
             (RaftCluster.start
                (RaftCluster.init ["n1"; "n2"; "n3"] timeouts3 (λ _, 0)))
             two_leaders_trace in
  RaftCluster.get_leader c = Some "n1"
  ∧ ∃ n, node_of c "n1" = Some n ∧ RaftNode.state n = LEADER
         ∧ RaftNode.is_failed n = false.
Proof.
  intros c.
  assert (Hl : RaftCluster.get_leader c = Some "n1")
    by (vm_compute; reflexivity).
  split; [exact Hl|].
  destruct (get_leader_names_a_live_leader ClusterQueue ["n1"; "n2"; "n3"]
              timeouts3 (λ _, 0) two_leaders_trace) as (_ & _ & H).
  exact (H "n1" Hl).
Defined.

(** ** Commands in an execution *)




(** * The class's own [send_message] *)

Section NodeTimerWiring.
Import RaftCluster.

Lemma get_leader_none (c : t) :
  Forall (λ kn, RaftNode.state kn.2 ≠ LEADER) (nodes c) →
  get_leader c = None.
Proof.
  unfold get_leader, dict_values.
  induction (nodes c) as [|[k n] d IH]; intros Hd; simpl; [done|].
  apply Forall_cons in Hd as [Hn Hd]. rewrite filter_cons. simpl in *.
  destruct (decide (RaftNode.state n = LEADER ∧ RaftNode.is_failed n = false))
    as [[? _]|_]; [done|]. by apply IH.
Qed.

Lemma leaderless_on_node (c : t) (id : string)
      (f : RaftNode.t → RaftNode.t) :
  (∀ n, RaftNode.state n ≠ LEADER → RaftNode.state (f n) ≠ LEADER) →
  leaderless c → leaderless (on_node c id f).
Proof.
  intros Hf [Hq Hn]. unfold on_node.
  destruct (dict_get id (nodes c)) as [n|] eqn:Hk; [|done].
  split; [done|]. simpl.
  apply (Forall_entries_set (λ _ n, RaftNode.state n ≠ LEADER)); [done|].
  apply Hf.
  exact (Forall_entries_get (λ _ n, RaftNode.state n ≠ LEADER) _ _ _ Hn Hk).
Qed.

Lemma leaderless_step (c : t) (e : Event) :
  leaderless c → leaderless (step NodeTimer c e).
Proof.
  intros Hc. destruct (Hc) as [Hq Hn].
  destruct e as [id now|clock|id|id now|ids b|command]; simpl.
  - unfold run_node. destruct (negb _); [done|].
    destruct (dict_get id (nodes c)) as [node|] eqn:Hk; [|done].
    pose proof (Forall_entries_get (λ _ n, RaftNode.state n ≠ LEADER)
                  _ _ _ Hn Hk) as Hnode. simpl in Hnode.
    destruct (RaftNode.is_failed node); [done|].
    match goal with
    | |- context [dict_get id (nodes ?x)] => set (c1 := x)
    end.
    assert (Hc1 : leaderless c1).
    { subst c1. destruct (_ && _); [|done].
      unfold commit. rewrite emit_timer. split; [done|]. simpl.
      apply (Forall_entries_set (λ _ n, RaftNode.state n ≠ LEADER)); [done|].
      by apply other_methods_do_not_elect. }
    clearbody c1.
    destruct (dict_get id (nodes c1)) as [node1|] eqn:Hk1; [|done].
    case_bool_decide; [|done]. by rewrite emit_timer.
  - unfold _process_messages. destruct (negb _); [done|].
    rewrite Hq. simpl. by destruct c.
  - apply leaderless_on_node; [|done]. done.
  - apply leaderless_on_node; [|done]. done.
  - unfold partition_nodes.
    revert c Hc Hq Hn. induction ids as [|id ids IH]; intros c Hc _ _;
      simpl; [done|].
    assert (Hc' : leaderless
                    (on_node c id
                       (λ node, RaftNode.partition_node node b)))
      by (apply leaderless_on_node; done).
    apply IH; [exact Hc'|apply Hc'..].
  - rewrite append_command_no_leader; [done|]. by apply get_leader_none.
Qed.

End NodeTimerWiring.

(** X18: with [send_message] as the class defines it (that is, without the
    rewiring that [demo_raft_consensus] performs) no vote request is ever
    delivered: in every execution of a freshly built cluster the queue stays
    empty, no node ever becomes Leader, [get_leader] reports nobody and
    [append_command] returns [False] and changes nothing. *)
Theorem no_leader_without_rewiring
        (node_ids : list string) (timeout clock : nat → Time)
        (es : list Event) (command : string) :
  let c := run NodeTimer
             (RaftCluster.start
                (RaftCluster.init node_ids timeout clock)) es in
  RaftCluster.message_queue c = []
  ∧ Forall (λ kn, RaftNode.state kn.2 ≠ LEADER) (RaftCluster.nodes c)
  ∧ RaftCluster.get_leader c = None
  ∧ RaftCluster.append_command NodeTimer c command = (c, Return false).
Proof.
  intros c.
  assert (Hc : leaderless c).
  { subst c. unfold run.
    assert (H0 : leaderless
                   (RaftCluster.start
                      (RaftCluster.init node_ids timeout clock))).
    { split; [done|]. simpl.
      apply (init_nodes_inv (λ _ n, RaftNode.state n ≠ LEADER));
        [done|constructor]. }
    generalize dependent (RaftCluster.start
                            (RaftCluster.init node_ids timeout clock)).
    induction es as [|e es IH]; intros c0 Hc0; simpl; [done|].
    apply IH. by apply leaderless_step. }
  destruct Hc as [Hq Hn]. split; [done|]. split; [done|].
  pose proof (get_leader_none c Hn) as Hl. split; [done|].
  by apply append_command_no_leader.
Qed.

(** * Partition marks in the demo's wiring *)

Section UnmarkNode.
Import RaftNode.

Lemma init_leader_state_unmark (a : t) :
  init_leader_state (unmark a) = unmark (init_leader_state a).
Proof.
  unfold init_leader_state.
  change (peers (unmark a)) with (peers a).
  generalize (peers a) as ps. intros ps. revert a.
  induction ps as [|p ps IH]; intros a; simpl; [done|].
  rewrite <- IH. reflexivity.
Qed.

Lemma replicate_to_unmark (n : t) (ps : list string) :
  replicate_to (unmark n) ps = replicate_to n ps.
Proof.
  induction ps as [|p ps IH]; simpl; [done|].
  change (append_msg (unmark n) p) with (append_msg n p).
  destruct (append_msg n p); [|done]. by rewrite IH.
Qed.

Lemma start_election_unmark (n : t) :
  start_election (unmark n) = unmark_run (start_election n).
Proof.
  unfold start_election, unmark_run, unmark. simpl.
  destruct (is_failed n); reflexivity.
Qed.

Lemma handle_vote_request_unmark (n : t) (m : Message.t) :
  handle_vote_request (unmark n) m = unmark_run (handle_vote_request n m).
Proof.
  unfold handle_vote_request, adopt_higher_term, can_vote, unmark_run, unmark.
  simpl. destruct (is_failed n); [reflexivity|].
  destruct (current_term n <? Message.term m); simpl;
    destruct (_ && _); reflexivity.
Qed.

Lemma become_leader_unmark (n : t) :
  become_leader (unmark n) = unmark_run (become_leader n).
Proof.
  unfold become_leader, unmark_run. simpl.
  change (set_state (unmark n) LEADER) with (unmark (set_state n LEADER)).
  rewrite init_leader_state_unmark. reflexivity.
Qed.

Lemma handle_vote_response_unmark (n : t) (m : Message.t) :
  handle_vote_response (unmark n) m = unmark_run (handle_vote_response n m).
Proof.
  unfold handle_vote_response. simpl.
  destruct (_ || _); [reflexivity|].
  destruct (Message.get_vote_granted m); [|reflexivity].
  destruct (_ <? _); [|reflexivity].
  apply (become_leader_unmark
           (set_votes_received n ({[Message.from_node m]} ∪ votes_received n))).
Qed.

Lemma handle_append_entries_unmark (n : t) (now : Time) (m : Message.t) :
  handle_append_entries (unmark n) now m
  = unmark_run (handle_append_entries n now m).
Proof.
  unfold handle_append_entries, observe_leader, unmark_run, unmark. simpl.
  destruct (is_failed n); [reflexivity|].
  destruct (current_term n <=? Message.term m); simpl;
    (destruct (_ <? _); [reflexivity|]);
    (destruct (Message.data m) as [| |pli plt es lc]; [reflexivity..|]);
    (destruct (log_mismatch _ _ _); [reflexivity|]);
    destruct es; simpl; destruct (_ <? lc); reflexivity.
Qed.

Lemma append_entry_unmark (n : t) (command : string) :
  append_entry (unmark n) command = unmark_run (append_entry n command).
Proof.
  unfold append_entry. simpl.
  destruct (_ || _); [reflexivity|].
  unfold replicate_log. simpl.
  destruct (negb _); [reflexivity|].
  match goal with
  | |- context [replicate_to (set_log (unmark n) ?l) ?ps] =>
      change (replicate_to (set_log (unmark n) l) ps)
        with (replicate_to (unmark (set_log n l)) (peers (set_log n l)))
  end.
  rewrite replicate_to_unmark.
  destruct (replicate_to _ _). reflexivity.
Qed.

End UnmarkNode.

Section UnmarkCluster.
Import RaftCluster.

Abbreviation unmark_entries :=
  (fmap (M := list) (λ kn : string * RaftNode.t, (kn.1, unmark kn.2))).

Lemma dict_get_unmark (k : string) (d : dict RaftNode.t) :
  dict_get k (unmark_entries d) = unmark <$> dict_get k d.
Proof.
  induction d as [|[k0 n0] d IH]; simpl; [done|].
  destruct (decide (k0 = k)); [done|]. exact IH.
Qed.

Lemma dict_set_unmark (k : string) (n : RaftNode.t) (d : dict RaftNode.t) :
  dict_set k (unmark n) (unmark_entries d) = unmark_entries (dict_set k n d).
Proof.
  induction d as [|[k0 n0] d IH]; simpl; [done|].
  destruct (decide (k0 = k)); simpl; [done|]. f_equal. exact IH.
Qed.

Lemma unmark_all_emit (c : t) (sender sender' : RaftNode.t)
      (ms : list Message.t) :
  unmark_all (emit ClusterQueue c sender ms)
  = emit ClusterQueue (unmark_all c) sender' ms.
Proof.
  simpl. revert c. induction ms as [|m ms IH]; intros c; simpl; [done|].
  rewrite IH. reflexivity.
Qed.

Lemma unmark_all_commit {A} (c : t) (key : string) (r : RaftNode.Run A) :
  unmark_all (commit ClusterQueue c key r)
  = commit ClusterQueue (unmark_all c) key (unmark_run r).
Proof.
  unfold commit.
  rewrite (unmark_all_emit _ _ (RaftNode.self (unmark_run r))).
  f_equal. unfold unmark_all. simpl. by rewrite dict_set_unmark.
Qed.

Lemma get_leader_unmark (c : t) : get_leader (unmark_all c) = get_leader c.
Proof.
  unfold get_leader, dict_values, unmark_all. simpl.
  induction (nodes c) as [|[k n] d IH]; simpl; [done|].
  rewrite !filter_cons. simpl.
  destruct (decide (RaftNode.state n = LEADER ∧ RaftNode.is_failed n = false));
    simpl; [done|exact IH].
Qed.

Local Arguments commit : simpl never.
Local Arguments unmark_all : simpl never.
Local Arguments emit : simpl never.

Lemma process_message_unmark (c : t) (now : Time) (m : Message.t) :
  process_message ClusterQueue (unmark_all c) now m
  = (unmark_all (process_message ClusterQueue c now m).1,
     (process_message ClusterQueue c now m).2).
Proof.
  unfold process_message.
  change (nodes (unmark_all c)) with (unmark_entries (nodes c)).
  rewrite dict_get_unmark.
  destruct (dict_get (Message.to_node m) (nodes c)) as [target|]; simpl;
    [|done].
  destruct (RaftNode.is_failed target); [done|].
  repeat case_bool_decide; simpl; try done.
  - by rewrite handle_vote_request_unmark, unmark_all_commit.
  - by rewrite handle_vote_response_unmark, unmark_all_commit.
  - by rewrite handle_append_entries_unmark, unmark_all_commit.
Qed.

Lemma process_batch_unmark (clock : nat → Time) (batch : list Message.t) :
  ∀ (k : nat) (c : t),
    process_batch ClusterQueue (unmark_all c) clock k batch
    = (unmark_all (process_batch ClusterQueue c clock k batch).1,
       (process_batch ClusterQueue c clock k batch).2).
Proof.
  induction batch as [|m batch IH]; intros k c; simpl; [done|].
  rewrite process_message_unmark.
  destruct (process_message ClusterQueue c (clock k) m) as [c' [[]|e]];
    simpl; [apply IH|done].
Qed.

Lemma on_node_unmark (c : t) (id : string) (f : RaftNode.t → RaftNode.t) :
  (∀ n, f (unmark n) = unmark (f n)) →
  on_node (unmark_all c) id f = unmark_all (on_node c id f).
Proof.
  intros Hf. unfold on_node.
  change (nodes (unmark_all c)) with (unmark_entries (nodes c)).
  rewrite dict_get_unmark.
  destruct (dict_get id (nodes c)) as [n|]; simpl; [|done].
  unfold unmark_all. simpl. by rewrite Hf, dict_set_unmark.
Qed.

Lemma on_node_partition_unmark (c : t) (id : string) (b : bool) :
  unmark_all (on_node c id (λ n, RaftNode.partition_node n b)) = unmark_all c.
Proof.
  unfold on_node. destruct (dict_get id (nodes c)) as [n|] eqn:Hk; [|done].
  unfold unmark_all. simpl. f_equal.
  revert Hk. induction (nodes c) as [|[k0 n0] d IH]; simpl; [done|].
  destruct (decide (k0 = id)) as [->|].
  - intros [= ->]. reflexivity.
  - intros Hk. simpl. f_equal. by apply IH.
Qed.

Lemma step_unmark (c : t) (e : Event) :
  unmark_all (step ClusterQueue c e)
  = if not_a_partition e then step ClusterQueue (unmark_all c) e
    else unmark_all c.
Proof.
  destruct e as [id now|clock|id|id now|ids b|command]; simpl.
  - unfold run_node.
    change (running (unmark_all c)) with (running c).
    destruct (negb _); [done|].
    change (nodes (unmark_all c)) with (unmark_entries (nodes c)).
    rewrite dict_get_unmark.
    destruct (dict_get id (nodes c)) as [node|]; simpl; [|done].
    destruct (RaftNode.is_failed node); [done|].
    set (go := _ && _).
    set (c1 := if go then commit ClusterQueue c id
                              (RaftNode.start_election node) else c).
    assert (Hc1 : (if go
                   then commit ClusterQueue (unmark_all c) id
                          (RaftNode.start_election (unmark node))
                   else unmark_all c) = unmark_all c1).
    { subst c1. destruct go; [|done].
      by rewrite start_election_unmark, unmark_all_commit. }
    rewrite Hc1. clearbody c1.
    change (nodes (unmark_all c1)) with (unmark_entries (nodes c1)).
    rewrite dict_get_unmark.
    destruct (dict_get id (nodes c1)) as [node1|]; simpl; [|done].
    case_bool_decide; [|done].
    apply (unmark_all_emit c1 node1 (unmark node1)).
  - unfold _process_messages.
    change (running (unmark_all c)) with (running c).
    destruct (negb _); [done|].
    change (set_message_queue (unmark_all c) [])
      with (unmark_all (set_message_queue c [])).
    change (message_queue (unmark_all c)) with (message_queue c).
    by rewrite process_batch_unmark.
  - unfold fail_node. by rewrite on_node_unmark.
  - unfold recover_node. by rewrite on_node_unmark.
  - unfold partition_nodes.
    revert c. induction ids as [|id ids IH]; intros c; simpl; [done|].
    rewrite IH. apply on_node_partition_unmark.
  - unfold append_command. rewrite get_leader_unmark.
    destruct (truthy_opt_str _); [|done].
    change (nodes (unmark_all c)) with (unmark_entries (nodes c)).
    rewrite dict_get_unmark.
    destruct (dict_get _ (nodes c)) as [leader|]; simpl; [|done].
    by rewrite append_entry_unmark, unmark_all_commit.
Qed.

End UnmarkCluster.

(** X19: in the demo's wiring the partition marks are never read.  An
    execution with calls of [partition_nodes] and the same execution without
    them end in clusters that differ at most in the marks themselves: same
    roles, terms, votes and logs on every node, same queue. *)
Theorem partition_marks_are_never_read (c : RaftCluster.t) (es : list Event) :
  unmark_all (run ClusterQueue c es)
  = run ClusterQueue (unmark_all c) (filter not_a_partition es).
Proof.
  unfold run. revert c. induction es as [|e es IH]; intros c; simpl; [done|].
  rewrite IH, step_unmark. rewrite filter_cons.
  destruct (not_a_partition e); simpl; done.
Qed.

(** * More on the coordinator *)

(** ** [get_leader] *)

(** X20: [get_leader] reports nobody exactly when no stored node is a Leader
    that is not failed; otherwise it reports the id of the first such node in
    the order in which the nodes were stored. *)
Theorem get_leader_reports_the_first_live_leader (c : RaftCluster.t) :
  (RaftCluster.get_leader c = None
   ↔ Forall (λ n, ¬ (RaftNode.state n = LEADER
                     ∧ RaftNode.is_failed n = false))
            (dict_values (RaftCluster.nodes c)))
  ∧ (∀ id, RaftCluster.get_leader c = Some id →
       ∃ before n after,
         dict_values (RaftCluster.nodes c) = (before ++ n :: after)%list
         ∧ RaftNode.node_id n = id
         ∧ RaftNode.state n = LEADER ∧ RaftNode.is_failed n = false
         ∧ Forall (λ n', ¬ (RaftNode.state n' = LEADER
                            ∧ RaftNode.is_failed n' = false)) before).
Proof.
  unfold RaftCluster.get_leader.
  generalize (dict_values (RaftCluster.nodes c)) as l.
  induction l as [|n l [IHn IHs]]; simpl.
  - split; [split; [constructor|done]|done].
  - rewrite filter_cons.
    destruct (decide (RaftNode.state n = LEADER
                      ∧ RaftNode.is_failed n = false)) as [Hlive|Hno]; simpl.
    + split.
      * split; [done|]. intros [? _]%Forall_cons. done.
      * intros id [= <-]. exists [], n, l. destruct Hlive.
        repeat split; try done.
    + split.
      * rewrite IHn, Forall_cons. tauto.
      * intros id Hid. destruct (IHs id Hid) as (b & n' & a & -> & Hrest).
        exists (n :: b), n', a. split; [done|].
        destruct Hrest as (? & ? & ? & ?). repeat split; try done.
        by constructor.
Qed.

(** With two live Leaders, [n1] and [n3], the first one is reported. *)
Lemma get_leader_reports_the_first_live_leader_witness :
  ∃ before n after,
    dict_values
      (RaftCluster.nodes (run ClusterQueue cluster3 two_leaders_trace))
    = (before ++ n :: after)%list
    ∧ RaftNode.node_id n = "n1" ∧ before = [].
Proof.
  destruct (get_leader_reports_the_first_live_leader
              (run ClusterQueue cluster3 two_leaders_trace)) as [_ H].
  destruct (H "n1") as (b & n & a & Hsplit & Hid & _ & _ & Hb).
  { vm_compute. reflexivity. }
  exists b, n, a. split; [exact Hsplit|]. split; [exact Hid|].
  destruct b as [|n0 b]; [reflexivity|]. exfalso.
  apply Forall_cons in Hb as [Hn0 _]. apply Hn0.
  assert (Hhead : head (dict_values
                          (RaftCluster.nodes
                             (run ClusterQueue cluster3 two_leaders_trace)))
                  = Some n0) by (rewrite Hsplit; reflexivity).
  vm_compute in Hhead. injection Hhead as <-. split; reflexivity.
Defined.

(** ** [RaftCluster.__init__] *)

Lemma init_nodes_lookup (all ids : list string) (timeout clock : nat → Time)
      (id : string) :
  ∀ (k : nat) (d : dict RaftNode.t),
    let d' := RaftCluster.init_nodes all ids timeout clock k d in
    (id ∉ ids → dict_get id d' = dict_get id d)
    ∧ (id ∈ ids →
       ∃ j, ids !! j = Some id
            ∧ dict_get id d'
              = Some (RaftNode.init id all (timeout (k + j)%nat)
                        (clock (k + j)%nat))).
Proof.
  induction ids as [|i ids IH]; intros k d; simpl.
  - split; [done|]. intros H. by apply elem_of_nil in H.
  - destruct (IH (S k) (dict_set i (RaftNode.init i all (timeout k) (clock k))
                          d)) as [Hout Hin].
    split.
    + intros [Hne Hni]%not_elem_of_cons.
      rewrite (Hout Hni). by apply dict_get_set_ne.
    + intros Hid. destruct (decide (id ∈ ids)) as [Hl|Hl].
      * destruct (Hin Hl) as (j & Hj & Hget). exists (S j).
        split; [done|]. rewrite Hget.
        by replace (S k + j)%nat with (k + S j)%nat by lia.
      * apply elem_of_cons in Hid as [->|Hid]; [|done].
        exists 0%nat. split; [done|]. rewrite (Hout Hl).
        rewrite dict_get_set_eq. by rewrite Nat.add_0_r.
Qed.

(** X21: [RaftCluster.__init__] stores a node under [id] exactly for the ids
    of [node_ids]; that node is a fresh Follower of term 0 with no vote, an
    empty log, neither failed nor partitioned, whose member list is the whole
    of [node_ids] and whose random timeout is the draw made at an occurrence
    of [id] in the list; the keys are pairwise distinct; the cluster is not
    running and nothing is queued. *)
Theorem init_builds_one_follower_per_id
        (node_ids : list string) (timeout clock : nat → Time) (id : string) :
  let c := RaftCluster.init node_ids timeout clock in
  RaftCluster.running c = false
  ∧ RaftCluster.message_queue c = []
  ∧ NoDup (RaftCluster.nodes c).*1
  ∧ (id ∉ node_ids → node_of c id = None)
  ∧ (id ∈ node_ids →
     ∃ j, node_ids !! j = Some id
          ∧ node_of c id
            = Some (RaftNode.mk id node_ids FOLLOWER 0 None [] 0 0 ∅ ∅
                      (timeout j) (clock j) ∅ [] false false)).
Proof.
  simpl. split; [done|]. split; [done|].
  split; [apply init_nodes_keys_NoDup; constructor|].
  destruct (init_nodes_lookup node_ids node_ids timeout clock id 0%nat [])
    as [Hout Hin].
  split; [exact Hout|exact Hin].
Qed.

(** A list that names [n1] twice: [n1] is stored once. *)
Lemma init_builds_one_follower_per_id_witness :
  ∃ j n, ["n1"; "n2"; "n1"] !! j = Some "n1"
         ∧ node_of (RaftCluster.init ["n1"; "n2"; "n1"] timeouts3 (λ _, 0))
                   "n1" = Some n
         ∧ RaftNode.election_timeout n = timeouts3 j.
Proof.
  destruct (init_builds_one_follower_per_id ["n1"; "n2"; "n1"] timeouts3
              (λ _, 0) "n1") as (_ & _ & _ & _ & H).
  destruct H as (j & Hj & Hn); [set_solver|].
  eexists j, _. split; [exact Hj|]. split; [exact Hn|reflexivity].
Defined.

(** ** Fault injection *)

Lemma dict_set_set {V} (k : string) (v1 v2 : V) (d : dict V) :
  dict_set k v2 (dict_set k v1 d) = dict_set k v2 d.
Proof.
  induction d as [|[k0 v0] d IH]; simpl.
  - by destruct (decide (k = k)).
  - destruct (decide (k0 = k)) as [->|Hne]; simpl.
    + by destruct (decide (k = k)).
    + destruct (decide (k0 = k)); [done|]. by rewrite IH.
Qed.

(** X22: crashing a node and bringing it back touches nothing but that node:
    the queue (with whatever was addressed to it), the running flag and all
    other nodes stay as they were, and the node itself comes back as a
    Follower that is not failed, its heartbeat time reset, with the term,
    vote, log, commit index, leader bookkeeping and collected votes it had.
    For an unknown id both calls do nothing. *)
Theorem crash_and_recovery_keep_the_nodes_state
        (c : RaftCluster.t) (id : string) (now : Time) :
  let c' := RaftCluster.recover_node (RaftCluster.fail_node c id) id now in
  (node_of c id = None → c' = c)
  ∧ (∀ n, node_of c id = Some n →
       c' = RaftCluster.set_nodes c
              (dict_set id
                 (RaftNode.set_last_heartbeat
                    (RaftNode.set_state (RaftNode.set_is_failed n false)
                       FOLLOWER) now)
                 (RaftCluster.nodes c))
       ∧ RaftCluster.message_queue c' = RaftCluster.message_queue c
       ∧ (∀ id', id' ≠ id → node_of c' id' = node_of c id')).
Proof.
  simpl. unfold RaftCluster.recover_node, RaftCluster.fail_node,
    RaftCluster.on_node, node_of.
  split.
  - intros Hk. rewrite Hk. simpl. by rewrite Hk.
  - intros n Hk. rewrite Hk. simpl. rewrite dict_get_set_eq. simpl.
    rewrite dict_set_set. split; [reflexivity|]. split; [reflexivity|].
    intros id' Hne. by apply dict_get_set_ne.
Qed.

(** The Leader [n1] of the replication scenario crashes and comes back. *)
Lemma crash_and_recovery_keep_the_nodes_state_witness :
  let c' := RaftCluster.recover_node
              (RaftCluster.fail_node after_heartbeat "n1") "n1" 3000 in
  (λ n, (RaftNode.state n, RaftNode.current_term n,
         length (RaftNode.log n)))
    <$> node_of c' "n1" = Some (FOLLOWER, 1, 2%nat)
  ∧ node_of c' "n2" = node_of after_heartbeat "n2".
Proof.
  intros c'.
  destruct (crash_and_recovery_keep_the_nodes_state after_heartbeat "n1" 3000)
    as [_ H].
  assert (Hn : ∃ n, node_of after_heartbeat "n1" = Some n)
    by (eexists; vm_compute; reflexivity).
  destruct Hn as [n Hn]. destruct (H n Hn) as (Hc' & _ & Hother).
  split.
  - fold c' in Hc'. rewrite Hc'. unfold node_of.
    cbn [RaftCluster.nodes RaftCluster.set_nodes].
    rewrite dict_get_set_eq.
    vm_compute in Hn. injection Hn as <-. reflexivity.
  - apply Hother. congruence.
Defined.

(** ** Elections that time out again *)

(** X23: [start_election] does not touch [last_heartbeat].  So once the
    election timeout of a live Follower or Candidate has elapsed, every
    further turn of its loop starts yet another election: after as many
    turns as there are clock readings, with no message handled in between,
    the node's term has grown by that many, while its heartbeat time is what
    it was. *)
Theorem every_turn_after_the_timeout_starts_an_election
        (w : Wiring) (nows : list Time) :
  ∀ (c : RaftCluster.t) (id : string) (n : RaftNode.t),
    RaftCluster.running c = true →
    node_of c id = Some n →
    RaftNode.is_failed n = false →
    RaftNode.state n = FOLLOWER ∨ RaftNode.state n = CANDIDATE →
    Forall (λ now, RaftNode.election_timeout n
                   < now - RaftNode.last_heartbeat n) nows →
    ∃ n', node_of (run w c (Tick id <$> nows)) id = Some n'
          ∧ RaftNode.current_term n' = RaftNode.current_term n + len nows
          ∧ RaftNode.last_heartbeat n' = RaftNode.last_heartbeat n
          ∧ (nows ≠ [] → RaftNode.state n' = CANDIDATE
                         ∧ RaftNode.voted_for n' = Some (RaftNode.node_id n)).
Proof.
  induction nows as [|now nows IH]; intros c id n Hrun Hn Hf Hst Hall.
  - exists n. simpl. unfold len. simpl. split; [done|].
    split; [lia|]. split; done.
  - apply Forall_cons in Hall as [Hnow Hall].
    set (n1 := RaftNode.self (RaftNode.start_election n)).
    assert (Hstep : RaftCluster.running (step w c (Tick id now)) = true
                    ∧ node_of (step w c (Tick id now)) id = Some n1).
    { simpl. unfold RaftCluster.run_node. rewrite Hrun. simpl.
      unfold node_of in Hn. rewrite Hn, Hf.
      assert (Hgo : (bool_decide (RaftNode.state n = FOLLOWER)
                     || bool_decide (RaftNode.state n = CANDIDATE))
                    && (RaftNode.election_timeout n
                          <? now - RaftNode.last_heartbeat n) = true).
      { apply andb_true_intro. split.
        - destruct Hst as [->| ->]; reflexivity.
        - by apply Z.ltb_lt. }
      rewrite Hgo.
      assert (Hget : dict_get id
                       (RaftCluster.nodes
                          (RaftCluster.commit w c id
                             (RaftNode.start_election n))) = Some n1).
      { rewrite commit_nodes. apply dict_get_set_eq. }
      rewrite Hget.
      assert (Hcand : RaftNode.state n1 = CANDIDATE).
      { subst n1. unfold RaftNode.start_election. by rewrite Hf. }
      rewrite bool_decide_eq_false_2 by congruence.
      split; [|exact Hget].
      unfold RaftCluster.commit. by rewrite emit_running. }
    destruct Hstep as [Hrun1 Hn1].
    assert (Hfacts : RaftNode.is_failed n1 = false
                     ∧ RaftNode.state n1 = CANDIDATE
                     ∧ RaftNode.current_term n1 = RaftNode.current_term n + 1
                     ∧ RaftNode.last_heartbeat n1 = RaftNode.last_heartbeat n
                     ∧ RaftNode.election_timeout n1
                       = RaftNode.election_timeout n
                     ∧ RaftNode.node_id n1 = RaftNode.node_id n
                     ∧ RaftNode.voted_for n1 = Some (RaftNode.node_id n)).
    { subst n1. unfold RaftNode.start_election. rewrite Hf. simpl.
      rewrite Hf. done. }
    destruct Hfacts as (Hf1 & Hs1 & Ht1 & Hh1 & Hto1 & Hid1 & Hv1).
    destruct (IH (step w c (Tick id now)) id n1 Hrun1 Hn1 Hf1 (or_intror Hs1))
      as (n' & Hn' & Ht' & Hh' & Hrest).
    { rewrite Hto1, Hh1. exact Hall. }
    exists n'. split; [exact Hn'|].
    split; [rewrite Ht', Ht1; unfold len; simpl length; lia|].
    split; [congruence|]. intros _.
    destruct nows as [|now' nows'].
    + change (node_of (step w c (Tick id now)) id = Some n') in Hn'.
      rewrite Hn1 in Hn'. injection Hn' as <-. done.
    + destruct Hrest as [Hs' Hv']; [done|]. split; [done|]. congruence.
Qed.

(** [n1] of the fresh three-node cluster, whose timeout is 1500, is given
    three turns after the deadline: it reaches term 3. *)
Lemma every_turn_after_the_timeout_starts_an_election_witness :
  ∃ n', node_of (run ClusterQueue cluster3
                   (Tick "n1" <$> [1501; 1601; 1701])) "n1" = Some n'
        ∧ RaftNode.current_term n' = 3.
Proof.
  destruct (every_turn_after_the_timeout_starts_an_election ClusterQueue
              [1501; 1601; 1701] cluster3 "n1"
              (RaftNode.init "n1" ["n1"; "n2"; "n3"] 1500 0))
    as (n' & Hn' & Ht & _).
  - reflexivity.
  - reflexivity.
  - reflexivity.
  - left. reflexivity.
  - repeat constructor.
  - exists n'. split; [exact Hn'|]. rewrite Ht. reflexivity.
Defined.

(** ** Witnesses for the commit index and the second vote *)

(** The Follower with commit index 2 and three entries receives a fourth
    entry and the leader's commit index 3. *)
Lemma handle_append_entries_commit_index_witness :
  let m := Message.mk "append_entries" "n1" "n2" 2
             (AppendEntriesData 2 1 [LogEntry.mk 2 3 "d"] 3) in
  RaftNode.commit_index follower_commit_2
  ≤ RaftNode.commit_index
      (RaftNode.self (RaftNode.handle_append_entries follower_commit_2 30 m)).
Proof.
  intros m.
  apply (handle_append_entries_commit_index follower_commit_2 30 m).
  vm_compute. congruence.
Defined.

(** [n2], which voted for [n1] in term 1, hears [n1]'s heartbeat of term 1
    and is then asked by [n3] in term 1. *)
Lemma second_vote_in_the_same_term_witness :
  let n := RaftNode.set_voted_for
             (RaftNode.set_current_term fresh_node 1) (Some "n1") in
  let ae := Message.mk "append_entries" "n1" "n2" 1
              (AppendEntriesData (-1) 0 [] 0) in
  let vr := Message.mk "vote_request" "n3" "n2" 1 (VoteRequestData (-1) 0) in
  RaftNode.voted_for n = Some "n1"
  ∧ RaftNode.ret
      (RaftNode.handle_vote_request
         (RaftNode.self (RaftNode.handle_append_entries n 60 ae)) vr) = true.
Proof.
  intros n ae vr. split; [reflexivity|].
  destruct (second_vote_in_the_same_term n 60 ae vr) as (_ & H & _);
    [reflexivity..|exact H].
Defined.

(** ** A stopped cluster *)

(** X25: [stop] only clears the running flag.  While the flag is cleared
    the turns of the node loops and of the message processor do nothing:
    whatever was queued stays queued, undelivered, and is delivered when the
    loops run again; [append_command] and the fault injection calls keep
    working meanwhile. *)
Theorem stopped_cluster_keeps_its_queue
        (w : Wiring) (c : RaftCluster.t) (es : list Event) :
  Forall (λ e, match e with Tick _ _ | Process _ => True | _ => False end)
         es →
  run w (RaftCluster.stop c) es = RaftCluster.stop c
  ∧ RaftCluster.message_queue (run w (RaftCluster.stop c) es)
    = RaftCluster.message_queue c
  ∧ RaftCluster.start (run w (RaftCluster.stop c) es) = RaftCluster.start c.
Proof.
  intros Hes.
  assert (Hfix : run w (RaftCluster.stop c) es = RaftCluster.stop c).
  { unfold run. induction Hes as [|e es He _ IH]; simpl; [done|].
    destruct e as [id now|clock| | | |]; try done; simpl; exact IH. }
  rewrite Hfix. done.
Qed.

(** The heartbeats queued in the replication scenario survive a stop. *)
Lemma stopped_cluster_keeps_its_queue_witness :
  RaftCluster.message_queue
    (run ClusterQueue (RaftCluster.stop before_heartbeat)
         [Process (at_time 2010); Tick "n1" 2500; Process (at_time 2600)])
  = RaftCluster.message_queue before_heartbeat.
Proof.
  apply (stopped_cluster_keeps_its_queue ClusterQueue before_heartbeat
           [Process (at_time 2010); Tick "n1" 2500; Process (at_time 2600)]).
  repeat constructor.
Defined.

(** * A leader's command reaches the cluster *)

(** A leader that was elected with an empty log sends its whole log, with no
    previous entry to check, every time it replicates. *)
Section WholeLog.
Variable src : string.
Variable T lc : Z.
Variable L : list LogEntry.t.
Hypothesis L_not_empty : L ≠ [].

Lemma whole_log_taken (n : RaftNode.t) (now : Time) (p : string) :
  RaftNode.is_failed n = false → RaftNode.current_term n ≤ T →
  ∃ n', RaftNode.handle_append_entries n now (whole_log_to src T lc L p)
        = RaftNode.mkRun n' [] (Return true)
        ∧ caught_up T L n'.
Proof.
  intros Hf Hle.
  rewrite (handle_append_entries_accepted n now (whole_log_to src T lc L p) (-1) 0 lc L
             Hf Hle eq_refl eq_refl).
  eexists. split; [reflexivity|].
  unfold caught_up. simpl. destruct L as [|e l] eqn:HL; [done|].
  unfold RaftNode.observe_leader. simpl.
  destruct (Z.leb_spec (RaftNode.current_term n) T); [|lia].
  simpl. done.
Qed.

Lemma whole_log_delivered (c : RaftCluster.t) (now : Time) (p : string) :
  none_ahead T c →
  ∃ c', RaftCluster.process_message ClusterQueue c now (whole_log_to src T lc L p)
        = (c', Return ())
  ∧ none_ahead T c'
  ∧ RaftCluster.message_queue c' = RaftCluster.message_queue c
  ∧ (∀ key, key ≠ p → node_of c' key = node_of c key)
  ∧ (∀ n, node_of c p = Some n → RaftNode.is_failed n = false →
          ∃ n', node_of c' p = Some n' ∧ caught_up T L n').
Proof.
  intros Hc. unfold RaftCluster.process_message.
  change (Message.to_node (whole_log_to src T lc L p)) with p.
  change (Message.type (whole_log_to src T lc L p)) with "append_entries".
  destruct (dict_get p (RaftCluster.nodes c)) as [n|] eqn:Hn.
  2:{ exists c. repeat split; try done.
      intros n Hn'. unfold node_of in Hn'. congruence. }
  destruct (RaftNode.is_failed n) eqn:Hf.
  { exists c. repeat split; try done.
    intros n' Hn'. unfold node_of in Hn'. congruence. }
  destruct (whole_log_taken n now p Hf (Hc p n Hn Hf)) as (n' & -> & Hcu).
  simpl. eexists. split; [reflexivity|].
  unfold RaftCluster.commit. simpl.
  assert (Hother : ∀ key, key ≠ p →
            node_of (RaftCluster.set_nodes c
                       (dict_set p n' (RaftCluster.nodes c))) key
            = node_of c key).
  { intros key Hne. unfold node_of. simpl. by apply dict_get_set_ne. }
  assert (Hp : node_of (RaftCluster.set_nodes c
                          (dict_set p n' (RaftCluster.nodes c))) p
               = Some n').
  { unfold node_of. simpl. apply dict_get_set_eq. }
  split; [|split; [done|split; [exact Hother|]]].
  - intros key m Hm Hfm. destruct (decide (key = p)) as [->|Hne].
    + rewrite Hp in Hm. injection Hm as <-.
      destruct Hcu as (_ & -> & _). lia.
    + rewrite (Hother key Hne) in Hm. by apply (Hc key).
  - intros m _ _. by exists n'.
Qed.

Lemma whole_log_batch (clock : nat → Time) (ps : list string) :
  ∀ (k : nat) (c : RaftCluster.t),
    none_ahead T c →
    ∃ c', RaftCluster.process_batch ClusterQueue c clock k
            (whole_log_to src T lc L <$> ps) = (c', Return ())
    ∧ none_ahead T c'
    ∧ RaftCluster.message_queue c' = RaftCluster.message_queue c
    ∧ (∀ key, key ∉ ps → node_of c' key = node_of c key)
    ∧ (∀ p n, p ∈ ps → node_of c p = Some n →
              RaftNode.is_failed n = false →
              ∃ n', node_of c' p = Some n' ∧ caught_up T L n').
Proof.
  induction ps as [|q ps IH]; intros k c Hc.
  - exists c. split; [done|]. split; [done|]. split; [done|]. split; [done|].
    intros p n Hp. by apply elem_of_nil in Hp.
  - destruct (whole_log_delivered c (clock k) q Hc)
      as (c1 & Hrun1 & Hc1 & Hq1 & Hother1 & Hq1').
    destruct (IH (S k) c1 Hc1) as (c' & Hrun' & Hc' & Hq' & Hother' & Hps').
    exists c'. split.
    { rewrite fmap_cons.
      change (RaftCluster.process_batch ClusterQueue c clock k
                (whole_log_to src T lc L q :: (whole_log_to src T lc L <$> ps)))
        with (match RaftCluster.process_message ClusterQueue c (clock k)
                      (whole_log_to src T lc L q) with
              | (c2, Return _) =>
                  RaftCluster.process_batch ClusterQueue c2 clock (S k)
                    (whole_log_to src T lc L <$> ps)
              | (c2, Raise e) => (c2, Raise e)
              end).
      by rewrite Hrun1. }
    split; [exact Hc'|]. split; [congruence|]. split.
    + intros key [Hne Hni]%not_elem_of_cons.
      rewrite (Hother' key Hni). by apply Hother1.
    + intros p n Hp Hn Hf.
      destruct (decide (p ∈ ps)) as [Hin|Hni].
      * destruct (decide (p = q)) as [->|Hne].
        -- destruct (Hq1' n Hn Hf) as (n1 & Hn1 & Hcu).
           apply (Hps' q n1 Hin Hn1). apply Hcu.
        -- apply (Hps' p n Hin); [|done]. by rewrite Hother1.
      * apply elem_of_cons in Hp as [->|Hp]; [|done].
        destruct (Hq1' n Hn Hf) as (n1 & Hn1 & Hcu).
        exists n1. split; [|done]. by rewrite (Hother' q Hni).
Qed.

End WholeLog.

Lemma dict_get_in_values {V} (k : string) (v : V) (d : dict V) :
  dict_get k d = Some v → v ∈ dict_values d.
Proof.
  unfold dict_values. induction d as [|[k0 v0] d IH]; simpl; [done|].
  destruct (decide (k0 = k)).
  - intros [= ->]. by left.
  - intros H. right. by apply IH.
Qed.

Lemma replicate_to_whole_log (n : RaftNode.t) (ps : list string) :
  RaftNode.log n ≠ [] →
  Forall (λ p, next_index_of n p = 0) ps →
  RaftNode.replicate_to n ps
  = (whole_log_to (RaftNode.node_id n) (RaftNode.current_term n)
       (RaftNode.commit_index n) (RaftNode.log n) <$> ps, Return ()).
Proof.
  intros Hlog Hps. induction Hps as [|p ps Hp _ IH]; simpl; [done|].
  rewrite IH. unfold RaftNode.append_msg. unfold next_index_of in Hp.
  rewrite Hp. simpl.
  destruct (Z.ltb_spec 0 (len (RaftNode.log n))) as [_|Hlen].
  - done.
  - destruct (RaftNode.log n); [done|]. unfold len in Hlen. simpl in Hlen. lia.
Qed.

(** X28: a command given to a cluster whose reported leader has never moved
    a peer's [next_index] from 0, as is the case for a leader elected with an
    empty log, reaches every live peer in one turn of the message processor:
    when the queue is empty and no live node is ahead of the leader's term,
    after [append_command] and one turn the leader holds its old log with the
    new entry at the end, every peer that is stored and not failed holds
    exactly the same log, is a Follower and is in the leader's term, and the
    queue is empty again (nothing is sent back to the leader). *)
Theorem command_reaches_every_live_peer
        (c : RaftCluster.t) (clock : nat → Time) (id command : string)
        (leader : RaftNode.t) :
  RaftCluster.running c = true →
  RaftCluster.message_queue c = [] →
  RaftCluster.get_leader c = Some id → id ≠ "" →
  node_of c id = Some leader →
  RaftNode.node_id leader = id →
  RaftNode.state leader = LEADER →
  RaftNode.is_failed leader = false →
  Forall (λ p, next_index_of leader p = 0) (RaftNode.peers leader) →
  Forall (λ n, RaftNode.is_failed n = false →
               RaftNode.current_term n ≤ RaftNode.current_term leader)
         (dict_values (RaftCluster.nodes c)) →
  let c' := run ClusterQueue c [Append command; Process clock] in
  let l' := (RaftNode.log leader
               ++ [LogEntry.mk (RaftNode.current_term leader)
                     (len (RaftNode.log leader)) command])%list in
  node_of c' id = Some (RaftNode.set_log leader l')
  ∧ RaftCluster.message_queue c' = []
  ∧ ∀ p n, p ∈ RaftNode.peers leader → node_of c p = Some n →
           RaftNode.is_failed n = false →
           ∃ n', node_of c' p = Some n'
                 ∧ RaftNode.log n' = l'
                 ∧ RaftNode.current_term n' = RaftNode.current_term leader
                 ∧ RaftNode.state n' = FOLLOWER
                 ∧ RaftNode.is_failed n' = false.
Proof.
  intros Hrun Hq Hl Hid Hn Hnid Hs Hf Hnext Hterms c' l'.
  set (n1 := RaftNode.set_log leader l').
  assert (Hl' : l' ≠ []) by (subst l'; by destruct (RaftNode.log leader)).
  set (ms := whole_log_to id (RaftNode.current_term leader)
               (RaftNode.commit_index leader) l' <$> RaftNode.peers leader).
  assert (Hentry : RaftNode.append_entry leader command
                   = RaftNode.mkRun n1 ms (Return true)).
  { unfold RaftNode.append_entry.
    rewrite bool_decide_eq_true_2, Hf by done. simpl. fold l' n1.
    unfold RaftNode.replicate_log.
    rewrite bool_decide_eq_true_2 by done. simpl.
    rewrite (replicate_to_whole_log n1 (RaftNode.peers n1) Hl' Hnext).
    subst ms. simpl. by rewrite Hnid. }
  set (c1 := (RaftCluster.append_command ClusterQueue c command).1).
  assert (Hc1 : RaftCluster.nodes c1 = dict_set id n1 (RaftCluster.nodes c)
                ∧ RaftCluster.message_queue c1 = ms
                ∧ RaftCluster.running c1 = true).
  { subst c1.
    rewrite (append_command_routed ClusterQueue c command id leader Hl Hid Hn).
    rewrite Hentry. unfold RaftCluster.commit, fst.
    rewrite emit_nodes, emit_queue, emit_running.
    cbn [RaftNode.self RaftNode.sent RaftCluster.nodes
         RaftCluster.set_nodes RaftCluster.message_queue
         RaftCluster.running].
    by rewrite Hq, Hrun. }
  destruct Hc1 as (Hnodes1 & Hq1 & Hrun1).
  assert (Hc' : c' = (RaftCluster.process_batch ClusterQueue
                        (RaftCluster.set_message_queue c1 []) clock 0%nat
                        ms).1).
  { subst c'. unfold run. cbn [foldl step]. fold c1.
    unfold RaftCluster._process_messages. by rewrite Hrun1, Hq1. }
  assert (Hahead : none_ahead (RaftNode.current_term leader)
                     (RaftCluster.set_message_queue c1 [])).
  { intros key n Hkey Hfn. unfold node_of in Hkey.
    cbn [RaftCluster.nodes RaftCluster.set_message_queue] in Hkey.
    rewrite Hnodes1 in Hkey. destruct (decide (key = id)) as [->|Hne].
    - rewrite dict_get_set_eq in Hkey. injection Hkey as <-.
      subst n1. simpl. lia.
    - rewrite dict_get_set_ne in Hkey by done.
      rewrite Forall_forall in Hterms.
      apply Hterms; [|done]. by apply (dict_get_in_values key). }
  destruct (whole_log_batch id (RaftNode.current_term leader)
              (RaftNode.commit_index leader) l' Hl' clock
              (RaftNode.peers leader) 0%nat _ Hahead)
    as (c2 & Hbatch & _ & Hq2 & Hother2 & Hpeers2).
  fold ms in Hbatch. rewrite Hbatch in Hc'. simpl in Hc'. subst c2.
  assert (Hnotpeer : id ∉ RaftNode.peers leader).
  { intros [_ Hne]%elem_of_peers. by apply Hne. }
  split; [|split].
  - rewrite (Hother2 id Hnotpeer). unfold node_of.
    cbn [RaftCluster.nodes RaftCluster.set_message_queue].
    rewrite Hnodes1. apply dict_get_set_eq.
  - rewrite Hq2. done.
  - intros p n Hp Hpn Hfn.
    assert (Hne : p ≠ id) by (intros ->; done).
    destruct (Hpeers2 p n Hp) as (n' & Hn' & Hcu); [|done|].
    + unfold node_of. cbn [RaftCluster.nodes RaftCluster.set_message_queue].
      rewrite Hnodes1. by rewrite dict_get_set_ne.
    + exists n'. split; [done|]. exact Hcu.
Qed.

(** The three-node cluster after [n1] has won the election of term 1 and its
    first heartbeats are processed: the command ["x"] reaches [n2] and
    [n3]. *)
Lemma command_reaches_every_live_peer_witness :
  let c := run ClusterQueue cluster3
             [Tick "n1" 1501; Process (at_time 1510); Process (at_time 1520);
              Process (at_time 1530)] in
  let c' := run ClusterQueue c [Append "x"; Process (at_time 1600)] in
  RaftNode.log <$> node_of c' "n2" = Some [LogEntry.mk 1 0 "x"]
  ∧ RaftNode.log <$> node_of c' "n3" = Some [LogEntry.mk 1 0 "x"].
Proof.
  intros c c'.
  set (leader := default fresh_node (node_of c "n1")).
  set (n2 := default fresh_node (node_of c "n2")).
  set (n3 := default fresh_node (node_of c "n3")).
  destruct (command_reaches_every_live_peer c (at_time 1600) "n1" "x" leader)
    as (_ & _ & H).
  - vm_compute. reflexivity.
  - vm_compute. reflexivity.
  - vm_compute. reflexivity.
  - congruence.
  - vm_compute. reflexivity.
  - vm_compute. reflexivity.
  - vm_compute. reflexivity.
  - vm_compute. reflexivity.
  - compute_done.
  - compute_done.
  - fold c' in H. split.
    + destruct (H "n2" n2) as (n' & Hn' & Hlog & _);
        [compute_done | vm_compute; reflexivity | vm_compute; reflexivity |].
      rewrite Hn'. cbn [fmap option_fmap option_map]. rewrite Hlog.
      vm_compute. reflexivity.
    + destruct (H "n3" n3) as (n' & Hn' & Hlog & _);
        [compute_done | vm_compute; reflexivity | vm_compute; reflexivity |].
      rewrite Hn'. cbn [fmap option_fmap option_map]. rewrite Hlog.
      vm_compute. reflexivity.
Defined.

(** * An election from the timeout to the first heartbeats *)

Section VoteRequests.
Variable id : string.
Variable T1 lli llt : Z.

Lemma vote_given (n : RaftNode.t) (p : string) :
  RaftNode.is_failed n = false → RaftNode.node_id n = p →
  RaftNode.current_term n < T1 ∨ voted id T1 n →
  ∃ n', RaftNode.handle_vote_request n (vote_request_to id T1 lli llt p)
        = RaftNode.mkRun n' [vote_from id T1 p] true
        ∧ voted id T1 n' ∧ RaftNode.node_id n' = p.
Proof.
  intros Hf Hid Hn. unfold RaftNode.handle_vote_request. rewrite Hf.
  unfold RaftNode.adopt_higher_term, RaftNode.can_vote.
  change (Message.term (vote_request_to id T1 lli llt p)) with T1.
  change (Message.from_node (vote_request_to id T1 lli llt p)) with id.
  destruct Hn as [Hlt|(Ht & Hv & Hs & _)].
  - destruct (Z.ltb_spec (RaftNode.current_term n) T1); [|lia].
    cbn [RaftNode.current_term RaftNode.voted_for RaftNode.set_state
         RaftNode.set_voted_for RaftNode.set_current_term].
    rewrite Z.leb_refl. cbn [andb].
    eexists. split; [by rewrite <- Hid|].
    split; [|done]. unfold voted. simpl. done.
  - destruct (Z.ltb_spec (RaftNode.current_term n) T1); [lia|].
    rewrite Hv, Ht, Z.leb_refl, bool_decide_eq_true_2 by done. cbn [andb].
    eexists. split; [simpl; by rewrite Hid, Ht|].
    split; [|done]. unfold voted. simpl. done.
Qed.

Lemma vote_request_delivered (c : RaftCluster.t) (now : Time) (p : string) :
  may_vote id T1 c → p ≠ id →
  ∃ c', RaftCluster.process_message ClusterQueue c now (vote_request_to id T1 lli llt p)
        = (c', Return ())
  ∧ may_vote id T1 c'
  ∧ RaftCluster.message_queue c'
    = (RaftCluster.message_queue c
         ++ if is_live c p then [vote_from id T1 p] else [])%list
  ∧ (∀ key, key ≠ p → node_of c' key = node_of c key)
  ∧ (∀ key, is_live c' key = is_live c key)
  ∧ (is_live c p = true → ∃ n', node_of c' p = Some n' ∧ voted id T1 n').
Proof.
  intros Hc Hp.
  pose proof (eq_refl : is_live c p
                        = match dict_get p (RaftCluster.nodes c) with
                          | Some n => negb (RaftNode.is_failed n)
                          | None => false
                          end) as Hlive.
  unfold RaftCluster.process_message.
  change (Message.to_node (vote_request_to id T1 lli llt p)) with p.
  change (Message.type (vote_request_to id T1 lli llt p)) with "vote_request".
  destruct (dict_get p (RaftCluster.nodes c)) as [n|] eqn:Hn.
  2:{ rewrite Hlive. exists c. rewrite app_nil_r.
      split; [done|]. split; [done|]. split; [done|]. split; [done|].
      split; [done|]. done. }
  destruct (RaftNode.is_failed n) eqn:Hf.
  { rewrite Hlive. exists c. rewrite app_nil_r.
    split; [done|]. split; [done|]. split; [done|]. split; [done|].
    split; [done|]. done. }
  rewrite Hlive. cbn [negb].
  destruct (Hc p n Hp Hn) as [Hid Hready].
  destruct (vote_given n p Hf Hid (Hready Hf)) as (n' & Hrun & Hv & Hid').
  rewrite bool_decide_eq_true_2 by done. rewrite Hrun.
  eexists. split; [reflexivity|].
  unfold RaftCluster.commit. rewrite emit_queue.
  cbn [RaftNode.self RaftNode.sent RaftCluster.message_queue
       RaftCluster.set_nodes].
  assert (Hat : ∀ key,
            node_of (RaftCluster.emit ClusterQueue
                       (RaftCluster.set_nodes c
                          (dict_set p n' (RaftCluster.nodes c)))
                       n' [vote_from id T1 p]) key
            = if decide (key = p) then Some n' else node_of c key).
  { intros key. unfold node_of. rewrite emit_nodes.
    cbn [RaftCluster.nodes RaftCluster.set_nodes].
    destruct (decide (key = p)) as [->|Hne].
    - apply dict_get_set_eq.
    - by apply dict_get_set_ne. }
  split; [|split; [done|split; [|split]]].
  - intros key m Hkey Hm. rewrite Hat in Hm.
    destruct (decide (key = p)) as [->|Hne].
    + injection Hm as <-. split; [done|]. intros _. by right.
    + by apply Hc.
  - intros key Hne. rewrite Hat. by destruct (decide (key = p)).
  - intros key. unfold is_live. rewrite Hat.
    destruct (decide (key = p)) as [->|Hne]; [|done].
    unfold node_of. rewrite Hn, Hf. by destruct Hv as (_ & _ & _ & ->).
  - intros _. exists n'. split; [|done]. rewrite Hat.
    by destruct (decide (p = p)).
Qed.

Lemma vote_requests_batch (clock : nat → Time) (ps : list string) :
  ∀ (k : nat) (c : RaftCluster.t),
    may_vote id T1 c → Forall (λ p, p ≠ id) ps →
    ∃ c', RaftCluster.process_batch ClusterQueue c clock k
            (vote_request_to id T1 lli llt <$> ps) = (c', Return ())
    ∧ may_vote id T1 c'
    ∧ RaftCluster.message_queue c'
      = (RaftCluster.message_queue c
           ++ (vote_from id T1 <$> filter (λ p, is_live c p = true) ps))%list
    ∧ (∀ key, key ∉ ps → node_of c' key = node_of c key)
    ∧ (∀ key, is_live c' key = is_live c key)
    ∧ (∀ p, p ∈ ps → is_live c p = true →
            ∃ n', node_of c' p = Some n' ∧ voted id T1 n').
Proof.
  induction ps as [|q ps IH]; intros k c Hc Hps.
  - exists c. rewrite app_nil_r. repeat split; try done.
    + apply (Hc key n H H0).
    + apply (Hc key n H H0).
    + intros p Hp. by apply elem_of_nil in Hp.
  - apply Forall_cons in Hps as [Hq Hps].
    destruct (vote_request_delivered c (clock k) q Hc Hq)
      as (c1 & Hrun1 & Hc1 & Hq1 & Hother1 & Hlive1 & Hvoted1).
    destruct (IH (S k) c1 Hc1 Hps)
      as (c' & Hrun' & Hc' & Hq' & Hother' & Hlive' & Hvoted').
    exists c'. split.
    { rewrite fmap_cons.
      change (RaftCluster.process_batch ClusterQueue c clock k
                (vote_request_to id T1 lli llt q :: (vote_request_to id T1 lli llt <$> ps)))
        with (match RaftCluster.process_message ClusterQueue c (clock k)
                      (vote_request_to id T1 lli llt q) with
              | (c2, Return _) =>
                  RaftCluster.process_batch ClusterQueue c2 clock (S k)
                    (vote_request_to id T1 lli llt <$> ps)
              | (c2, Raise e) => (c2, Raise e)
              end).
      by rewrite Hrun1. }
    split; [exact Hc'|]. split; [|split; [|split]].
    + rewrite Hq', Hq1, <- app_assoc. f_equal.
      rewrite filter_cons.
      rewrite (list_filter_iff (λ p, is_live c1 p = true)
                 (λ p, is_live c p = true))
        by (intros x; by rewrite Hlive1).
      destruct (is_live c q) eqn:Hlq.
      * by rewrite decide_True.
      * by rewrite decide_False by done.
    + intros key [Hne Hni]%not_elem_of_cons.
      rewrite (Hother' key Hni). by apply Hother1.
    + intros key. by rewrite Hlive', Hlive1.
    + intros p Hp Hlp. destruct (decide (p ∈ ps)) as [Hin|Hni].
      * apply (Hvoted' p Hin). by rewrite Hlive1.
      * apply elem_of_cons in Hp as [->|Hp]; [|done].
        destruct (Hvoted1 Hlp) as (n' & Hn' & Hv).
        exists n'. split; [|done]. by rewrite (Hother' q Hni).
Qed.

End VoteRequests.

Section VoteCount.
Variable id : string.
Variable cand : RaftNode.t.
Hypothesis cand_id : RaftNode.node_id cand = id.
Hypothesis cand_state : RaftNode.state cand = CANDIDATE.
Hypothesis cand_live : RaftNode.is_failed cand = false.

Lemma become_leader_sent (V : gset string) :
  RaftNode.sent (RaftNode.become_leader (counting cand V))
  = first_heartbeat_to id cand <$> RaftNode.peers cand.
Proof.
  unfold RaftNode.become_leader, RaftNode.send_heartbeat.
  cbn [RaftNode.sent].
  destruct (init_leader_state_frame (RaftNode.set_state (counting cand V) LEADER))
    as (Hnid & Hcn & Hs & Ht & _ & Hlog & Hci & _ & _ & Hfl & _).
  cbn [RaftNode.node_id RaftNode.cluster_nodes RaftNode.state
       RaftNode.current_term RaftNode.log RaftNode.commit_index
       RaftNode.is_failed RaftNode.set_state counting
       RaftNode.set_votes_received] in *.
  rewrite Hs, Hfl, cand_live, bool_decide_eq_true_2 by done. cbn [negb orb].
  unfold RaftNode.peers. rewrite Hnid, Hcn, Ht, Hlog, Hci.
  unfold first_heartbeat_to. by rewrite cand_id.
Qed.

Lemma vote_counted (c : RaftCluster.t) (now : Time) (p : string)
      (V : gset string) :
  node_of c id = Some (counting cand V) →
  RaftCluster.process_message ClusterQueue c now
    (vote_from id (RaftNode.current_term cand) p)
  = (RaftCluster.commit ClusterQueue c id
       (if len (RaftNode.cluster_nodes cand) `div` 2
           <? Z.of_nat (size ({[ p ]} ∪ V))
        then RaftNode.become_leader (counting cand ({[ p ]} ∪ V))
        else RaftNode.mkRun (counting cand ({[ p ]} ∪ V)) [] ()),
     Return ()).
Proof.
  intros Hn. unfold RaftCluster.process_message.
  change (Message.to_node (vote_from id (RaftNode.current_term cand) p))
    with id.
  change (Message.type (vote_from id (RaftNode.current_term cand) p))
    with "vote_response".
  unfold node_of in Hn. rewrite Hn.
  change (RaftNode.is_failed (counting cand V)) with (RaftNode.is_failed cand).
  rewrite cand_live.
  rewrite bool_decide_eq_false_2 by done.
  rewrite bool_decide_eq_true_2 by done.
  f_equal. f_equal. unfold RaftNode.handle_vote_response.
  change (RaftNode.state (counting cand V)) with (RaftNode.state cand).
  change (RaftNode.is_failed (counting cand V)) with (RaftNode.is_failed cand).
  change (RaftNode.current_term (counting cand V))
    with (RaftNode.current_term cand).
  change (Message.term (vote_from id (RaftNode.current_term cand) p))
    with (RaftNode.current_term cand).
  rewrite cand_state, cand_live, Z.eqb_refl, bool_decide_eq_true_2 by done.
  reflexivity.
Qed.

Lemma vote_ignored (c : RaftCluster.t) (now : Time) (p : string)
      (leader : RaftNode.t) :
  node_of c id = Some leader → RaftNode.state leader = LEADER →
  ∃ c', RaftCluster.process_message ClusterQueue c now
          (vote_from id (RaftNode.current_term cand) p) = (c', Return ())
  ∧ node_of c' id = Some leader
  ∧ RaftCluster.message_queue c' = RaftCluster.message_queue c
  ∧ ∀ key, key ≠ id → node_of c' key = node_of c key.
Proof.
  intros Hn Hs. unfold RaftCluster.process_message.
  change (Message.to_node (vote_from id (RaftNode.current_term cand) p))
    with id.
  change (Message.type (vote_from id (RaftNode.current_term cand) p))
    with "vote_response".
  unfold node_of in Hn. rewrite Hn.
  destruct (RaftNode.is_failed leader); [by exists c|].
  rewrite bool_decide_eq_false_2 by done.
  rewrite bool_decide_eq_true_2 by done.
  unfold RaftNode.handle_vote_response.
  rewrite Hs, bool_decide_eq_false_2 by done. cbn [negb orb].
  eexists. split; [reflexivity|].
  unfold RaftCluster.commit. cbn [RaftNode.self RaftNode.sent].
  rewrite emit_nothing. unfold node_of.
  cbn [RaftCluster.nodes RaftCluster.set_nodes RaftCluster.message_queue].
  split; [apply dict_get_set_eq|]. split; [done|].
  intros key Hne. by apply dict_get_set_ne.
Qed.

Lemma votes_ignored_batch (clock : nat → Time) (qs : list string)
      (leader : RaftNode.t) :
  RaftNode.state leader = LEADER →
  ∀ (k : nat) (c : RaftCluster.t),
    node_of c id = Some leader →
    ∃ c', RaftCluster.process_batch ClusterQueue c clock k
            (vote_from id (RaftNode.current_term cand) <$> qs)
          = (c', Return ())
    ∧ node_of c' id = Some leader
    ∧ RaftCluster.message_queue c' = RaftCluster.message_queue c
    ∧ ∀ key, key ≠ id → node_of c' key = node_of c key.
Proof.
  intros Hs. induction qs as [|q qs IH]; intros k c Hn.
  - by exists c.
  - destruct (vote_ignored c (clock k) q leader Hn Hs)
      as (c1 & Hrun1 & Hn1 & Hq1 & Hother1).
    destruct (IH (S k) c1 Hn1) as (c' & Hrun' & Hn' & Hq' & Hother').
    exists c'. split.
    { rewrite fmap_cons.
      change (RaftCluster.process_batch ClusterQueue c clock k
                (vote_from id (RaftNode.current_term cand) q
                   :: (vote_from id (RaftNode.current_term cand) <$> qs)))
        with (match RaftCluster.process_message ClusterQueue c (clock k)
                      (vote_from id (RaftNode.current_term cand) q) with
              | (c2, Return _) =>
                  RaftCluster.process_batch ClusterQueue c2 clock (S k)
                    (vote_from id (RaftNode.current_term cand) <$> qs)
              | (c2, Raise e) => (c2, Raise e)
              end).
      by rewrite Hrun1. }
    split; [done|]. split; [congruence|].
    intros key Hne. rewrite (Hother' key Hne). by apply Hother1.
Qed.

(** The answers [qs] are counted one by one: either they never make a
    majority, or the candidate becomes Leader on the way and sends its first
    heartbeats. *)
Lemma votes_counted_batch (clock : nat → Time) (qs : list string) :
  ∀ (k : nat) (c : RaftCluster.t) (V : gset string),
    node_of c id = Some (counting cand V) →
    ∃ c', RaftCluster.process_batch ClusterQueue c clock k
            (vote_from id (RaftNode.current_term cand) <$> qs)
          = (c', Return ())
    ∧ (∀ key, key ≠ id → node_of c' key = node_of c key)
    ∧ ((node_of c' id = Some (counting cand (list_to_set qs ∪ V))
        ∧ RaftCluster.message_queue c' = RaftCluster.message_queue c
        ∧ (qs ≠ [] →
           (len (RaftNode.cluster_nodes cand) `div` 2
              <? Z.of_nat (size (list_to_set qs ∪ V : gset string)))
           = false))
       ∨ (∃ V', node_of c' id
                = Some (RaftNode.self
                          (RaftNode.become_leader (counting cand V')))
                ∧ RaftCluster.message_queue c'
                  = (RaftCluster.message_queue c
                       ++ (first_heartbeat_to id cand <$> RaftNode.peers cand))%list)).
Proof.
  induction qs as [|q qs IH]; intros k c V Hn.
  - exists c. split; [done|]. split; [done|]. left.
    rewrite list_to_set_nil, (left_id_L ∅ (∪)). done.
  - pose proof (vote_counted c (clock k) q V Hn) as Hrun1.
    assert (Hstep : ∀ c1,
              RaftCluster.process_message ClusterQueue c (clock k)
                (vote_from id (RaftNode.current_term cand) q)
              = (c1, Return ()) →
              RaftCluster.process_batch ClusterQueue c clock k
                (vote_from id (RaftNode.current_term cand) <$> q :: qs)
              = RaftCluster.process_batch ClusterQueue c1 clock (S k)
                  (vote_from id (RaftNode.current_term cand) <$> qs)).
    { intros c1 H1. rewrite fmap_cons.
      change (RaftCluster.process_batch ClusterQueue c clock k
                (vote_from id (RaftNode.current_term cand) q
                   :: (vote_from id (RaftNode.current_term cand) <$> qs)))
        with (match RaftCluster.process_message ClusterQueue c (clock k)
                      (vote_from id (RaftNode.current_term cand) q) with
              | (c2, Return _) =>
                  RaftCluster.process_batch ClusterQueue c2 clock (S k)
                    (vote_from id (RaftNode.current_term cand) <$> qs)
              | (c2, Raise e) => (c2, Raise e)
              end).
      by rewrite H1. }
    rewrite (Hstep _ Hrun1). clear Hstep Hrun1.
    assert (HV : list_to_set (q :: qs) ∪ V
                 = (list_to_set qs ∪ ({[ q ]} ∪ V) : gset string)).
    { rewrite list_to_set_cons. set_solver. }
    destruct (len (RaftNode.cluster_nodes cand) `div` 2
                <? Z.of_nat (size ({[ q ]} ∪ V))) eqn:Hmaj.
    + set (c1 := RaftCluster.commit ClusterQueue c id
                   (RaftNode.become_leader (counting cand ({[ q ]} ∪ V)))).
      assert (Hn1 : node_of c1 id
                    = Some (RaftNode.self
                              (RaftNode.become_leader
                                 (counting cand ({[ q ]} ∪ V))))).
      { unfold node_of, c1. rewrite commit_nodes. apply dict_get_set_eq. }
      destruct (votes_ignored_batch clock qs _
                  (become_leader_state (counting cand ({[ q ]} ∪ V)))
                  (S k) c1 Hn1) as (c' & Hrun' & Hn' & Hq' & Hother').
      exists c'. split; [done|]. split.
      * intros key Hne. rewrite (Hother' key Hne). unfold node_of, c1.
        rewrite commit_nodes. by apply dict_get_set_ne.
      * right. exists ({[ q ]} ∪ V). split; [done|].
        rewrite Hq'. unfold c1, RaftCluster.commit. rewrite emit_queue.
        by rewrite become_leader_sent.
    + set (c1 := RaftCluster.commit ClusterQueue c id
                   (RaftNode.mkRun (counting cand ({[ q ]} ∪ V)) [] ())).
      assert (Hn1 : node_of c1 id = Some (counting cand ({[ q ]} ∪ V))).
      { unfold node_of, c1. rewrite commit_nodes. apply dict_get_set_eq. }
      assert (Hq1 : RaftCluster.message_queue c1
                    = RaftCluster.message_queue c).
      { unfold c1, RaftCluster.commit. cbn [RaftNode.sent RaftNode.self].
        by rewrite emit_nothing. }
      destruct (IH (S k) c1 ({[ q ]} ∪ V) Hn1)
        as (c' & Hrun' & Hother' & Hend).
      exists c'. split; [done|]. split.
      * intros key Hne. rewrite (Hother' key Hne). unfold node_of, c1.
        rewrite commit_nodes. by apply dict_get_set_ne.
      * rewrite HV, <- Hq1. destruct Hend as [(Hn' & Hq' & Hno)|Hlead].
        -- left. split; [done|]. split; [done|]. intros _.
           destruct qs as [|q' qs']; [|by apply Hno].
           rewrite list_to_set_nil, (left_id_L ∅ (∪)). exact Hmaj.
        -- by right.
Qed.

End VoteCount.

Lemma commit_running {A} (w : Wiring) (c : RaftCluster.t) (key : string)
      (r : RaftNode.Run A) :
  RaftCluster.running (RaftCluster.commit w c key r) = RaftCluster.running c.
Proof. unfold RaftCluster.commit. by rewrite emit_running. Qed.

Lemma process_message_running (w : Wiring) (c : RaftCluster.t) (now : Time)
      (m : Message.t) :
  RaftCluster.running (RaftCluster.process_message w c now m).1
  = RaftCluster.running c.
Proof.
  unfold RaftCluster.process_message.
  destruct (dict_get _ _) as [target|]; [|done].
  destruct (RaftNode.is_failed target); [done|].
  repeat case_bool_decide; cbn [fst]; try done; apply commit_running.
Qed.

Lemma process_batch_running (w : Wiring) (clock : nat → Time)
      (batch : list Message.t) :
  ∀ (k : nat) (c : RaftCluster.t),
    RaftCluster.running (RaftCluster.process_batch w c clock k batch).1
    = RaftCluster.running c.
Proof.
  induction batch as [|m batch IH]; intros k c; [done|].
  cbn [RaftCluster.process_batch].
  pose proof (process_message_running w c (clock k) m) as Hm.
  destruct (RaftCluster.process_message w c (clock k) m) as [c1 [[]|e]].
  - rewrite IH. exact Hm.
  - exact Hm.
Qed.

Lemma elem_of_dict (k : string) (n : RaftNode.t) (d : dict RaftNode.t) :
  dict_get k d = Some n → (k, n) ∈ d.
Proof.
  induction d as [|[k0 v0] d IH]; simpl; [done|].
  destruct (decide (k0 = k)) as [->|].
  - intros [= ->]. by left.
  - intros H. right. by apply IH.
Qed.

Lemma filter_live_but (id : string) (c c1 : RaftCluster.t)
      (ps : list string) :
  Forall (λ p, p ≠ id) ps →
  (∀ p, p ≠ id → is_live c1 p = is_live c p) →
  filter (λ p, is_live c1 p = true) ps = filter (λ p, is_live c p = true) ps.
Proof.
  intros Hps Hlive. induction Hps as [|p ps Hp _ IH]; [done|].
  rewrite !filter_cons, (Hlive p Hp), IH. done.
Qed.

(** X29: an election from the timeout to the first heartbeats.  In a running
    cluster with an empty queue, take a live Follower or Candidate [id]
    whose election timeout has elapsed, whose term no live node exceeds, and
    which together with its live peers makes more than half of its
    [cluster_nodes] (at least two).  After one turn of its loop and two
    turns of the message processor it is Leader in the next term with its
    log unchanged, every live peer is a Follower of that term that has
    voted for it, and the queue holds exactly its first heartbeats, one per
    peer.  Nothing is asked of anyone's log: a peer votes for the candidate
    however much longer or newer its own log is. *)
Theorem timed_out_node_wins_the_election
        (c : RaftCluster.t) (id : string) (cand : RaftNode.t) (now : Time)
        (clock1 clock2 : nat → Time) :
  RaftCluster.running c = true →
  RaftCluster.message_queue c = [] →
  node_of c id = Some cand →
  RaftNode.is_failed cand = false →
  RaftNode.state cand = FOLLOWER ∨ RaftNode.state cand = CANDIDATE →
  RaftNode.election_timeout cand < now - RaftNode.last_heartbeat cand →
  Forall (λ kn, RaftNode.node_id kn.2 = kn.1
                ∧ (RaftNode.is_failed kn.2 = false →
                   RaftNode.current_term kn.2 ≤ RaftNode.current_term cand))
         (RaftCluster.nodes c) →
  2 ≤ len (RaftNode.cluster_nodes cand) →
  len (RaftNode.cluster_nodes cand) `div` 2
  < Z.of_nat (size ({[ id ]}
                    ∪ list_to_set (filter (λ p, is_live c p = true)
                                          (RaftNode.peers cand))
                    : gset string)) →
  let c' := run ClusterQueue c [Tick id now; Process clock1; Process clock2] in
  let term := RaftNode.current_term cand + 1 in
  (∃ leader, node_of c' id = Some leader
             ∧ RaftNode.state leader = LEADER
             ∧ RaftNode.current_term leader = term
             ∧ RaftNode.log leader = RaftNode.log cand
             ∧ RaftNode.is_failed leader = false)
  ∧ (∀ p, p ∈ RaftNode.peers cand → is_live c p = true →
          ∃ n, node_of c' p = Some n
               ∧ RaftNode.state n = FOLLOWER
               ∧ RaftNode.current_term n = term
               ∧ RaftNode.voted_for n = Some id
               ∧ RaftNode.is_failed n = false)
  ∧ RaftCluster.message_queue c'
    = (λ p, Message.mk "append_entries" id p term
              (AppendEntriesData
                 (RaftNode.last_log_index_of (RaftNode.log cand))
                 (RaftNode.last_log_term_of (RaftNode.log cand)) []
                 (RaftNode.commit_index cand)))
        <$> RaftNode.peers cand.
Proof.
  intros Hrun Hq Hn Hf Hs Hto Hall Htwo Hmaj c' term.
  assert (Hid : RaftNode.node_id cand = id).
  { rewrite Forall_forall in Hall.
    by destruct (Hall _ (elem_of_dict id cand _ Hn)) as [? _]. }
  set (cand1 := RaftNode.self (RaftNode.start_election cand)).
  set (lli := RaftNode.last_log_index_of (RaftNode.log cand)).
  set (llt := RaftNode.last_log_term_of (RaftNode.log cand)).
  assert (Hstart : RaftNode.start_election cand
                   = RaftNode.mkRun cand1
                       (vote_request_to id term lli llt
                          <$> RaftNode.peers cand) ()).
  { unfold cand1, RaftNode.start_election. rewrite Hf.
    cbn [RaftNode.self]. unfold vote_request_to, RaftNode.peers.
    cbn [RaftNode.node_id RaftNode.cluster_nodes RaftNode.current_term
         RaftNode.log RaftNode.set_state RaftNode.set_current_term
         RaftNode.set_voted_for RaftNode.set_votes_received].
    by rewrite Hid. }
  assert (Hcand1 : cand1
                   = counting
                       (RaftNode.set_voted_for
                          (RaftNode.set_current_term
                             (RaftNode.set_state cand CANDIDATE) term)
                          (Some id))
                       {[ id ]}).
  { unfold cand1, RaftNode.start_election. rewrite Hf.
    cbn [RaftNode.self]. unfold counting.
    cbn [RaftNode.node_id RaftNode.set_state RaftNode.set_current_term
         RaftNode.set_voted_for RaftNode.current_term].
    by rewrite Hid. }
  set (cand0 := RaftNode.set_voted_for
                  (RaftNode.set_current_term
                     (RaftNode.set_state cand CANDIDATE) term)
                  (Some id)) in Hcand1.
  (* the turn of the node's loop *)
  set (c1 := step ClusterQueue c (Tick id now)).
  assert (Hc1 : RaftCluster.nodes c1 = dict_set id cand1 (RaftCluster.nodes c)
                ∧ RaftCluster.message_queue c1
                  = vote_request_to id term lli llt <$> RaftNode.peers cand
                ∧ RaftCluster.running c1 = true).
  { unfold c1, step, RaftCluster.run_node. rewrite Hrun. cbn [negb].
    unfold node_of in Hn. rewrite Hn, Hf.
    assert (Hcond : (bool_decide (RaftNode.state cand = FOLLOWER)
                     || bool_decide (RaftNode.state cand = CANDIDATE))
                    && (RaftNode.election_timeout cand
                          <? now - RaftNode.last_heartbeat cand) = true).
    { apply andb_true_intro. split; [|by apply Z.ltb_lt].
      destruct Hs as [->| ->]; done. }
    rewrite Hcond, commit_nodes, Hstart. cbn [RaftNode.self].
    rewrite dict_get_set_eq.
    rewrite bool_decide_eq_false_2 by (rewrite Hcand1; done).
    rewrite commit_nodes, commit_running. unfold RaftCluster.commit.
    rewrite emit_queue. cbn [RaftNode.self RaftNode.sent
                             RaftCluster.message_queue RaftCluster.set_nodes].
    by rewrite Hq. }
  destruct Hc1 as (Hnodes1 & Hq1 & Hrun1).
  (* the requests are answered *)
  set (c1' := RaftCluster.set_message_queue c1 []).
  assert (Hat1 : ∀ key, node_of c1' key
                        = if decide (key = id) then Some cand1
                          else node_of c key).
  { intros key. unfold node_of, c1'.
    cbn [RaftCluster.nodes RaftCluster.set_message_queue].
    rewrite Hnodes1. destruct (decide (key = id)) as [->|Hne].
    - apply dict_get_set_eq.
    - by apply dict_get_set_ne. }
  assert (Hready : may_vote id term c1').
  { intros key n Hne Hkey. rewrite Hat1, decide_False in Hkey by done.
    rewrite Forall_forall in Hall.
    destruct (Hall _ (elem_of_dict key n _ Hkey)) as [Hk Ht].
    split; [done|]. intros Hfn. left. specialize (Ht Hfn).
    unfold term. simpl in Ht. lia. }
  assert (Hpeers : Forall (λ p, p ≠ id) (RaftNode.peers cand)).
  { apply Forall_forall. intros p [_ Hp]%elem_of_peers. by rewrite <- Hid. }
  destruct (vote_requests_batch id term lli llt clock1 (RaftNode.peers cand)
              0%nat c1' Hready Hpeers)
    as (c2 & Hbatch2 & _ & Hq2 & Hother2 & Hlive2 & Hvoted2).
  assert (Hc2 : step ClusterQueue c1 (Process clock1) = c2).
  { unfold step, RaftCluster._process_messages. rewrite Hrun1, Hq1.
    cbn [negb]. fold c1'. by rewrite Hbatch2. }
  assert (Hrun2 : RaftCluster.running c2 = true).
  { pose proof (process_batch_running ClusterQueue clock1
                  (vote_request_to id term lli llt <$> RaftNode.peers cand)
                  0%nat c1') as H.
    rewrite Hbatch2 in H. cbn [fst] in H. rewrite H. exact Hrun1. }
  assert (Hlive1 : ∀ p, p ≠ id → is_live c1' p = is_live c p).
  { intros p Hne. unfold is_live. rewrite Hat1. by rewrite decide_False. }
  set (live := filter (λ p, is_live c p = true) (RaftNode.peers cand)) in *.
  assert (Hq2' : RaftCluster.message_queue c2 = vote_from id term <$> live).
  { rewrite Hq2. cbn [RaftCluster.message_queue c1'
                      RaftCluster.set_message_queue app].
    f_equal. unfold live. by apply (filter_live_but id). }
  assert (Hn2 : node_of c2 id = Some cand1).
  { rewrite Hother2.
    - rewrite Hat1. by rewrite decide_True.
    - intros [_ Hne]%elem_of_peers. by apply Hne. }
  (* the answers are counted *)
  set (c2' := RaftCluster.set_message_queue c2 []).
  assert (Hc' : c' = (RaftCluster.process_batch ClusterQueue c2' clock2
                        0%nat (vote_from id term <$> live)).1).
  { unfold c', run. cbn [foldl]. fold c1. rewrite Hc2.
    unfold step, RaftCluster._process_messages. rewrite Hrun2, Hq2'.
    done. }
  assert (Hn2' : node_of c2' id = Some (counting cand0 {[ id ]})).
  { rewrite <- Hcand1. exact Hn2. }
  destruct (votes_counted_batch id cand0 Hid eq_refl Hf clock2 live 0%nat c2'
              {[ id ]} Hn2')
    as (c3 & Hbatch3 & Hother3 & Hend).
  change (RaftNode.current_term cand0) with term in Hbatch3.
  rewrite Hbatch3 in Hc'. cbn [fst] in Hc'. subst c3.
  assert (Hlead : ∃ V, node_of c' id
                       = Some (RaftNode.self
                                 (RaftNode.become_leader (counting cand0 V)))
                       ∧ RaftCluster.message_queue c'
                         = first_heartbeat_to id cand0
                             <$> RaftNode.peers cand0).
  { destruct Hend as [(_ & _ & Hno)|(V & HV & HqV)]; [|by exists V].
    exfalso. assert (Hlive : live ≠ []).
    { intros Hnil. rewrite Hnil, list_to_set_nil in Hmaj.
      rewrite (right_id_L ∅ (∪)), size_singleton in Hmaj.
      pose proof (Z.div_le_mono 2 (len (RaftNode.cluster_nodes cand)) 2
                    ltac:(lia) Htwo) as Hdiv.
      change (2 `div` 2) with 1 in Hdiv. lia. }
    specialize (Hno Hlive). apply Z.ltb_ge in Hno.
    change (RaftNode.cluster_nodes cand0)
      with (RaftNode.cluster_nodes cand) in Hno.
    rewrite (comm_L (∪)) in Hno. lia. }
  destruct Hlead as (V & HV & HqV).
  split; [|split].
  - eexists. split; [exact HV|].
    unfold RaftNode.become_leader. cbn [RaftNode.self].
    destruct (init_leader_state_frame
                (RaftNode.set_state (counting cand0 V) LEADER))
      as (_ & _ & Hst & Ht & _ & Hlog & _ & _ & _ & Hfl & _).
    rewrite Hst, Ht, Hlog, Hfl. done.
  - intros p Hp Hlp.
    assert (Hne : p ≠ id).
    { apply elem_of_peers in Hp as [_ Hp]. by rewrite <- Hid. }
    destruct (Hvoted2 p Hp) as (n & Hpn & Ht & Hv & Hst & Hfl).
    { by rewrite Hlive1. }
    exists n. split; [|done].
    rewrite (Hother3 p Hne). exact Hpn.
  - rewrite HqV. done.
Qed.

(** The three fresh nodes: [n1] times out first and is Leader of term 1 two
    processor turns later, with the votes of [n2] and [n3]. *)
Lemma timed_out_node_wins_the_election_witness :
  let c' := run ClusterQueue cluster3
              [Tick "n1" 1501; Process (at_time 1510);
               Process (at_time 1520)] in
  RaftNode.state <$> node_of c' "n1" = Some LEADER
  ∧ RaftNode.voted_for <$> node_of c' "n2" = Some (Some "n1")
  ∧ RaftNode.voted_for <$> node_of c' "n3" = Some (Some "n1").
Proof.
  intros c'.
  set (cand := default fresh_node (node_of cluster3 "n1")).
  destruct (timed_out_node_wins_the_election cluster3 "n1" cand 1501
              (at_time 1510) (at_time 1520))
    as ((leader & Hl & Hs & _) & Hpeers & _).
  - vm_compute. reflexivity.
  - vm_compute. reflexivity.
  - vm_compute. reflexivity.
  - vm_compute. reflexivity.
  - left. vm_compute. reflexivity.
  - vm_compute. reflexivity.
  - compute_done.
  - vm_compute. congruence.
  - vm_compute. reflexivity.
  - fold c' in Hl, Hpeers. split; [|split].
    + rewrite Hl. cbn [fmap option_fmap option_map]. by rewrite Hs.
    + destruct (Hpeers "n2") as (n & Hn & _ & _ & Hv & _);
        [compute_done | vm_compute; reflexivity |].
      rewrite Hn. cbn [fmap option_fmap option_map]. by rewrite Hv.
    + destruct (Hpeers "n3") as (n & Hn & _ & _ & Hv & _);
        [compute_done | vm_compute; reflexivity |].
      rewrite Hn. cbn [fmap option_fmap option_map]. by rewrite Hv.
Defined.

(** * Heartbeats and the election timer *)

Lemma handle_append_entries_timer (n : RaftNode.t) (now : Time)
      (m : Message.t) :
  RaftNode.is_failed n = false →
  RaftNode.current_term n ≤ Message.term m →
  let n' := RaftNode.self (RaftNode.handle_append_entries n now m) in
  RaftNode.state n' = FOLLOWER ∧ RaftNode.current_term n' = Message.term m
  ∧ RaftNode.last_heartbeat n' = now
  ∧ RaftNode.election_timeout n' = RaftNode.election_timeout n
  ∧ RaftNode.is_failed n' = false.
Proof.
  intros Hf Hle. unfold RaftNode.handle_append_entries, RaftNode.observe_leader.
  rewrite Hf.
  destruct (Z.leb_spec (RaftNode.current_term n) (Message.term m)); [|lia].
  simpl. rewrite Z.ltb_irrefl.
  destruct (Message.data m) as [| |pli plt es lc]; [done..|].
  destruct (RaftNode.log_mismatch _ _ _); [done|].
  destruct es; simpl; destruct (_ <? lc); done.
Qed.

(** X30: every AppendEntries whose term is not behind the receiver's, be it
    a heartbeat or a replication, accepted, rejected for the log check or
    raising for its data, leaves a live receiver a Follower of the message's
    term with its election timer restarted at the time of handling; and
    until the election timeout has elapsed since then, a turn of the
    receiver's own loop changes nothing in the cluster. *)
Theorem append_entries_restart_the_election_timer
        (w : Wiring) (c : RaftCluster.t) (p : string) (n : RaftNode.t)
        (m : Message.t) (t t' : Time) :
  RaftCluster.running c = true →
  node_of c p = Some n →
  RaftNode.is_failed n = false →
  Message.to_node m = p →
  Message.type m = "append_entries" →
  RaftNode.current_term n ≤ Message.term m →
  t' - t ≤ RaftNode.election_timeout n →
  let c1 := (RaftCluster.process_message w c t m).1 in
  (∃ n1, node_of c1 p = Some n1
         ∧ RaftNode.state n1 = FOLLOWER
         ∧ RaftNode.current_term n1 = Message.term m
         ∧ RaftNode.last_heartbeat n1 = t)
  ∧ step w c1 (Tick p t') = c1.
Proof.
  intros Hrun Hn Hf Hto Hty Hle Ht c1.
  destruct (handle_append_entries_timer n t m Hf Hle)
    as (Hs1 & Ht1 & Hh1 & He1 & Hf1).
  set (n1 := RaftNode.self (RaftNode.handle_append_entries n t m)) in *.
  assert (Hc1 : c1 = RaftCluster.commit w c p
                       (RaftNode.handle_append_entries n t m)).
  { unfold c1, RaftCluster.process_message. unfold node_of in Hn.
    rewrite Hto, Hn, Hf, Hty.
    rewrite bool_decide_eq_false_2 by done.
    rewrite bool_decide_eq_false_2 by done.
    rewrite bool_decide_eq_true_2 by done. done. }
  assert (Hn1 : node_of c1 p = Some n1).
  { unfold node_of. rewrite Hc1, commit_nodes. apply dict_get_set_eq. }
  split; [by exists n1|].
  unfold step, RaftCluster.run_node.
  rewrite Hc1 at 1. rewrite commit_running, Hrun. cbn [negb].
  unfold node_of in Hn1. rewrite Hn1, Hf1, Hs1, Hh1, He1.
  destruct (Z.ltb_spec (RaftNode.election_timeout n) (t' - t)); [lia|].
  rewrite andb_false_r, Hn1, Hs1.
  by rewrite bool_decide_eq_false_2.
Qed.

(** The fresh Follower [n2], whose timeout is 3000, handles a heartbeat of
    [n1] at time 100: its turn at time 3050 starts no election. *)
Lemma append_entries_restart_the_election_timer_witness :
  let c1 := (RaftCluster.process_message ClusterQueue cluster3 100
               (heartbeat_to "n2")).1 in
  step ClusterQueue c1 (Tick "n2" 3050) = c1.
Proof.
  intros c1.
  set (n := default fresh_node (node_of cluster3 "n2")).
  destruct (append_entries_restart_the_election_timer ClusterQueue cluster3
              "n2" n (heartbeat_to "n2") 100 3050) as [_ H].
  - vm_compute. reflexivity.
  - vm_compute. reflexivity.
  - vm_compute. reflexivity.
  - reflexivity.
  - reflexivity.
  - vm_compute. congruence.
  - vm_compute. congruence.
  - exact H.
Defined.

(** * Commit monotonicity along executions *)





(** * A candidate alone in its cluster *)

(** Nodes without peers that are not Leader, and an empty queue: no event
    changes that. *)
Lemma peerless_run (w : Wiring) (es : list Event) (c : RaftCluster.t) :
  cluster_invariant
    (λ _ n, RaftNode.state n ≠ LEADER ∧ RaftNode.peers n = []) (λ _, False) c →
  cluster_invariant
    (λ _ n, RaftNode.state n ≠ LEADER ∧ RaftNode.peers n = []) (λ _, False)
    (run w c es).
Proof.
  apply run_inv.
  - intros k n [Hs Hp]. unfold method_keeps, RaftNode.start_election.
    destruct (RaftNode.is_failed n); cbn [RaftNode.self RaftNode.sent].
    + split; [done|constructor].
    + change (RaftNode.peers
                (RaftNode.set_votes_received
                   (RaftNode.set_voted_for
                      (RaftNode.set_current_term
                         (RaftNode.set_state n CANDIDATE)
                         (RaftNode.current_term
                            (RaftNode.set_state n CANDIDATE) + 1))
                      (Some (RaftNode.node_id
                               (RaftNode.set_current_term
                                  (RaftNode.set_state n CANDIDATE)
                                  (RaftNode.current_term
                                     (RaftNode.set_state n CANDIDATE) + 1)))))
                   {[RaftNode.node_id
                       (RaftNode.set_voted_for
                          (RaftNode.set_current_term
                             (RaftNode.set_state n CANDIDATE)
                             (RaftNode.current_term
                                (RaftNode.set_state n CANDIDATE) + 1))
                          (Some (RaftNode.node_id
                                   (RaftNode.set_current_term
                                      (RaftNode.set_state n CANDIDATE)
                                      (RaftNode.current_term
                                         (RaftNode.set_state n CANDIDATE)
                                       + 1)))))]}))
        with (RaftNode.peers n).
      rewrite Hp. split; [done|constructor].
  - intros k n m _ [].
  - intros k n m _ [].
  - intros k n now m _ [].
  - intros k n [Hs _]. unfold RaftNode.send_heartbeat.
    rewrite bool_decide_eq_false_2 by done. constructor.
  - intros k n command [Hs Hp]. unfold method_keeps, RaftNode.append_entry.
    rewrite bool_decide_eq_false_2 by done. split; [done|constructor].
  - intros k n [_ Hp]. done.
  - intros k n now [_ Hp]. done.
  - intros k n b [Hs Hp]. done.
Qed.

(** C7, as stated, fails in a cluster of one: after its election timeout the
    only member is a live Candidate of term 1 that holds its own vote, one
    vote out of one member, strictly more than half; nothing is queued; and
    in no execution, whatever the wiring, the timeout and the clock, does it
    ever become Leader. *)
Lemma C7_sole_member_is_never_promoted :
  let c0 := RaftCluster.start (RaftCluster.init ["n1"] (λ _, 1500) (λ _, 0)) in
  let c1 := step ClusterQueue c0 (Tick "n1" 1501) in
  (∃ n, node_of c1 "n1" = Some n
        ∧ RaftNode.state n = CANDIDATE
        ∧ RaftNode.is_failed n = false
        ∧ RaftNode.current_term n = 1
        ∧ RaftNode.cluster_nodes n = ["n1"]
        ∧ RaftNode.votes_received n = {[ "n1" ]}
        ∧ len (RaftNode.cluster_nodes n) `div` 2
          < Z.of_nat (size (RaftNode.votes_received n))
        ∧ RaftCluster.message_queue c1 = [])
  ∧ (∀ (w : Wiring) (timeout clock : nat → Time) (es : list Event)
       (n : RaftNode.t),
       node_of (run w (RaftCluster.start
                         (RaftCluster.init ["n1"] timeout clock)) es) "n1"
       = Some n →
       RaftNode.state n ≠ LEADER).
Proof.
  split.
  - eexists. split; [vm_compute; reflexivity|].
    repeat split; vm_compute; reflexivity.
  - intros w timeout clock es n Hn.
    destruct (peerless_run w es
                (RaftCluster.start (RaftCluster.init ["n1"] timeout clock)))
      as [Hnodes _].
    { split; [|constructor]. repeat constructor; simpl; done. }
    by destruct (Forall_entries_get
                   (λ _ n, RaftNode.state n ≠ LEADER ∧ RaftNode.peers n = [])
                   _ _ _ Hnodes Hn) as [Hs _].
Qed.

(** * Votes counted are votes granted *)

Section GrantedVotes.
Variable node_ids : list string.
Variable G : list Grant.

Local Abbreviation P := (votes_are_grants node_ids G).
Local Abbreviation Q := (response_is_grant node_ids G).

(** A method that keeps the id, the member list and the votes, and either
    keeps role and term or leaves the node Follower or failed, keeps the
    reading of the votes. *)
Lemma votes_are_grants_frame (k : string) (n n' : RaftNode.t) :
  RaftNode.node_id n' = RaftNode.node_id n →
  RaftNode.cluster_nodes n' = RaftNode.cluster_nodes n →
  RaftNode.votes_received n' = RaftNode.votes_received n →
  RaftNode.state n' = FOLLOWER ∨ RaftNode.state n' = FAILED
  ∨ (RaftNode.state n' = RaftNode.state n
     ∧ RaftNode.current_term n' = RaftNode.current_term n) →
  P k n → P k n'.
Proof.
  intros Hid Hcn Hvr Hst (Hk & Hin & Hc & Hmaj & Hv).
  unfold votes_are_grants. rewrite Hid, Hcn, Hvr.
  split; [done|]. split; [done|]. split; [done|].
  destruct Hst as [Hs|[Hs|[Hs Ht]]].
  - rewrite Hs. split; [intros [=]|intros [[=]|[=]]].
  - rewrite Hs. split; [intros [=]|intros [[=]|[=]]].
  - rewrite Hs, Ht. done.
Qed.

Lemma start_election_grants (k : string) (n : RaftNode.t) :
  P k n → method_keeps P Q k (RaftNode.start_election n).
Proof.
  intros (Hid & Hk & Hcn & Hmaj & Hv).
  unfold method_keeps, RaftNode.start_election.
  destruct (RaftNode.is_failed n); cbn [RaftNode.self RaftNode.sent].
  - split; [done|constructor].
  - split.
    + unfold votes_are_grants. simpl.
      split; [done|]. split; [done|]. split; [done|].
      split; [intros [=]|].
      intros _ v ->%elem_of_singleton. rewrite Hid. split; [done|by left].
    + apply Forall_fmap, Forall_forall. intros p _ Hty. done.
Qed.

Lemma handle_vote_request_grants (k : string) (n : RaftNode.t)
      (m : Message.t) :
  P k n → (∀ g, g ∈ grant_of n m → g ∈ G) →
  method_keeps P Q k (RaftNode.handle_vote_request n m).
Proof.
  intros HP HG. unfold grant_of in HG. unfold method_keeps.
  unfold RaftNode.handle_vote_request in *.
  destruct (RaftNode.is_failed n) eqn:Hf;
    cbn [RaftNode.self RaftNode.sent RaftNode.ret] in *;
    [split; [done|constructor]|].
  assert (Hn1 : P k (RaftNode.adopt_higher_term n m)).
  { unfold RaftNode.adopt_higher_term. destruct (_ <? _); [|done].
    apply (votes_are_grants_frame k n); auto. }
  destruct (RaftNode.can_vote _ m);
    cbn [RaftNode.self RaftNode.sent RaftNode.ret] in *.
  - split.
    + apply (votes_are_grants_frame k (RaftNode.adopt_higher_term n m));
        auto 10.
    + constructor; [|constructor]. intros _.
      cbn [Message.from_node Message.to_node Message.term].
      split.
      * destruct Hn1 as (Hid1 & Hk1 & _).
        cbn [RaftNode.node_id RaftNode.set_voted_for]. by rewrite Hid1.
      * apply HG. by apply list_elem_of_singleton.
  - split; [exact Hn1|constructor].
Qed.

Lemma send_heartbeat_grants (n : RaftNode.t) :
  Forall Q (RaftNode.send_heartbeat n).
Proof.
  unfold RaftNode.send_heartbeat. destruct (_ || _); [constructor|].
  apply Forall_fmap, Forall_forall. intros p _ Hty. done.
Qed.

Lemma handle_vote_response_grants (k : string) (n : RaftNode.t)
      (m : Message.t) :
  P k n → Q m → Message.type m = "vote_response" → Message.to_node m = k →
  method_keeps P Q k (RaftNode.handle_vote_response n m).
Proof.
  intros HP HQ Hty Hto. destruct (HQ Hty) as [Hfrom HinG].
  pose proof HP as (Hid & Hk & Hcn & Hmaj & Hv).
  assert (Hvotes : RaftNode.state n = CANDIDATE →
                   Message.term m = RaftNode.current_term n →
                   ∀ v, v ∈ ({[ Message.from_node m ]}
                             ∪ RaftNode.votes_received n : gset string) →
                        v ∈ node_ids
                        ∧ (v = k ∨ (v, k, RaftNode.current_term n) ∈ G)).
  { intros Hs Ht v [->%elem_of_singleton|Hin]%elem_of_union.
    - split; [done|]. right. rewrite <- Hto, <- Ht. done.
    - apply Hv; auto. }
  destruct (handle_vote_response_cases n m)
    as [(Hs & Hf & Ht & Hg & [[Hmaj' Hr]|[Hmin Hr]])|[Hnot Hr]];
    rewrite Hr; unfold method_keeps.
  - split.
    + unfold RaftNode.become_leader. cbn [RaftNode.self].
      destruct (init_leader_state_frame
                  (RaftNode.set_state
                     (RaftNode.set_votes_received n
                        ({[Message.from_node m]}
                           ∪ RaftNode.votes_received n)) LEADER))
        as (F1 & F2 & F3 & F4 & _ & _ & _ & _ & F9 & _).
      unfold votes_are_grants. rewrite F1, F2, F3, F4, F9. simpl.
      split; [done|]. split; [done|]. split; [done|]. split.
      * intros _. rewrite <- Hcn. exact Hmaj'.
      * intros _. by apply Hvotes.
    + unfold RaftNode.become_leader. cbn [RaftNode.sent].
      apply send_heartbeat_grants.
  - split; [|constructor]. unfold votes_are_grants. simpl.
    split; [done|]. split; [done|]. split; [done|]. rewrite Hs. split.
    + intros [=].
    + intros _. by apply Hvotes.
  - split; [done|constructor].
Qed.

Lemma handle_append_entries_cluster_nodes (n : RaftNode.t) (now : Time)
      (m : Message.t) :
  RaftNode.cluster_nodes
    (RaftNode.self (RaftNode.handle_append_entries n now m))
  = RaftNode.cluster_nodes n.
Proof.
  unfold RaftNode.handle_append_entries, RaftNode.observe_leader.
  destruct (RaftNode.is_failed n); [done|].
  destruct (RaftNode.current_term n <=? Message.term m); simpl;
    (destruct (_ <? _); [done|]);
    (destruct (Message.data m) as [| |pli plt es lc]; [done..|]);
    (destruct (RaftNode.log_mismatch _ _ _); [done|]);
    destruct es; simpl; destruct (_ <? lc); done.
Qed.

Lemma handle_append_entries_grants (k : string) (n : RaftNode.t)
      (now : Time) (m : Message.t) :
  P k n → method_keeps P Q k (RaftNode.handle_append_entries n now m).
Proof.
  intros HP. split; [|rewrite handle_append_entries_sent; constructor].
  destruct (handle_append_entries_role n now m) as [->|[_ Hs]]; [done|].
  destruct (handle_append_entries_frame n now m) as (Hid & _ & _ & Hv & _).
  apply (votes_are_grants_frame k n); auto.
  apply handle_append_entries_cluster_nodes.
Qed.

Lemma replicate_to_grants (n : RaftNode.t) (ps : list string) :
  Forall Q (RaftNode.replicate_to n ps).1.
Proof.
  induction ps as [|p ps IH]; simpl; [constructor|].
  unfold RaftNode.append_msg at 1.
  destruct (if 0 <? _ then _ else _) as [plt|]; simpl; [|constructor].
  destruct (RaftNode.replicate_to n ps) as [ms o]. simpl in *.
  constructor; [|exact IH]. intros Hty. done.
Qed.

Lemma append_entry_grants (k : string) (n : RaftNode.t) (command : string) :
  P k n → method_keeps P Q k (RaftNode.append_entry n command).
Proof.
  intros HP. unfold method_keeps, RaftNode.append_entry.
  destruct (_ || _); [split; [done|constructor]|].
  match goal with
  | |- context [RaftNode.replicate_log ?x] =>
      pose proof (replicate_to_grants x (RaftNode.peers x)) as Hms;
      unfold RaftNode.replicate_log;
      destruct (negb (bool_decide (RaftNode.state x = LEADER)));
      [|destruct (RaftNode.replicate_to x (RaftNode.peers x)) as [ms o]]
  end; cbn [RaftNode.self RaftNode.sent fst] in *.
  - split; [|constructor]. apply (votes_are_grants_frame k n); auto 10.
  - split; [|exact Hms]. apply (votes_are_grants_frame k n); auto 10.
Qed.

Lemma fail_node_grants (k : string) (n : RaftNode.t) :
  P k n → P k (RaftNode.fail_node n).
Proof. intros HP. apply (votes_are_grants_frame k n); auto. Qed.

Lemma recover_node_grants (k : string) (n : RaftNode.t) (now : Time) :
  P k n → P k (RaftNode.recover_node n now).
Proof. intros HP. apply (votes_are_grants_frame k n); auto. Qed.

Lemma partition_node_grants (k : string) (n : RaftNode.t) (b : bool) :
  P k n → P k (RaftNode.partition_node n b).
Proof. intros HP. apply (votes_are_grants_frame k n); auto 10. Qed.

Local Abbreviation inv := (cluster_invariant P Q).

Lemma process_message_grants (w : Wiring) (c : RaftCluster.t) (now : Time)
      (m : Message.t) :
  inv c → Q m → (∀ g, g ∈ message_grants c m → g ∈ G) →
  inv (RaftCluster.process_message w c now m).1.
Proof.
  intros Hc Hm HG. unfold RaftCluster.process_message, message_grants in *.
  destruct (dict_get (Message.to_node m) (RaftCluster.nodes c))
    as [target|] eqn:Hk; [|done].
  pose proof (Forall_entries_get P _ _ _ (proj1 Hc) Hk) as Ht.
  destruct (RaftNode.is_failed target); [done|].
  case_bool_decide as H1.
  { cbn [fst]. apply commit_inv; [done|].
    by apply handle_vote_request_grants. }
  case_bool_decide as H2.
  { cbn [fst]. apply commit_inv; [done|].
    by apply handle_vote_response_grants. }
  case_bool_decide; cbn [fst]; [|done].
  apply commit_inv; [done|]. by apply handle_append_entries_grants.
Qed.

Lemma process_batch_grants (w : Wiring) (clock : nat → Time)
      (batch : list Message.t) :
  ∀ (k : nat) (c : RaftCluster.t),
    inv c → Forall Q batch →
    (∀ g, g ∈ batch_grants w c clock k batch → g ∈ G) →
    inv (RaftCluster.process_batch w c clock k batch).1.
Proof.
  induction batch as [|m batch IH]; intros k c Hc Hb HG; [done|].
  apply Forall_cons in Hb as [Hm Hb].
  cbn [batch_grants RaftCluster.process_batch] in *.
  assert (Hc' : inv (RaftCluster.process_message w c (clock k) m).1).
  { apply process_message_grants; [done..|].
    intros g Hg. apply HG, elem_of_app. by left. }
  destruct (RaftCluster.process_message w c (clock k) m) as [c' [[]|e]];
    cbn [fst] in *; [|done].
  apply IH; [done..|]. intros g Hg. apply HG, elem_of_app. by right.
Qed.

Lemma step_grants_inv (w : Wiring) (c : RaftCluster.t) (e : Event) :
  inv c → (∀ g, g ∈ step_grants w c e → g ∈ G) → inv (step w c e).
Proof.
  intros Hc HG. destruct e as [id now|clock|id|id now|ids b|command];
    cbn [step step_grants] in *.
  - apply run_node_inv; [|intros; apply send_heartbeat_grants|done].
    apply start_election_grants.
  - unfold RaftCluster._process_messages.
    destruct (negb _); [done|].
    apply process_batch_grants; [|apply Hc|done].
    split; [apply Hc|constructor].
  - apply on_node_inv; [|done]. apply fail_node_grants.
  - apply on_node_inv; [|done]. intros n. apply recover_node_grants.
  - unfold RaftCluster.partition_nodes. clear HG.
    revert c Hc. induction ids as [|id ids IH]; intros c Hc; simpl; [done|].
    apply IH. apply on_node_inv; [|done]. intros n. apply partition_node_grants.
  - apply append_command_inv; [|done]. apply append_entry_grants.
Qed.

Lemma run_grants_inv (w : Wiring) (es : list Event) :
  ∀ c, inv c → (∀ g, g ∈ grants w c es → g ∈ G) → inv (run w c es).
Proof.
  unfold run. induction es as [|e es IH]; intros c Hc HG; [done|].
  cbn [foldl grants] in *. apply IH.
  - apply step_grants_inv; [done|]. intros g Hg. apply HG, elem_of_app.
    by left.
  - intros g Hg. apply HG, elem_of_app. by right.
Qed.

Lemma init_nodes_grants (ids : list string) (timeout clock : nat → Time) :
  ∀ (k : nat) (d : dict RaftNode.t),
    (∀ id, id ∈ ids → id ∈ node_ids) →
    Forall (λ kn, P kn.1 kn.2) d →
    Forall (λ kn, P kn.1 kn.2)
           (RaftCluster.init_nodes node_ids ids timeout clock k d).
Proof.
  induction ids as [|id ids IH]; intros k d Hids Hd; simpl; [done|].
  apply IH.
  - intros id' Hin. apply Hids. by right.
  - apply (Forall_entries_set P); [done|].
    unfold votes_are_grants. simpl.
    split; [done|]. split; [apply Hids; by left|]. split; [done|].
    split; [intros [=]|intros [[=]|[=]]].
Qed.

End GrantedVotes.

(** What a call of [handle_vote_request] that returns [True] has done. *)
Lemma granted_vote (n : RaftNode.t) (m : Message.t) :
  let r := RaftNode.handle_vote_request n m in
  (RaftNode.ret r = true →
   RaftNode.is_failed n = false
   ∧ RaftNode.voted_for (RaftNode.self r) = Some (Message.from_node m)
   ∧ RaftNode.current_term (RaftNode.self r) = Message.term m
   ∧ RaftNode.sent r
     = [Message.mk "vote_response" (RaftNode.node_id n)
          (Message.from_node m) (Message.term m) (VoteResponseData true)])
  ∧ (RaftNode.ret r = false → RaftNode.sent r = []).
Proof.
  unfold RaftNode.handle_vote_request.
  destruct (RaftNode.is_failed n); [done|].
  unfold RaftNode.adopt_higher_term, RaftNode.can_vote.
  destruct (Z.ltb_spec (RaftNode.current_term n) (Message.term m))
    as [Hlt|Hge]; cbn [RaftNode.current_term RaftNode.voted_for
                       RaftNode.set_state RaftNode.set_voted_for
                       RaftNode.set_current_term].
  - rewrite Z.leb_refl. cbn [andb RaftNode.ret RaftNode.self RaftNode.sent].
    split; [|done]. intros _. done.
  - destruct (Z.leb_spec (RaftNode.current_term n) (Message.term m))
      as [Hle|Hgt]; cbn [andb]; [|done].
    assert (Ht : RaftNode.current_term n = Message.term m) by lia.
    destruct (match RaftNode.voted_for n with
              | Some v => bool_decide (v = Message.from_node m)
              | None => true
              end); cbn [RaftNode.ret RaftNode.self RaftNode.sent]; [|done].
    split; [|done]. intros _. simpl. rewrite Ht. done.
Qed.

(** C10: [votes_received] is a set of ids that [start_election] resets to
    the candidate's own id; a granted response from a node already in the
    set leaves the set as it is and cannot by itself carry the candidate
    over the threshold; handling the same response twice is the same as
    handling it once; and a node made Leader holds strictly more votes than
    half of [cluster_nodes] is long, hence more than half of the cluster's
    distinct ids.  A vote request is granted exactly when
    [handle_vote_request] returns [True]: the voter has then set [voted_for]
    to the requester in the request's term and sent the one response.  And
    in every execution that starts from a freshly built cluster, in either
    wiring, every node knows the member list; every vote held by a
    Candidate or Leader is the id of a member, its own or that of a member
    which granted it its vote in its current term during the execution; and
    every Leader holds strictly more such votes than half of the member list
    is long. *)
Theorem C10_votes_are_a_set_of_distinct_voters
        (n : RaftNode.t) (m : Message.t) (w : Wiring)
        (node_ids : list string) (timeout clock : nat → Time)
        (es : list Event) :
  let r := RaftNode.handle_vote_response n m in
  let rq := RaftNode.handle_vote_request n m in
  let c0 := RaftCluster.start (RaftCluster.init node_ids timeout clock) in
  ((RaftNode.is_failed n = false →
    RaftNode.votes_received (RaftNode.self (RaftNode.start_election n))
    = {[ RaftNode.node_id n ]})
   ∧ (Message.from_node m ∈ RaftNode.votes_received n →
      RaftNode.votes_received (RaftNode.self r) = RaftNode.votes_received n)
   ∧ (Message.from_node m ∈ RaftNode.votes_received n →
      RaftNode.state n ≠ LEADER →
      ¬ len (RaftNode.cluster_nodes n)
        < 2 * Z.of_nat (size (RaftNode.votes_received n)) →
      RaftNode.state (RaftNode.self r) ≠ LEADER)
   ∧ RaftNode.self (RaftNode.handle_vote_response (RaftNode.self r) m)
     = RaftNode.self r
   ∧ (RaftNode.state n ≠ LEADER →
      RaftNode.state (RaftNode.self r) = LEADER →
      RaftNode.votes_received (RaftNode.self r)
      = {[ Message.from_node m ]} ∪ RaftNode.votes_received n
      ∧ Z.of_nat (size (list_to_set (RaftNode.cluster_nodes n) : gset string))
        ≤ len (RaftNode.cluster_nodes n)
      ∧ len (RaftNode.cluster_nodes n)
        < 2 * Z.of_nat (size (RaftNode.votes_received (RaftNode.self r)))))
  ∧ ((RaftNode.ret rq = true →
      RaftNode.is_failed n = false
      ∧ RaftNode.voted_for (RaftNode.self rq) = Some (Message.from_node m)
      ∧ RaftNode.current_term (RaftNode.self rq) = Message.term m
      ∧ RaftNode.sent rq
        = [Message.mk "vote_response" (RaftNode.node_id n)
             (Message.from_node m) (Message.term m) (VoteResponseData true)]
      ∧ grant_of n m
        = [(RaftNode.node_id n, Message.from_node m, Message.term m)])
     ∧ (RaftNode.ret rq = false →
        RaftNode.sent rq = [] ∧ grant_of n m = []))
  ∧ (∀ id nd,
       node_of (run w c0 es) id = Some nd →
       RaftNode.node_id nd = id ∧ id ∈ node_ids
       ∧ RaftNode.cluster_nodes nd = node_ids
       ∧ (RaftNode.state nd = CANDIDATE ∨ RaftNode.state nd = LEADER →
          ∀ v, v ∈ RaftNode.votes_received nd →
               v ∈ node_ids
               ∧ (v = id
                  ∨ (v, id, RaftNode.current_term nd) ∈ grants w c0 es))
       ∧ (RaftNode.state nd = LEADER →
          Z.of_nat (size (list_to_set node_ids : gset string))
          ≤ len node_ids
          ∧ len node_ids
            < 2 * Z.of_nat (size (RaftNode.votes_received nd)))).
Proof.
  intros r rq c0. split; [exact (votes_received_is_a_set n m)|]. split.
  - destruct (granted_vote n m) as [Hyes Hno]. fold rq in Hyes, Hno.
    split.
    + intros Hret. destruct (Hyes Hret) as (Hf & Hv & Ht & Hs).
      split; [done|]. split; [done|]. split; [done|]. split; [done|].
      unfold grant_of. fold rq. rewrite Hret, Ht.
      destruct (handle_vote_request_frame_all n m) as (Hid & _).
      fold rq in Hid. cbn zeta in Hid. by rewrite Hid.
    + intros Hret. split; [by apply Hno|].
      unfold grant_of. fold rq. by rewrite Hret.
  - intros id nd Hnd.
    assert (Hinv : cluster_invariant
                     (votes_are_grants node_ids (grants w c0 es))
                     (response_is_grant node_ids (grants w c0 es))
                     (run w c0 es)).
    { apply run_grants_inv; [|done].
      split; [|constructor]. simpl.
      apply init_nodes_grants; [done|constructor]. }
    destruct (Forall_entries_get
                (votes_are_grants node_ids (grants w c0 es))
                _ _ _ (proj1 Hinv) Hnd) as (Hid & Hin & Hcn & Hmaj & Hv).
    split; [done|]. split; [done|]. split; [done|]. split; [done|].
    intros Hs. split; [|by apply Hmaj].
    unfold len. apply inj_le, size_list_to_set_le.
Qed.

(** A Candidate of a five-node cluster that already holds the vote of [n2]
    receives the grant of [n2] once more: the count stays at two, short of
    the three it needs.  And in the three-node cluster, when [n1] has won
    the election of term 1, the vote of [n2] that it holds was granted by
    [n2] in term 1. *)
Lemma C10_votes_are_a_set_of_distinct_voters_witness :
  let n := RaftNode.set_votes_received
             (RaftNode.set_voted_for
                (RaftNode.set_current_term
                   (RaftNode.set_state
                      (RaftNode.init "n1" ["n1"; "n2"; "n3"; "n4"; "n5"] 1500 0)
                      CANDIDATE) 1)
                (Some "n1"))
             {[ "n1"; "n2" ]} in
  let m := Message.mk "vote_response" "n2" "n1" 1 (VoteResponseData true) in
  let r := RaftNode.handle_vote_response n m in
  let es := [Tick "n1" 1501; Process (at_time 1510);
             Process (at_time 1520)] in
  (RaftNode.votes_received (RaftNode.self r) = RaftNode.votes_received n
   ∧ RaftNode.state (RaftNode.self r) ≠ LEADER)
  ∧ RaftNode.state <$> node_of (run ClusterQueue cluster3 es) "n1"
    = Some LEADER
  ∧ ("n2", "n1", 1) ∈ grants ClusterQueue cluster3 es.
Proof.
  intros n m r es.
  set (nd := default fresh_node (node_of (run ClusterQueue cluster3 es) "n1")).
  destruct (C10_votes_are_a_set_of_distinct_voters n m ClusterQueue
              ["n1"; "n2"; "n3"] timeouts3 (λ _, 0) es)
    as ((_ & Hset & Hcount & _) & _ & Hrun).
  assert (Hin : Message.from_node m ∈ RaftNode.votes_received n)
    by (simpl; set_solver).
  split; [|split].
  - split.
    + apply Hset, Hin.
    + apply Hcount; [exact Hin | simpl; congruence | vm_compute; congruence].
  - vm_compute. reflexivity.
  - destruct (Hrun "n1" nd) as (_ & _ & _ & Hv & _);
      [vm_compute; reflexivity|].
    assert (Hs : RaftNode.state nd = CANDIDATE ∨ RaftNode.state nd = LEADER)
      by (right; vm_compute; reflexivity).
    assert (Ht : RaftNode.current_term nd = 1) by (vm_compute; reflexivity).
    destruct (Hv Hs "n2") as [_ [Heq|Hg]];
      [compute_done|discriminate|].
    rewrite Ht in Hg. exact Hg.
Defined.
